(** * Lanyard MCP server: the identifier validator, the formatters and the
      three tools of [lanyard_server.py], embedded in Rocq.

    Python values are modelled dynamically, the way the interpreter sees a
    decoded JSON body: a [str] is its sequence of Unicode code points, a
    [dict] an association list in insertion order, and an operation that can
    raise returns a [result].  The tools run in a small monad that records
    the outbound requests and the log lines. *)

From Stdlib Require Import Ascii String.
From Stdlib Require Import ZArith NArith List Bool Lia.
From Stdlib Require DecimalString.
Import ListNotations.

Set Implicit Arguments.

(** ** Python strings *)

Module PyStr.

(** A Python [str] is a sequence of code points. *)
Definition codepoint := N.
Definition pystr := list codepoint.

Definition bytes_of_string (s : String.string) : list N :=
  map N_of_ascii (String.list_ascii_of_string s).

(** UTF-8 decoding of a literal of this file: [need] continuation bytes are
    still expected for the code point accumulated in [acc]. *)
Fixpoint utf8_decode (bs : list N) (need : nat) (acc : N) : pystr :=
  match bs with
  | [] => []
  | b :: bs' =>
    match need with
    | O =>
      if (b <? 0x80)%N then b :: utf8_decode bs' 0 0%N
      else if (b <? 0xE0)%N then utf8_decode bs' 1 (b - 0xC0)%N
      else if (b <? 0xF0)%N then utf8_decode bs' 2 (b - 0xE0)%N
      else utf8_decode bs' 3 (b - 0xF0)%N
    | S O => (acc * 64 + (b - 0x80))%N :: utf8_decode bs' 0 0%N
    | S n => utf8_decode bs' n (acc * 64 + (b - 0x80))%N
    end
  end.

(** The escape [\n] of a Python literal, the only one the source uses. *)
Fixpoint unescape (s : pystr) : pystr :=
  match s with
  | 0x5C%N :: 0x6E%N :: s' => 0xA%N :: unescape s'
  | c :: s' => c :: unescape s'
  | [] => []
  end.

(** [u "..."] is the Python string written by the literal. *)
Definition u (s : String.string) : pystr :=
  unescape (utf8_decode (bytes_of_string s) 0 0%N).

Definition in_ranges (c : codepoint) (tbl : list (N * N)) : bool :=
  existsb (fun r => (fst r <=? c)%N && (c <=? snd r)%N) tbl.

(** The code points [str.strip()] and [str.isspace()] treat as whitespace. *)
Definition whitespace_table : list (N * N) :=
  [ (0x9, 0xD); (0x1C, 0x20); (0x85, 0x85); (0xA0, 0xA0); (0x1680, 0x1680);
    (0x2000, 0x200A); (0x2028, 0x2029); (0x202F, 0x202F); (0x205F, 0x205F);
    (0x3000, 0x3000) ]%N.

Definition isspace (c : codepoint) : bool := in_ranges c whitespace_table.

(** The code points with Unicode property Numeric_Type=Decimal or Digit,
    the ones [str.isdigit()] accepts (Unicode 14.0, CPython 3.11). *)
Definition digit_table : list (N * N) :=
  [
     (0x30, 0x39); (0xB2, 0xB3); (0xB9, 0xB9); (0x660, 0x669); (0x6F0, 0x6F9); (0x7C0, 0x7C9);
     (0x966, 0x96F); (0x9E6, 0x9EF); (0xA66, 0xA6F); (0xAE6, 0xAEF); (0xB66, 0xB6F); (0xBE6, 0xBEF);
     (0xC66, 0xC6F); (0xCE6, 0xCEF); (0xD66, 0xD6F); (0xDE6, 0xDEF); (0xE50, 0xE59); (0xED0, 0xED9);
     (0xF20, 0xF29); (0x1040, 0x1049); (0x1090, 0x1099); (0x1369, 0x1371); (0x17E0, 0x17E9); (0x1810, 0x1819);
     (0x1946, 0x194F); (0x19D0, 0x19DA); (0x1A80, 0x1A89); (0x1A90, 0x1A99); (0x1B50, 0x1B59); (0x1BB0, 0x1BB9);
     (0x1C40, 0x1C49); (0x1C50, 0x1C59); (0x2070, 0x2070); (0x2074, 0x2079); (0x2080, 0x2089); (0x2460, 0x2468);
     (0x2474, 0x247C); (0x2488, 0x2490); (0x24EA, 0x24EA); (0x24F5, 0x24FD); (0x24FF, 0x24FF); (0x2776, 0x277E);
     (0x2780, 0x2788); (0x278A, 0x2792); (0xA620, 0xA629); (0xA8D0, 0xA8D9); (0xA900, 0xA909); (0xA9D0, 0xA9D9);
     (0xA9F0, 0xA9F9); (0xAA50, 0xAA59); (0xABF0, 0xABF9); (0xFF10, 0xFF19); (0x104A0, 0x104A9); (0x10A40, 0x10A43);
     (0x10D30, 0x10D39); (0x10E60, 0x10E68); (0x11052, 0x1105A); (0x11066, 0x1106F); (0x110F0, 0x110F9); (0x11136, 0x1113F);
     (0x111D0, 0x111D9); (0x112F0, 0x112F9); (0x11450, 0x11459); (0x114D0, 0x114D9); (0x11650, 0x11659); (0x116C0, 0x116C9);
     (0x11730, 0x11739); (0x118E0, 0x118E9); (0x11950, 0x11959); (0x11C50, 0x11C59); (0x11D50, 0x11D59); (0x11DA0, 0x11DA9);
     (0x16A60, 0x16A69); (0x16AC0, 0x16AC9); (0x16B50, 0x16B59); (0x1D7CE, 0x1D7FF); (0x1E140, 0x1E149); (0x1E2F0, 0x1E2F9);
     (0x1E950, 0x1E959); (0x1F100, 0x1F10A); (0x1FBF0, 0x1FBF9) ]%N.

Definition isdigit_cp (c : codepoint) : bool := in_ranges c digit_table.

Definition is_ascii_digit (c : codepoint) : bool :=
  (0x30 <=? c)%N && (c <=? 0x39)%N.

Definition is_ascii (c : codepoint) : bool := (c <? 0x80)%N.

(** [str.isdigit()]: every character is a digit and there is at least one. *)
Definition isdigit (s : pystr) : bool :=
  match s with
  | [] => false
  | _ => forallb isdigit_cp s
  end.

Fixpoint dropwhile (p : codepoint -> bool) (s : pystr) : pystr :=
  match s with
  | [] => []
  | c :: s' => if p c then dropwhile p s' else s
  end.

Definition lstrip (s : pystr) : pystr := dropwhile isspace s.
Definition rstrip (s : pystr) : pystr := rev (dropwhile isspace (rev s)).

(** [str.strip()] with no argument. *)
Definition strip (s : pystr) : pystr := rstrip (lstrip s).

(** [str.upper()] maps every character through the full Unicode upper-case
    mapping.  [upper_runs] lists the one-to-one mappings as
    [(first, last, step, image of first)]; [upper_special] the characters
    whose upper case is several characters. *)
Definition upper_runs : list (N * N * N * N) :=
  [
     (0x61, 0x7A, 1, 0x41); (0xB5, 0xB5, 1, 0x39C); (0xE0, 0xF6, 1, 0xC0); (0xF8, 0xFE, 1, 0xD8);
     (0xFF, 0xFF, 1, 0x178); (0x101, 0x12F, 2, 0x100); (0x131, 0x131, 1, 0x49); (0x133, 0x137, 2, 0x132);
     (0x13A, 0x148, 2, 0x139); (0x14B, 0x177, 2, 0x14A); (0x17A, 0x17E, 2, 0x179); (0x17F, 0x17F, 1, 0x53);
     (0x180, 0x180, 1, 0x243); (0x183, 0x185, 2, 0x182); (0x188, 0x188, 1, 0x187); (0x18C, 0x18C, 1, 0x18B);
     (0x192, 0x192, 1, 0x191); (0x195, 0x195, 1, 0x1F6); (0x199, 0x199, 1, 0x198); (0x19A, 0x19A, 1, 0x23D);
     (0x19E, 0x19E, 1, 0x220); (0x1A1, 0x1A5, 2, 0x1A0); (0x1A8, 0x1A8, 1, 0x1A7); (0x1AD, 0x1AD, 1, 0x1AC);
     (0x1B0, 0x1B0, 1, 0x1AF); (0x1B4, 0x1B6, 2, 0x1B3); (0x1B9, 0x1B9, 1, 0x1B8); (0x1BD, 0x1BD, 1, 0x1BC);
     (0x1BF, 0x1BF, 1, 0x1F7); (0x1C5, 0x1C5, 1, 0x1C4); (0x1C6, 0x1C6, 1, 0x1C4); (0x1C8, 0x1C8, 1, 0x1C7);
     (0x1C9, 0x1C9, 1, 0x1C7); (0x1CB, 0x1CB, 1, 0x1CA); (0x1CC, 0x1CC, 1, 0x1CA); (0x1CE, 0x1DC, 2, 0x1CD);
     (0x1DD, 0x1DD, 1, 0x18E); (0x1DF, 0x1EF, 2, 0x1DE); (0x1F2, 0x1F2, 1, 0x1F1); (0x1F3, 0x1F3, 1, 0x1F1);
     (0x1F5, 0x1F5, 1, 0x1F4); (0x1F9, 0x21F, 2, 0x1F8); (0x223, 0x233, 2, 0x222); (0x23C, 0x23C, 1, 0x23B);
     (0x23F, 0x240, 1, 0x2C7E); (0x242, 0x242, 1, 0x241); (0x247, 0x24F, 2, 0x246); (0x250, 0x250, 1, 0x2C6F);
     (0x251, 0x251, 1, 0x2C6D); (0x252, 0x252, 1, 0x2C70); (0x253, 0x253, 1, 0x181); (0x254, 0x254, 1, 0x186);
     (0x256, 0x257, 1, 0x189); (0x259, 0x259, 1, 0x18F); (0x25B, 0x25B, 1, 0x190); (0x25C, 0x25C, 1, 0xA7AB);
     (0x260, 0x260, 1, 0x193); (0x261, 0x261, 1, 0xA7AC); (0x263, 0x263, 1, 0x194); (0x265, 0x265, 1, 0xA78D);
     (0x266, 0x266, 1, 0xA7AA); (0x268, 0x268, 1, 0x197); (0x269, 0x269, 1, 0x196); (0x26A, 0x26A, 1, 0xA7AE);
     (0x26B, 0x26B, 1, 0x2C62); (0x26C, 0x26C, 1, 0xA7AD); (0x26F, 0x26F, 1, 0x19C); (0x271, 0x271, 1, 0x2C6E);
     (0x272, 0x272, 1, 0x19D); (0x275, 0x275, 1, 0x19F); (0x27D, 0x27D, 1, 0x2C64); (0x280, 0x280, 1, 0x1A6);
     (0x282, 0x282, 1, 0xA7C5); (0x283, 0x283, 1, 0x1A9); (0x287, 0x287, 1, 0xA7B1); (0x288, 0x288, 1, 0x1AE);
     (0x289, 0x289, 1, 0x244); (0x28A, 0x28B, 1, 0x1B1); (0x28C, 0x28C, 1, 0x245); (0x292, 0x292, 1, 0x1B7);
     (0x29D, 0x29D, 1, 0xA7B2); (0x29E, 0x29E, 1, 0xA7B0); (0x345, 0x345, 1, 0x399); (0x371, 0x373, 2, 0x370);
     (0x377, 0x377, 1, 0x376); (0x37B, 0x37D, 1, 0x3FD); (0x3AC, 0x3AC, 1, 0x386); (0x3AD, 0x3AF, 1, 0x388);
     (0x3B1, 0x3C1, 1, 0x391); (0x3C2, 0x3C2, 1, 0x3A3); (0x3C3, 0x3CB, 1, 0x3A3); (0x3CC, 0x3CC, 1, 0x38C);
     (0x3CD, 0x3CE, 1, 0x38E); (0x3D0, 0x3D0, 1, 0x392); (0x3D1, 0x3D1, 1, 0x398); (0x3D5, 0x3D5, 1, 0x3A6);
     (0x3D6, 0x3D6, 1, 0x3A0); (0x3D7, 0x3D7, 1, 0x3CF); (0x3D9, 0x3EF, 2, 0x3D8); (0x3F0, 0x3F0, 1, 0x39A);
     (0x3F1, 0x3F1, 1, 0x3A1); (0x3F2, 0x3F2, 1, 0x3F9); (0x3F3, 0x3F3, 1, 0x37F); (0x3F5, 0x3F5, 1, 0x395);
     (0x3F8, 0x3F8, 1, 0x3F7); (0x3FB, 0x3FB, 1, 0x3FA); (0x430, 0x44F, 1, 0x410); (0x450, 0x45F, 1, 0x400);
     (0x461, 0x481, 2, 0x460); (0x48B, 0x4BF, 2, 0x48A); (0x4C2, 0x4CE, 2, 0x4C1); (0x4CF, 0x4CF, 1, 0x4C0);
     (0x4D1, 0x52F, 2, 0x4D0); (0x561, 0x586, 1, 0x531); (0x10D0, 0x10FA, 1, 0x1C90); (0x10FD, 0x10FF, 1, 0x1CBD);
     (0x13F8, 0x13FD, 1, 0x13F0); (0x1C80, 0x1C80, 1, 0x412); (0x1C81, 0x1C81, 1, 0x414); (0x1C82, 0x1C82, 1, 0x41E);
     (0x1C83, 0x1C84, 1, 0x421); (0x1C85, 0x1C85, 1, 0x422); (0x1C86, 0x1C86, 1, 0x42A); (0x1C87, 0x1C87, 1, 0x462);
     (0x1C88, 0x1C88, 1, 0xA64A); (0x1D79, 0x1D79, 1, 0xA77D); (0x1D7D, 0x1D7D, 1, 0x2C63); (0x1D8E, 0x1D8E, 1, 0xA7C6);
     (0x1E01, 0x1E95, 2, 0x1E00); (0x1E9B, 0x1E9B, 1, 0x1E60); (0x1EA1, 0x1EFF, 2, 0x1EA0); (0x1F00, 0x1F07, 1, 0x1F08);
     (0x1F10, 0x1F15, 1, 0x1F18); (0x1F20, 0x1F27, 1, 0x1F28); (0x1F30, 0x1F37, 1, 0x1F38); (0x1F40, 0x1F45, 1, 0x1F48);
     (0x1F51, 0x1F57, 2, 0x1F59); (0x1F60, 0x1F67, 1, 0x1F68); (0x1F70, 0x1F71, 1, 0x1FBA); (0x1F72, 0x1F75, 1, 0x1FC8);
     (0x1F76, 0x1F77, 1, 0x1FDA); (0x1F78, 0x1F79, 1, 0x1FF8); (0x1F7A, 0x1F7B, 1, 0x1FEA); (0x1F7C, 0x1F7D, 1, 0x1FFA);
     (0x1FB0, 0x1FB1, 1, 0x1FB8); (0x1FBE, 0x1FBE, 1, 0x399); (0x1FD0, 0x1FD1, 1, 0x1FD8); (0x1FE0, 0x1FE1, 1, 0x1FE8);
     (0x1FE5, 0x1FE5, 1, 0x1FEC); (0x214E, 0x214E, 1, 0x2132); (0x2170, 0x217F, 1, 0x2160); (0x2184, 0x2184, 1, 0x2183);
     (0x24D0, 0x24E9, 1, 0x24B6); (0x2C30, 0x2C5F, 1, 0x2C00); (0x2C61, 0x2C61, 1, 0x2C60); (0x2C65, 0x2C65, 1, 0x23A);
     (0x2C66, 0x2C66, 1, 0x23E); (0x2C68, 0x2C6C, 2, 0x2C67); (0x2C73, 0x2C73, 1, 0x2C72); (0x2C76, 0x2C76, 1, 0x2C75);
     (0x2C81, 0x2CE3, 2, 0x2C80); (0x2CEC, 0x2CEE, 2, 0x2CEB); (0x2CF3, 0x2CF3, 1, 0x2CF2); (0x2D00, 0x2D25, 1, 0x10A0);
     (0x2D27, 0x2D27, 1, 0x10C7); (0x2D2D, 0x2D2D, 1, 0x10CD); (0xA641, 0xA66D, 2, 0xA640); (0xA681, 0xA69B, 2, 0xA680);
     (0xA723, 0xA72F, 2, 0xA722); (0xA733, 0xA76F, 2, 0xA732); (0xA77A, 0xA77C, 2, 0xA779); (0xA77F, 0xA787, 2, 0xA77E);
     (0xA78C, 0xA78C, 1, 0xA78B); (0xA791, 0xA793, 2, 0xA790); (0xA794, 0xA794, 1, 0xA7C4); (0xA797, 0xA7A9, 2, 0xA796);
     (0xA7B5, 0xA7C3, 2, 0xA7B4); (0xA7C8, 0xA7CA, 2, 0xA7C7); (0xA7D1, 0xA7D1, 1, 0xA7D0); (0xA7D7, 0xA7D9, 2, 0xA7D6);
     (0xA7F6, 0xA7F6, 1, 0xA7F5); (0xAB53, 0xAB53, 1, 0xA7B3); (0xAB70, 0xABBF, 1, 0x13A0); (0xFF41, 0xFF5A, 1, 0xFF21);
     (0x10428, 0x1044F, 1, 0x10400); (0x104D8, 0x104FB, 1, 0x104B0); (0x10597, 0x105A1, 1, 0x10570); (0x105A3, 0x105B1, 1, 0x1057C);
     (0x105B3, 0x105B9, 1, 0x1058C); (0x105BB, 0x105BC, 1, 0x10594); (0x10CC0, 0x10CF2, 1, 0x10C80); (0x118C0, 0x118DF, 1, 0x118A0);
     (0x16E60, 0x16E7F, 1, 0x16E40); (0x1E922, 0x1E943, 1, 0x1E900)
 ]%N.

Definition upper_special : list (N * list N) :=
  [
     (0xDF, [0x53; 0x53]); (0x149, [0x2BC; 0x4E]); (0x1F0, [0x4A; 0x30C]); (0x390, [0x399; 0x308; 0x301]);
     (0x3B0, [0x3A5; 0x308; 0x301]); (0x587, [0x535; 0x552]); (0x1E96, [0x48; 0x331]); (0x1E97, [0x54; 0x308]);
     (0x1E98, [0x57; 0x30A]); (0x1E99, [0x59; 0x30A]); (0x1E9A, [0x41; 0x2BE]); (0x1F50, [0x3A5; 0x313]);
     (0x1F52, [0x3A5; 0x313; 0x300]); (0x1F54, [0x3A5; 0x313; 0x301]); (0x1F56, [0x3A5; 0x313; 0x342]); (0x1F80, [0x1F08; 0x399]);
     (0x1F81, [0x1F09; 0x399]); (0x1F82, [0x1F0A; 0x399]); (0x1F83, [0x1F0B; 0x399]); (0x1F84, [0x1F0C; 0x399]);
     (0x1F85, [0x1F0D; 0x399]); (0x1F86, [0x1F0E; 0x399]); (0x1F87, [0x1F0F; 0x399]); (0x1F88, [0x1F08; 0x399]);
     (0x1F89, [0x1F09; 0x399]); (0x1F8A, [0x1F0A; 0x399]); (0x1F8B, [0x1F0B; 0x399]); (0x1F8C, [0x1F0C; 0x399]);
     (0x1F8D, [0x1F0D; 0x399]); (0x1F8E, [0x1F0E; 0x399]); (0x1F8F, [0x1F0F; 0x399]); (0x1F90, [0x1F28; 0x399]);
     (0x1F91, [0x1F29; 0x399]); (0x1F92, [0x1F2A; 0x399]); (0x1F93, [0x1F2B; 0x399]); (0x1F94, [0x1F2C; 0x399]);
     (0x1F95, [0x1F2D; 0x399]); (0x1F96, [0x1F2E; 0x399]); (0x1F97, [0x1F2F; 0x399]); (0x1F98, [0x1F28; 0x399]);
     (0x1F99, [0x1F29; 0x399]); (0x1F9A, [0x1F2A; 0x399]); (0x1F9B, [0x1F2B; 0x399]); (0x1F9C, [0x1F2C; 0x399]);
     (0x1F9D, [0x1F2D; 0x399]); (0x1F9E, [0x1F2E; 0x399]); (0x1F9F, [0x1F2F; 0x399]); (0x1FA0, [0x1F68; 0x399]);
     (0x1FA1, [0x1F69; 0x399]); (0x1FA2, [0x1F6A; 0x399]); (0x1FA3, [0x1F6B; 0x399]); (0x1FA4, [0x1F6C; 0x399]);
     (0x1FA5, [0x1F6D; 0x399]); (0x1FA6, [0x1F6E; 0x399]); (0x1FA7, [0x1F6F; 0x399]); (0x1FA8, [0x1F68; 0x399]);
     (0x1FA9, [0x1F69; 0x399]); (0x1FAA, [0x1F6A; 0x399]); (0x1FAB, [0x1F6B; 0x399]); (0x1FAC, [0x1F6C; 0x399]);
     (0x1FAD, [0x1F6D; 0x399]); (0x1FAE, [0x1F6E; 0x399]); (0x1FAF, [0x1F6F; 0x399]); (0x1FB2, [0x1FBA; 0x399]);
     (0x1FB3, [0x391; 0x399]); (0x1FB4, [0x386; 0x399]); (0x1FB6, [0x391; 0x342]); (0x1FB7, [0x391; 0x342; 0x399]);
     (0x1FBC, [0x391; 0x399]); (0x1FC2, [0x1FCA; 0x399]); (0x1FC3, [0x397; 0x399]); (0x1FC4, [0x389; 0x399]);
     (0x1FC6, [0x397; 0x342]); (0x1FC7, [0x397; 0x342; 0x399]); (0x1FCC, [0x397; 0x399]); (0x1FD2, [0x399; 0x308; 0x300]);
     (0x1FD3, [0x399; 0x308; 0x301]); (0x1FD6, [0x399; 0x342]); (0x1FD7, [0x399; 0x308; 0x342]); (0x1FE2, [0x3A5; 0x308; 0x300]);
     (0x1FE3, [0x3A5; 0x308; 0x301]); (0x1FE4, [0x3A1; 0x313]); (0x1FE6, [0x3A5; 0x342]); (0x1FE7, [0x3A5; 0x308; 0x342]);
     (0x1FF2, [0x1FFA; 0x399]); (0x1FF3, [0x3A9; 0x399]); (0x1FF4, [0x38F; 0x399]); (0x1FF6, [0x3A9; 0x342]);
     (0x1FF7, [0x3A9; 0x342; 0x399]); (0x1FFC, [0x3A9; 0x399]); (0xFB00, [0x46; 0x46]); (0xFB01, [0x46; 0x49]);
     (0xFB02, [0x46; 0x4C]); (0xFB03, [0x46; 0x46; 0x49]); (0xFB04, [0x46; 0x46; 0x4C]); (0xFB05, [0x53; 0x54]);
     (0xFB06, [0x53; 0x54]); (0xFB13, [0x544; 0x546]); (0xFB14, [0x544; 0x535]); (0xFB15, [0x544; 0x53B]);
     (0xFB16, [0x54E; 0x546]); (0xFB17, [0x544; 0x53D])
 ]%N.

Fixpoint lookup_special (c : codepoint) (tbl : list (N * list N))
  : option (list N) :=
  match tbl with
  | [] => None
  | (k, img) :: tbl' => if (k =? c)%N then Some img else lookup_special c tbl'
  end.

Fixpoint lookup_run (c : codepoint) (tbl : list (N * N * N * N)) : option N :=
  match tbl with
  | [] => None
  | (lo, hi, step, img) :: tbl' =>
    if (lo <=? c)%N && (c <=? hi)%N && ((c - lo) mod step =? 0)%N
    then Some (img + (c - lo))%N
    else lookup_run c tbl'
  end.

Definition upper_cp (c : codepoint) : pystr :=
  match lookup_special c upper_special with
  | Some img => img
  | None =>
    match lookup_run c upper_runs with
    | Some c' => [c']
    | None => [c]
    end
  end.

Definition upper (s : pystr) : pystr := flat_map upper_cp s.

(** The code points [str.isprintable()] rejects; [repr] escapes them. *)
Definition nonprintable_table : list (N * N) :=
  [
     (0x0, 0x1F); (0x7F, 0xA0); (0xAD, 0xAD); (0x378, 0x379); (0x380, 0x383); (0x38B, 0x38B);
     (0x38D, 0x38D); (0x3A2, 0x3A2); (0x530, 0x530); (0x557, 0x558); (0x58B, 0x58C); (0x590, 0x590);
     (0x5C8, 0x5CF); (0x5EB, 0x5EE); (0x5F5, 0x605); (0x61C, 0x61C); (0x6DD, 0x6DD); (0x70E, 0x70F);
     (0x74B, 0x74C); (0x7B2, 0x7BF); (0x7FB, 0x7FC); (0x82E, 0x82F); (0x83F, 0x83F); (0x85C, 0x85D);
     (0x85F, 0x85F); (0x86B, 0x86F); (0x88F, 0x897); (0x8E2, 0x8E2); (0x984, 0x984); (0x98D, 0x98E);
     (0x991, 0x992); (0x9A9, 0x9A9); (0x9B1, 0x9B1); (0x9B3, 0x9B5); (0x9BA, 0x9BB); (0x9C5, 0x9C6);
     (0x9C9, 0x9CA); (0x9CF, 0x9D6); (0x9D8, 0x9DB); (0x9DE, 0x9DE); (0x9E4, 0x9E5); (0x9FF, 0xA00);
     (0xA04, 0xA04); (0xA0B, 0xA0E); (0xA11, 0xA12); (0xA29, 0xA29); (0xA31, 0xA31); (0xA34, 0xA34);
     (0xA37, 0xA37); (0xA3A, 0xA3B); (0xA3D, 0xA3D); (0xA43, 0xA46); (0xA49, 0xA4A); (0xA4E, 0xA50);
     (0xA52, 0xA58); (0xA5D, 0xA5D); (0xA5F, 0xA65); (0xA77, 0xA80); (0xA84, 0xA84); (0xA8E, 0xA8E);
     (0xA92, 0xA92); (0xAA9, 0xAA9); (0xAB1, 0xAB1); (0xAB4, 0xAB4); (0xABA, 0xABB); (0xAC6, 0xAC6);
     (0xACA, 0xACA); (0xACE, 0xACF); (0xAD1, 0xADF); (0xAE4, 0xAE5); (0xAF2, 0xAF8); (0xB00, 0xB00);
     (0xB04, 0xB04); (0xB0D, 0xB0E); (0xB11, 0xB12); (0xB29, 0xB29); (0xB31, 0xB31); (0xB34, 0xB34);
     (0xB3A, 0xB3B); (0xB45, 0xB46); (0xB49, 0xB4A); (0xB4E, 0xB54); (0xB58, 0xB5B); (0xB5E, 0xB5E);
     (0xB64, 0xB65); (0xB78, 0xB81); (0xB84, 0xB84); (0xB8B, 0xB8D); (0xB91, 0xB91); (0xB96, 0xB98);
     (0xB9B, 0xB9B); (0xB9D, 0xB9D); (0xBA0, 0xBA2); (0xBA5, 0xBA7); (0xBAB, 0xBAD); (0xBBA, 0xBBD);
     (0xBC3, 0xBC5); (0xBC9, 0xBC9); (0xBCE, 0xBCF); (0xBD1, 0xBD6); (0xBD8, 0xBE5); (0xBFB, 0xBFF);
     (0xC0D, 0xC0D); (0xC11, 0xC11); (0xC29, 0xC29); (0xC3A, 0xC3B); (0xC45, 0xC45); (0xC49, 0xC49);
     (0xC4E, 0xC54); (0xC57, 0xC57); (0xC5B, 0xC5C); (0xC5E, 0xC5F); (0xC64, 0xC65); (0xC70, 0xC76);
     (0xC8D, 0xC8D); (0xC91, 0xC91); (0xCA9, 0xCA9); (0xCB4, 0xCB4); (0xCBA, 0xCBB); (0xCC5, 0xCC5);
     (0xCC9, 0xCC9); (0xCCE, 0xCD4); (0xCD7, 0xCDC); (0xCDF, 0xCDF); (0xCE4, 0xCE5); (0xCF0, 0xCF0);
     (0xCF3, 0xCFF); (0xD0D, 0xD0D); (0xD11, 0xD11); (0xD45, 0xD45); (0xD49, 0xD49); (0xD50, 0xD53);
     (0xD64, 0xD65); (0xD80, 0xD80); (0xD84, 0xD84); (0xD97, 0xD99); (0xDB2, 0xDB2); (0xDBC, 0xDBC);
     (0xDBE, 0xDBF); (0xDC7, 0xDC9); (0xDCB, 0xDCE); (0xDD5, 0xDD5); (0xDD7, 0xDD7); (0xDE0, 0xDE5);
     (0xDF0, 0xDF1); (0xDF5, 0xE00); (0xE3B, 0xE3E); (0xE5C, 0xE80); (0xE83, 0xE83); (0xE85, 0xE85);
     (0xE8B, 0xE8B); (0xEA4, 0xEA4); (0xEA6, 0xEA6); (0xEBE, 0xEBF); (0xEC5, 0xEC5); (0xEC7, 0xEC7);
     (0xECE, 0xECF); (0xEDA, 0xEDB); (0xEE0, 0xEFF); (0xF48, 0xF48); (0xF6D, 0xF70); (0xF98, 0xF98);
     (0xFBD, 0xFBD); (0xFCD, 0xFCD); (0xFDB, 0xFFF); (0x10C6, 0x10C6); (0x10C8, 0x10CC); (0x10CE, 0x10CF);
     (0x1249, 0x1249); (0x124E, 0x124F); (0x1257, 0x1257); (0x1259, 0x1259); (0x125E, 0x125F); (0x1289, 0x1289);
     (0x128E, 0x128F); (0x12B1, 0x12B1); (0x12B6, 0x12B7); (0x12BF, 0x12BF); (0x12C1, 0x12C1); (0x12C6, 0x12C7);
     (0x12D7, 0x12D7); (0x1311, 0x1311); (0x1316, 0x1317); (0x135B, 0x135C); (0x137D, 0x137F); (0x139A, 0x139F);
     (0x13F6, 0x13F7); (0x13FE, 0x13FF); (0x1680, 0x1680); (0x169D, 0x169F); (0x16F9, 0x16FF); (0x1716, 0x171E);
     (0x1737, 0x173F); (0x1754, 0x175F); (0x176D, 0x176D); (0x1771, 0x1771); (0x1774, 0x177F); (0x17DE, 0x17DF);
     (0x17EA, 0x17EF); (0x17FA, 0x17FF); (0x180E, 0x180E); (0x181A, 0x181F); (0x1879, 0x187F); (0x18AB, 0x18AF);
     (0x18F6, 0x18FF); (0x191F, 0x191F); (0x192C, 0x192F); (0x193C, 0x193F); (0x1941, 0x1943); (0x196E, 0x196F);
     (0x1975, 0x197F); (0x19AC, 0x19AF); (0x19CA, 0x19CF); (0x19DB, 0x19DD); (0x1A1C, 0x1A1D); (0x1A5F, 0x1A5F);
     (0x1A7D, 0x1A7E); (0x1A8A, 0x1A8F); (0x1A9A, 0x1A9F); (0x1AAE, 0x1AAF); (0x1ACF, 0x1AFF); (0x1B4D, 0x1B4F);
     (0x1B7F, 0x1B7F); (0x1BF4, 0x1BFB); (0x1C38, 0x1C3A); (0x1C4A, 0x1C4C); (0x1C89, 0x1C8F); (0x1CBB, 0x1CBC);
     (0x1CC8, 0x1CCF); (0x1CFB, 0x1CFF); (0x1F16, 0x1F17); (0x1F1E, 0x1F1F); (0x1F46, 0x1F47); (0x1F4E, 0x1F4F);
     (0x1F58, 0x1F58); (0x1F5A, 0x1F5A); (0x1F5C, 0x1F5C); (0x1F5E, 0x1F5E); (0x1F7E, 0x1F7F); (0x1FB5, 0x1FB5);
     (0x1FC5, 0x1FC5); (0x1FD4, 0x1FD5); (0x1FDC, 0x1FDC); (0x1FF0, 0x1FF1); (0x1FF5, 0x1FF5); (0x1FFF, 0x200F);
     (0x2028, 0x202F); (0x205F, 0x206F); (0x2072, 0x2073); (0x208F, 0x208F); (0x209D, 0x209F); (0x20C1, 0x20CF);
     (0x20F1, 0x20FF); (0x218C, 0x218F); (0x2427, 0x243F); (0x244B, 0x245F); (0x2B74, 0x2B75); (0x2B96, 0x2B96);
     (0x2CF4, 0x2CF8); (0x2D26, 0x2D26); (0x2D28, 0x2D2C); (0x2D2E, 0x2D2F); (0x2D68, 0x2D6E); (0x2D71, 0x2D7E);
     (0x2D97, 0x2D9F); (0x2DA7, 0x2DA7); (0x2DAF, 0x2DAF); (0x2DB7, 0x2DB7); (0x2DBF, 0x2DBF); (0x2DC7, 0x2DC7);
     (0x2DCF, 0x2DCF); (0x2DD7, 0x2DD7); (0x2DDF, 0x2DDF); (0x2E5E, 0x2E7F); (0x2E9A, 0x2E9A); (0x2EF4, 0x2EFF);
     (0x2FD6, 0x2FEF); (0x2FFC, 0x3000); (0x3040, 0x3040); (0x3097, 0x3098); (0x3100, 0x3104); (0x3130, 0x3130);
     (0x318F, 0x318F); (0x31E4, 0x31EF); (0x321F, 0x321F); (0xA48D, 0xA48F); (0xA4C7, 0xA4CF); (0xA62C, 0xA63F);
     (0xA6F8, 0xA6FF); (0xA7CB, 0xA7CF); (0xA7D2, 0xA7D2); (0xA7D4, 0xA7D4); (0xA7DA, 0xA7F1); (0xA82D, 0xA82F);
     (0xA83A, 0xA83F); (0xA878, 0xA87F); (0xA8C6, 0xA8CD); (0xA8DA, 0xA8DF); (0xA954, 0xA95E); (0xA97D, 0xA97F);
     (0xA9CE, 0xA9CE); (0xA9DA, 0xA9DD); (0xA9FF, 0xA9FF); (0xAA37, 0xAA3F); (0xAA4E, 0xAA4F); (0xAA5A, 0xAA5B);
     (0xAAC3, 0xAADA); (0xAAF7, 0xAB00); (0xAB07, 0xAB08); (0xAB0F, 0xAB10); (0xAB17, 0xAB1F); (0xAB27, 0xAB27);
     (0xAB2F, 0xAB2F); (0xAB6C, 0xAB6F); (0xABEE, 0xABEF); (0xABFA, 0xABFF); (0xD7A4, 0xD7AF); (0xD7C7, 0xD7CA);
     (0xD7FC, 0xF8FF); (0xFA6E, 0xFA6F); (0xFADA, 0xFAFF); (0xFB07, 0xFB12); (0xFB18, 0xFB1C); (0xFB37, 0xFB37);
     (0xFB3D, 0xFB3D); (0xFB3F, 0xFB3F); (0xFB42, 0xFB42); (0xFB45, 0xFB45); (0xFBC3, 0xFBD2); (0xFD90, 0xFD91);
     (0xFDC8, 0xFDCE); (0xFDD0, 0xFDEF); (0xFE1A, 0xFE1F); (0xFE53, 0xFE53); (0xFE67, 0xFE67); (0xFE6C, 0xFE6F);
     (0xFE75, 0xFE75); (0xFEFD, 0xFF00); (0xFFBF, 0xFFC1); (0xFFC8, 0xFFC9); (0xFFD0, 0xFFD1); (0xFFD8, 0xFFD9);
     (0xFFDD, 0xFFDF); (0xFFE7, 0xFFE7); (0xFFEF, 0xFFFB); (0xFFFE, 0xFFFF); (0x1000C, 0x1000C); (0x10027, 0x10027);
     (0x1003B, 0x1003B); (0x1003E, 0x1003E); (0x1004E, 0x1004F); (0x1005E, 0x1007F); (0x100FB, 0x100FF); (0x10103, 0x10106);
     (0x10134, 0x10136); (0x1018F, 0x1018F); (0x1019D, 0x1019F); (0x101A1, 0x101CF); (0x101FE, 0x1027F); (0x1029D, 0x1029F);
     (0x102D1, 0x102DF); (0x102FC, 0x102FF); (0x10324, 0x1032C); (0x1034B, 0x1034F); (0x1037B, 0x1037F); (0x1039E, 0x1039E);
     (0x103C4, 0x103C7); (0x103D6, 0x103FF); (0x1049E, 0x1049F); (0x104AA, 0x104AF); (0x104D4, 0x104D7); (0x104FC, 0x104FF);
     (0x10528, 0x1052F); (0x10564, 0x1056E); (0x1057B, 0x1057B); (0x1058B, 0x1058B); (0x10593, 0x10593); (0x10596, 0x10596);
     (0x105A2, 0x105A2); (0x105B2, 0x105B2); (0x105BA, 0x105BA); (0x105BD, 0x105FF); (0x10737, 0x1073F); (0x10756, 0x1075F);
     (0x10768, 0x1077F); (0x10786, 0x10786); (0x107B1, 0x107B1); (0x107BB, 0x107FF); (0x10806, 0x10807); (0x10809, 0x10809);
     (0x10836, 0x10836); (0x10839, 0x1083B); (0x1083D, 0x1083E); (0x10856, 0x10856); (0x1089F, 0x108A6); (0x108B0, 0x108DF);
     (0x108F3, 0x108F3); (0x108F6, 0x108FA); (0x1091C, 0x1091E); (0x1093A, 0x1093E); (0x10940, 0x1097F); (0x109B8, 0x109BB);
     (0x109D0, 0x109D1); (0x10A04, 0x10A04); (0x10A07, 0x10A0B); (0x10A14, 0x10A14); (0x10A18, 0x10A18); (0x10A36, 0x10A37);
     (0x10A3B, 0x10A3E); (0x10A49, 0x10A4F); (0x10A59, 0x10A5F); (0x10AA0, 0x10ABF); (0x10AE7, 0x10AEA); (0x10AF7, 0x10AFF);
     (0x10B36, 0x10B38); (0x10B56, 0x10B57); (0x10B73, 0x10B77); (0x10B92, 0x10B98); (0x10B9D, 0x10BA8); (0x10BB0, 0x10BFF);
     (0x10C49, 0x10C7F); (0x10CB3, 0x10CBF); (0x10CF3, 0x10CF9); (0x10D28, 0x10D2F); (0x10D3A, 0x10E5F); (0x10E7F, 0x10E7F);
     (0x10EAA, 0x10EAA); (0x10EAE, 0x10EAF); (0x10EB2, 0x10EFF); (0x10F28, 0x10F2F); (0x10F5A, 0x10F6F); (0x10F8A, 0x10FAF);
     (0x10FCC, 0x10FDF); (0x10FF7, 0x10FFF); (0x1104E, 0x11051); (0x11076, 0x1107E); (0x110BD, 0x110BD); (0x110C3, 0x110CF);
     (0x110E9, 0x110EF); (0x110FA, 0x110FF); (0x11135, 0x11135); (0x11148, 0x1114F); (0x11177, 0x1117F); (0x111E0, 0x111E0);
     (0x111F5, 0x111FF); (0x11212, 0x11212); (0x1123F, 0x1127F); (0x11287, 0x11287); (0x11289, 0x11289); (0x1128E, 0x1128E);
     (0x1129E, 0x1129E); (0x112AA, 0x112AF); (0x112EB, 0x112EF); (0x112FA, 0x112FF); (0x11304, 0x11304); (0x1130D, 0x1130E);
     (0x11311, 0x11312); (0x11329, 0x11329); (0x11331, 0x11331); (0x11334, 0x11334); (0x1133A, 0x1133A); (0x11345, 0x11346);
     (0x11349, 0x1134A); (0x1134E, 0x1134F); (0x11351, 0x11356); (0x11358, 0x1135C); (0x11364, 0x11365); (0x1136D, 0x1136F);
     (0x11375, 0x113FF); (0x1145C, 0x1145C); (0x11462, 0x1147F); (0x114C8, 0x114CF); (0x114DA, 0x1157F); (0x115B6, 0x115B7);
     (0x115DE, 0x115FF); (0x11645, 0x1164F); (0x1165A, 0x1165F); (0x1166D, 0x1167F); (0x116BA, 0x116BF); (0x116CA, 0x116FF);
     (0x1171B, 0x1171C); (0x1172C, 0x1172F); (0x11747, 0x117FF); (0x1183C, 0x1189F); (0x118F3, 0x118FE); (0x11907, 0x11908);
     (0x1190A, 0x1190B); (0x11914, 0x11914); (0x11917, 0x11917); (0x11936, 0x11936); (0x11939, 0x1193A); (0x11947, 0x1194F);
     (0x1195A, 0x1199F); (0x119A8, 0x119A9); (0x119D8, 0x119D9); (0x119E5, 0x119FF); (0x11A48, 0x11A4F); (0x11AA3, 0x11AAF);
     (0x11AF9, 0x11BFF); (0x11C09, 0x11C09); (0x11C37, 0x11C37); (0x11C46, 0x11C4F); (0x11C6D, 0x11C6F); (0x11C90, 0x11C91);
     (0x11CA8, 0x11CA8); (0x11CB7, 0x11CFF); (0x11D07, 0x11D07); (0x11D0A, 0x11D0A); (0x11D37, 0x11D39); (0x11D3B, 0x11D3B);
     (0x11D3E, 0x11D3E); (0x11D48, 0x11D4F); (0x11D5A, 0x11D5F); (0x11D66, 0x11D66); (0x11D69, 0x11D69); (0x11D8F, 0x11D8F);
     (0x11D92, 0x11D92); (0x11D99, 0x11D9F); (0x11DAA, 0x11EDF); (0x11EF9, 0x11FAF); (0x11FB1, 0x11FBF); (0x11FF2, 0x11FFE);
     (0x1239A, 0x123FF); (0x1246F, 0x1246F); (0x12475, 0x1247F); (0x12544, 0x12F8F); (0x12FF3, 0x12FFF); (0x1342F, 0x143FF);
     (0x14647, 0x167FF); (0x16A39, 0x16A3F); (0x16A5F, 0x16A5F); (0x16A6A, 0x16A6D); (0x16ABF, 0x16ABF); (0x16ACA, 0x16ACF);
     (0x16AEE, 0x16AEF); (0x16AF6, 0x16AFF); (0x16B46, 0x16B4F); (0x16B5A, 0x16B5A); (0x16B62, 0x16B62); (0x16B78, 0x16B7C);
     (0x16B90, 0x16E3F); (0x16E9B, 0x16EFF); (0x16F4B, 0x16F4E); (0x16F88, 0x16F8E); (0x16FA0, 0x16FDF); (0x16FE5, 0x16FEF);
     (0x16FF2, 0x16FFF); (0x187F8, 0x187FF); (0x18CD6, 0x18CFF); (0x18D09, 0x1AFEF); (0x1AFF4, 0x1AFF4); (0x1AFFC, 0x1AFFC);
     (0x1AFFF, 0x1AFFF); (0x1B123, 0x1B14F); (0x1B153, 0x1B163); (0x1B168, 0x1B16F); (0x1B2FC, 0x1BBFF); (0x1BC6B, 0x1BC6F);
     (0x1BC7D, 0x1BC7F); (0x1BC89, 0x1BC8F); (0x1BC9A, 0x1BC9B); (0x1BCA0, 0x1CEFF); (0x1CF2E, 0x1CF2F); (0x1CF47, 0x1CF4F);
     (0x1CFC4, 0x1CFFF); (0x1D0F6, 0x1D0FF); (0x1D127, 0x1D128); (0x1D173, 0x1D17A); (0x1D1EB, 0x1D1FF); (0x1D246, 0x1D2DF);
     (0x1D2F4, 0x1D2FF); (0x1D357, 0x1D35F); (0x1D379, 0x1D3FF); (0x1D455, 0x1D455); (0x1D49D, 0x1D49D); (0x1D4A0, 0x1D4A1);
     (0x1D4A3, 0x1D4A4); (0x1D4A7, 0x1D4A8); (0x1D4AD, 0x1D4AD); (0x1D4BA, 0x1D4BA); (0x1D4BC, 0x1D4BC); (0x1D4C4, 0x1D4C4);
     (0x1D506, 0x1D506); (0x1D50B, 0x1D50C); (0x1D515, 0x1D515); (0x1D51D, 0x1D51D); (0x1D53A, 0x1D53A); (0x1D53F, 0x1D53F);
     (0x1D545, 0x1D545); (0x1D547, 0x1D549); (0x1D551, 0x1D551); (0x1D6A6, 0x1D6A7); (0x1D7CC, 0x1D7CD); (0x1DA8C, 0x1DA9A);
     (0x1DAA0, 0x1DAA0); (0x1DAB0, 0x1DEFF); (0x1DF1F, 0x1DFFF); (0x1E007, 0x1E007); (0x1E019, 0x1E01A); (0x1E022, 0x1E022);
     (0x1E025, 0x1E025); (0x1E02B, 0x1E0FF); (0x1E12D, 0x1E12F); (0x1E13E, 0x1E13F); (0x1E14A, 0x1E14D); (0x1E150, 0x1E28F);
     (0x1E2AF, 0x1E2BF); (0x1E2FA, 0x1E2FE); (0x1E300, 0x1E7DF); (0x1E7E7, 0x1E7E7); (0x1E7EC, 0x1E7EC); (0x1E7EF, 0x1E7EF);
     (0x1E7FF, 0x1E7FF); (0x1E8C5, 0x1E8C6); (0x1E8D7, 0x1E8FF); (0x1E94C, 0x1E94F); (0x1E95A, 0x1E95D); (0x1E960, 0x1EC70);
     (0x1ECB5, 0x1ED00); (0x1ED3E, 0x1EDFF); (0x1EE04, 0x1EE04); (0x1EE20, 0x1EE20); (0x1EE23, 0x1EE23); (0x1EE25, 0x1EE26);
     (0x1EE28, 0x1EE28); (0x1EE33, 0x1EE33); (0x1EE38, 0x1EE38); (0x1EE3A, 0x1EE3A); (0x1EE3C, 0x1EE41); (0x1EE43, 0x1EE46);
     (0x1EE48, 0x1EE48); (0x1EE4A, 0x1EE4A); (0x1EE4C, 0x1EE4C); (0x1EE50, 0x1EE50); (0x1EE53, 0x1EE53); (0x1EE55, 0x1EE56);
     (0x1EE58, 0x1EE58); (0x1EE5A, 0x1EE5A); (0x1EE5C, 0x1EE5C); (0x1EE5E, 0x1EE5E); (0x1EE60, 0x1EE60); (0x1EE63, 0x1EE63);
     (0x1EE65, 0x1EE66); (0x1EE6B, 0x1EE6B); (0x1EE73, 0x1EE73); (0x1EE78, 0x1EE78); (0x1EE7D, 0x1EE7D); (0x1EE7F, 0x1EE7F);
     (0x1EE8A, 0x1EE8A); (0x1EE9C, 0x1EEA0); (0x1EEA4, 0x1EEA4); (0x1EEAA, 0x1EEAA); (0x1EEBC, 0x1EEEF); (0x1EEF2, 0x1EFFF);
     (0x1F02C, 0x1F02F); (0x1F094, 0x1F09F); (0x1F0AF, 0x1F0B0); (0x1F0C0, 0x1F0C0); (0x1F0D0, 0x1F0D0); (0x1F0F6, 0x1F0FF);
     (0x1F1AE, 0x1F1E5); (0x1F203, 0x1F20F); (0x1F23C, 0x1F23F); (0x1F249, 0x1F24F); (0x1F252, 0x1F25F); (0x1F266, 0x1F2FF);
     (0x1F6D8, 0x1F6DC); (0x1F6ED, 0x1F6EF); (0x1F6FD, 0x1F6FF); (0x1F774, 0x1F77F); (0x1F7D9, 0x1F7DF); (0x1F7EC, 0x1F7EF);
     (0x1F7F1, 0x1F7FF); (0x1F80C, 0x1F80F); (0x1F848, 0x1F84F); (0x1F85A, 0x1F85F); (0x1F888, 0x1F88F); (0x1F8AE, 0x1F8AF);
     (0x1F8B2, 0x1F8FF); (0x1FA54, 0x1FA5F); (0x1FA6E, 0x1FA6F); (0x1FA75, 0x1FA77); (0x1FA7D, 0x1FA7F); (0x1FA87, 0x1FA8F);
     (0x1FAAD, 0x1FAAF); (0x1FABB, 0x1FABF); (0x1FAC6, 0x1FACF); (0x1FADA, 0x1FADF); (0x1FAE8, 0x1FAEF); (0x1FAF7, 0x1FAFF);
     (0x1FB93, 0x1FB93); (0x1FBCB, 0x1FBEF); (0x1FBFA, 0x1FFFF); (0x2A6E0, 0x2A6FF); (0x2B739, 0x2B73F); (0x2B81E, 0x2B81F);
     (0x2CEA2, 0x2CEAF); (0x2EBE1, 0x2F7FF); (0x2FA1E, 0x2FFFF); (0x3134B, 0xE00FF); (0xE01F0, 0x10FFFF)
 ]%N.

Definition isprintable_cp (c : codepoint) : bool :=
  negb (in_ranges c nonprintable_table).

Definition hex_digit (n : N) : codepoint :=
  if (n <? 10)%N then (0x30 + n)%N else (0x61 + (n - 10))%N.

Fixpoint hex_fixed (width : nat) (n : N) : pystr :=
  match width with
  | O => []
  | S w => hex_fixed w (n / 16)%N ++ [hex_digit (n mod 16)%N]
  end.

Definition contains (c : codepoint) (s : pystr) : bool :=
  existsb (N.eqb c) s.

(** [repr] of one character of a [str], inside the quote [q]. *)
Definition repr_cp (q c : codepoint) : pystr :=
  if (c =? q)%N || (c =? 0x5C)%N then [0x5C; c]%N
  else if (c =? 0x9)%N then [0x5C; 0x74]%N
  else if (c =? 0xA)%N then [0x5C; 0x6E]%N
  else if (c =? 0xD)%N then [0x5C; 0x72]%N
  else if (c <? 0x20)%N || (c =? 0x7F)%N then [0x5C; 0x78]%N ++ hex_fixed 2 c
  else if (c <? 0x7F)%N then [c]
  else if isprintable_cp c then [c]
  else if (c <=? 0xFF)%N then [0x5C; 0x78]%N ++ hex_fixed 2 c
  else if (c <=? 0xFFFF)%N then [0x5C; 0x75]%N ++ hex_fixed 4 c
  else [0x5C; 0x55]%N ++ hex_fixed 8 c.

(** [repr] of a [str]: single quotes, unless the text has a single quote
    and no double quote. *)
Definition repr_str (s : pystr) : pystr :=
  let q := if contains 0x27%N s && negb (contains 0x22%N s)
           then 0x22%N else 0x27%N in
  [q] ++ flat_map (repr_cp q) s ++ [q].

(** [str] of an [int]. *)
Definition str_of_Z (z : Z) : pystr :=
  u (DecimalString.NilZero.string_of_int (Z.to_int z)).

(** [", ".join(parts)] *)
Fixpoint join_comma (parts : list pystr) : pystr :=
  match parts with
  | [] => []
  | [p] => p
  | p :: parts' => p ++ u ", " ++ join_comma parts'
  end.

Definition pystr_eq_dec : forall a b : pystr, {a = b} + {a <> b} :=
  list_eq_dec N.eq_dec.

Definition pystr_eqb (a b : pystr) : bool :=
  if pystr_eq_dec a b then true else false.

End PyStr.
Import PyStr.

(** ** Exceptions and results *)

(** The exception classes the [except] clauses of the program tell apart. *)
Inductive exn_class : Type :=
| ValueError
| AttributeError
| TypeError
| KeyError
| HTTPStatusError (status_code : Z)
| TimeoutException
| OtherException.

(** An exception: its class and the text [str(e)] gives. *)
Record exn : Type := mk_exn { exn_class_of : exn_class; exn_str : pystr }.

Inductive result (A : Type) : Type :=
| Ok (a : A)
| Raise (e : exn).
Arguments Ok {A} a.
Arguments Raise {A} e.

Definition bind {A B : Type} (r : result A) (k : A -> result B) : result B :=
  match r with
  | Ok a => k a
  | Raise e => Raise e
  end.

Declare Scope result_scope.
Delimit Scope result_scope with result.
Notation "'let*' x ':=' e 'in' k" := (bind e (fun x => k))
  (at level 10, x name, e at level 100, k at level 200) : result_scope.
Open Scope result_scope.

(** ** Python values *)

Module Py.

(** The values [response.json()] produces: [None], [bool], [int], [str],
    [list] and [dict]; a [dict] keeps its entries in insertion order, with
    distinct keys.  Numbers with a fraction or an exponent ([float]) are
    outside this model. *)
#[warnings="-register-all"]
Inductive pyval : Type :=
| VNone
| VBool (b : bool)
| VInt (z : Z)
| VStr (s : pystr)
| VList (l : list pyval)
| VDict (d : list (pystr * pyval)).

Definition type_name (v : pyval) : pystr :=
  match v with
  | VNone => u "NoneType"
  | VBool _ => u "bool"
  | VInt _ => u "int"
  | VStr _ => u "str"
  | VList _ => u "list"
  | VDict _ => u "dict"
  end.

(** Truth value of a value, as [if v:] and [not v] test it. *)
Definition truthy (v : pyval) : bool :=
  match v with
  | VNone => false
  | VBool b => b
  | VInt z => negb (z =? 0)%Z
  | VStr s => match s with [] => false | _ => true end
  | VList l => match l with [] => false | _ => true end
  | VDict d => match d with [] => false | _ => true end
  end.

(** [repr(v)] *)
Fixpoint repr (v : pyval) : pystr :=
  match v with
  | VNone => u "None"
  | VBool true => u "True"
  | VBool false => u "False"
  | VInt z => str_of_Z z
  | VStr s => repr_str s
  | VList l => u "[" ++ join_comma (map repr l) ++ u "]"
  | VDict d =>
    u "{" ++ join_comma (map (fun kv => repr_str (fst kv) ++ u ": " ++ repr (snd kv)) d)
      ++ u "}"
  end.

(** [str(v)], which is what a replacement field [{v}] of an f-string
    inserts for these types. *)
Definition str (v : pyval) : pystr :=
  match v with
  | VStr s => s
  | _ => repr v
  end.

Definition attribute_error (v : pyval) (attr : pystr) : exn :=
  mk_exn AttributeError
    (u "'" ++ type_name v ++ u "' object has no attribute '" ++ attr ++ u "'").

Fixpoint dict_lookup (d : list (pystr * pyval)) (key : pystr) : option pyval :=
  match d with
  | [] => None
  | (k, v) :: d' => if pystr_eqb k key then Some v else dict_lookup d' key
  end.

Definition dict_get (d : list (pystr * pyval)) (key : pystr) (default : pyval)
  : pyval :=
  match dict_lookup d key with
  | Some v => v
  | None => default
  end.

(** [v.get(key, default)] *)
Definition get (v : pyval) (key : pystr) (default : pyval) : result pyval :=
  match v with
  | VDict d => Ok (dict_get d key default)
  | _ => Raise (attribute_error v (u "get"))
  end.

(** [v[key]] for a [str] key. *)
Definition getitem (v : pyval) (key : pystr) : result pyval :=
  match v with
  | VDict d =>
    match dict_lookup d key with
    | Some x => Ok x
    | None => Raise (mk_exn KeyError (repr_str key))
    end
  | VList _ =>
    Raise (mk_exn TypeError (u "list indices must be integers or slices, not str"))
  | VStr _ =>
    Raise (mk_exn TypeError (u "string indices must be integers, not 'str'"))
  | _ =>
    Raise (mk_exn TypeError (u "'" ++ type_name v ++ u "' object is not subscriptable"))
  end.

(** [v.upper()] *)
Definition upper_method (v : pyval) : result pystr :=
  match v with
  | VStr s => Ok (upper s)
  | _ => Raise (attribute_error v (u "upper"))
  end.

(** [v.items()] *)
Definition items (v : pyval) : result (list (pystr * pyval)) :=
  match v with
  | VDict d => Ok d
  | _ => Raise (attribute_error v (u "items"))
  end.

(** The elements a [for] loop over [v] visits. *)
Definition iter (v : pyval) : result (list pyval) :=
  match v with
  | VList l => Ok l
  | VDict d => Ok (map (fun kv => VStr (fst kv)) d)
  | VStr s => Ok (map (fun c => VStr [c]) s)
  | _ => Raise (mk_exn TypeError (u "'" ++ type_name v ++ u "' object is not iterable"))
  end.

Definition unhashable (v : pyval) : exn :=
  mk_exn TypeError (u "unhashable type: '" ++ type_name v ++ u "'").

(** [table.get(v, default)] on a literal [dict] with [str] keys. *)
Fixpoint assoc_str (table : list (pystr * pystr)) (key : pystr) : option pystr :=
  match table with
  | [] => None
  | (k, x) :: table' => if pystr_eqb k key then Some x else assoc_str table' key
  end.

Definition str_table_get (table : list (pystr * pystr)) (v : pyval)
  (default : pystr) : result pystr :=
  match v with
  | VStr s => Ok (match assoc_str table s with Some x => x | None => default end)
  | VList _ | VDict _ => Raise (unhashable v)
  | _ => Ok default
  end.

(** [table.get(v, default)] on a literal [dict] with [int] keys: [True] and
    [False] are the keys [1] and [0]. *)
Fixpoint assoc_int (table : list (Z * pystr)) (key : Z) : option pystr :=
  match table with
  | [] => None
  | (k, x) :: table' => if (k =? key)%Z then Some x else assoc_int table' key
  end.

Definition int_table_get (table : list (Z * pystr)) (v : pyval)
  (default : pystr) : result pystr :=
  match v with
  | VInt z => Ok (match assoc_int table z with Some x => x | None => default end)
  | VBool b =>
    Ok (match assoc_int table (if b then 1 else 0)%Z with
        | Some x => x
        | None => default
        end)
  | VList _ | VDict _ => Raise (unhashable v)
  | _ => Ok default
  end.

(** [v == s] for a [str] literal [s]. *)
Definition eq_str (v : pyval) (s : pystr) : bool :=
  match v with
  | VStr s' => pystr_eqb s' s
  | _ => false
  end.

End Py.

(** ** [datetime]: UTC calendar fields of an instant *)

Module Datetime.

Local Open Scope Z_scope.

Record datetime : Type := mk_datetime
  { year : Z; month : Z; day : Z; hour : Z; minute : Z; second : Z }.

Definition MINYEAR : Z := 1.
Definition MAXYEAR : Z := 9999.

Definition is_leap (y : Z) : bool :=
  (y mod 4 =? 0) && (negb (y mod 100 =? 0) || (y mod 400 =? 0)).

(** Number of days before January 1st of year [y], from 0001-01-01. *)
Definition days_before_year (y : Z) : Z :=
  let y' := y - 1 in
  y' * 365 + y' / 4 - y' / 100 + y' / 400.

Definition days_in_month (y m : Z) : Z :=
  if m =? 2 then (if is_leap y then 29 else 28)
  else if (m =? 4) || (m =? 6) || (m =? 9) || (m =? 11) then 30
  else 31.

Definition days_before_month_table : list Z :=
  [0; 0; 31; 59; 90; 120; 151; 181; 212; 243; 273; 304; 334].

Definition days_before_month (leap : bool) (m : Z) : Z :=
  nth (Z.to_nat m) days_before_month_table 0
  + (if (2 <? m) && leap then 1 else 0).

(** Proleptic Gregorian ordinal of a date; 0001-01-01 is day 1. *)
Definition ymd2ord (y m d : Z) : Z :=
  days_before_year y + days_before_month (is_leap y) m + d.

Definition DI400Y : Z := 146097.
Definition DI100Y : Z := 36524.
Definition DI4Y : Z := 1461.

(** Date of an ordinal, by the 400/100/4/1-year cycles. *)
Definition ord2ymd (ordinal : Z) : Z * Z * Z :=
  let n := ordinal - 1 in
  let n400 := n / DI400Y in
  let n := n mod DI400Y in
  let n100 := n / DI100Y in
  let n := n mod DI100Y in
  let n4 := n / DI4Y in
  let n := n mod DI4Y in
  let n1 := n / 365 in
  let n := n mod 365 in
  let y := n400 * 400 + 1 + n100 * 100 + n4 * 4 + n1 in
  if (n1 =? 4) || (n100 =? 4) then (y - 1, 12, 31)
  else
    let leapyear := (n1 =? 3) && (negb (n4 =? 24) || (n100 =? 3)) in
    let m := Z.shiftr (n + 50) 5 in
    let preceding := days_before_month leapyear m in
    if n <? preceding
    then (y, m - 1, n - (preceding - days_in_month y (m - 1)) + 1)
    else (y, m, n - preceding + 1).

(** Ordinal of 1970-01-01, the epoch. *)
Definition EPOCH_ORDINAL : Z := 719163.

(** UTC fields of the instant [sec] seconds after the epoch. *)
Definition utc_of_seconds (sec : Z) : datetime :=
  let '(y, m, d) := ord2ymd (sec / 86400 + EPOCH_ORDINAL) in
  let s := sec mod 86400 in
  mk_datetime y m d (s / 3600) (s mod 3600 / 60) (s mod 60).

(** [datetime.fromtimestamp(t, tz=timezone.utc)] for an instant in its
    whole second [sec]: a date outside the years 1..9999 raises, which
    [None] stands for. *)
Definition fromtimestamp_utc (sec : Z) : option datetime :=
  let dt := utc_of_seconds sec in
  if (MINYEAR <=? year dt) && (year dt <=? MAXYEAR) then Some dt else None.

Definition pad2 (n : Z) : pystr :=
  if n <? 10 then u "0" ++ str_of_Z n else str_of_Z n.

(** [dt.strftime("%Y-%m-%d %H:%M:%S UTC")]; [%Y] as the C library of a
    Linux build prints it, without padding. *)
Definition strftime (dt : datetime) : pystr :=
  str_of_Z (year dt) ++ u "-" ++ pad2 (month dt) ++ u "-" ++ pad2 (day dt)
  ++ u " " ++ pad2 (hour dt) ++ u ":" ++ pad2 (minute dt) ++ u ":"
  ++ pad2 (second dt) ++ u " UTC".

End Datetime.

(** ** The program *)

Module Lanyard.

Import Py Datetime.

Definition LANYARD_API_BASE : pystr := u "https://api.lanyard.rest/v1".
Definition REQUEST_TIMEOUT : Z := 10.

Definition sanitize_user_id (user_id : pystr) : result pystr :=
  let clean_id := strip user_id in
  match clean_id with
  | [] => Raise (mk_exn ValueError (u "User ID cannot be empty"))
  | _ =>
    if negb (isdigit clean_id) then
      Raise (mk_exn ValueError (u "User ID must contain only digits"))
    else if (length clean_id <? 17)%nat || (20 <? length clean_id)%nat then
      Raise (mk_exn ValueError (u "User ID must be between 17-20 digits"))
    else Ok clean_id
  end.

(** The [try] part of [format_timestamp]: [timestamp_ms / 1000] is a true
    division, which raises for a value that is not a number, and
    [fromtimestamp] raises outside its range; [None] stands for either.
    The quotient of an [int] in the range of [datetime] keeps its whole
    second when it is rounded to a [float]. *)
Definition fromtimestamp_ms (timestamp_ms : pyval) : option datetime :=
  match timestamp_ms with
  | VInt ms => fromtimestamp_utc (ms / 1000)
  | VBool b => fromtimestamp_utc ((if b then 1 else 0) / 1000)
  | _ => None
  end.

Definition format_timestamp (timestamp_ms : pyval) : pystr :=
  match fromtimestamp_ms timestamp_ms with
  | Some dt => strftime dt
  | None => u "Unknown"
  end.

Definition format_spotify_data (spotify : pyval) : result pystr :=
  if negb (truthy spotify) then Ok (u "Not listening to Spotify")
  else
    let* song := get spotify (u "song") (VStr (u "Unknown")) in
    let* artist := get spotify (u "artist") (VStr (u "Unknown")) in
    let* album := get spotify (u "album") (VStr (u "Unknown")) in
    let output := u "🎵 Spotify Activity:\n" in
    let output := output ++ u "  Song: " ++ str song ++ u "\n" in
    let output := output ++ u "  Artist: " ++ str artist ++ u "\n" in
    let output := output ++ u "  Album: " ++ str album ++ u "\n" in
    let* timestamps := get spotify (u "timestamps") (VDict []) in
    let* start := get timestamps (u "start") VNone in
    let* output :=
      if truthy start then
        let* ts := getitem timestamps (u "start") in
        Ok (output ++ u "  Started: " ++ format_timestamp ts ++ u "\n")
      else Ok output in
    let* end_ := get timestamps (u "end") VNone in
    let* output :=
      if truthy end_ then
        let* ts := getitem timestamps (u "end") in
        Ok (output ++ u "  Ends: " ++ format_timestamp ts ++ u "\n")
      else Ok output in
    Ok output.

Definition type_names : list (Z * pystr) :=
  [ (0, u "Playing"); (1, u "Streaming"); (2, u "Listening to");
    (3, u "Watching"); (4, u "Custom Status"); (5, u "Competing in") ]%Z.

(** The body of the [for] loop of [format_activities], from ordinal [i]. *)
Fixpoint format_activities_loop (i : Z) (activities : list pyval)
  (output : pystr) : result pystr :=
  match activities with
  | [] => Ok output
  | activity :: rest =>
    let* name := get activity (u "name") (VStr (u "Unknown")) in
    let* activity_type := get activity (u "type") (VInt 0) in
    let* type_str := int_table_get type_names activity_type (u "Activity") in
    let output :=
      output ++ u "\n" ++ str_of_Z i ++ u ". " ++ type_str ++ u " "
      ++ str name ++ u "\n" in
    let* details := get activity (u "details") VNone in
    let* output :=
      if truthy details then
        let* d := getitem activity (u "details") in
        Ok (output ++ u "   Details: " ++ str d ++ u "\n")
      else Ok output in
    let* state := get activity (u "state") VNone in
    let* output :=
      if truthy state then
        let* s := getitem activity (u "state") in
        Ok (output ++ u "   State: " ++ str s ++ u "\n")
      else Ok output in
    format_activities_loop (i + 1) rest output
  end.

Definition format_activities (activities : pyval) : result pystr :=
  if negb (truthy activities) then Ok (u "No activities")
  else
    let* elements := iter activities in
    format_activities_loop 1 elements (u "").

Definition kv_line (entry : pystr * pyval) : pystr :=
  u "  " ++ fst entry ++ u ": " ++ str (snd entry) ++ u "\n".

Definition format_kv_data (kv : pyval) : result pystr :=
  if negb (truthy kv) then Ok (u "No KV data")
  else
    let output := u "📝 Custom KV Data:\n" in
    let* entries := items kv in
    Ok (fold_left (fun output entry => output ++ kv_line entry) entries output).

Definition status_emoji : list (pystr * pystr) :=
  [ (u "online", u "🟢"); (u "idle", u "🟡"); (u "dnd", u "🔴");
    (u "offline", u "⚫") ].

(** The full presence renderer: [get_user_presence] from the extraction of
    the user information to [return output.strip()]. *)
Definition render_presence (data : pyval) (clean_id : pystr) : result pystr :=
  let* discord_user := get data (u "discord_user") (VDict []) in
  let* username := get discord_user (u "username") (VStr (u "Unknown")) in
  let* user_id_str := get discord_user (u "id") (VStr clean_id) in
  let* discriminator := get discord_user (u "discriminator") (VStr (u "0")) in
  let user_display :=
    if eq_str discriminator (u "0") then u "@" ++ str username
    else str username ++ u "#" ++ str discriminator in
  let output :=
    u "✅ Discord Presence for " ++ user_display ++ u " (" ++ str user_id_str
    ++ u ")\n\n" in
  let* status := get data (u "discord_status") (VStr (u "unknown")) in
  let* emoji := str_table_get status_emoji status (u "⚪") in
  let* status_upper := upper_method status in
  let output := output ++ u "Status: " ++ emoji ++ u " " ++ status_upper ++ u "\n\n" in
  let* desktop := get data (u "active_on_discord_desktop") VNone in
  let output :=
    if truthy desktop then output ++ u "💻 Active on Desktop\n" else output in
  let* mobile := get data (u "active_on_discord_mobile") VNone in
  let output :=
    if truthy mobile then output ++ u "📱 Active on Mobile\n" else output in
  let output := output ++ u "\n" in
  let* spotify := get data (u "spotify") VNone in
  let* listening := get data (u "listening_to_spotify") VNone in
  let* output :=
    if truthy listening && truthy spotify then
      let* block := format_spotify_data spotify in
      Ok (output ++ block ++ u "\n")
    else Ok output in
  let* activities := get data (u "activities") (VList []) in
  let* output :=
    if truthy activities then
      let* block := format_activities activities in
      Ok (output ++ u "🎮 Activities:" ++ block ++ u "\n")
    else Ok output in
  let* kv := get data (u "kv") (VDict []) in
  let* output :=
    if truthy kv then
      let* block := format_kv_data kv in
      Ok (output ++ block)
    else Ok output in
  Ok (strip output).

(** The Spotify-only renderer: [get_user_spotify] from
    [discord_user = data.get(...)] to its last [return]. *)
Definition render_spotify (data : pyval) : result pystr :=
  let* discord_user := get data (u "discord_user") (VDict []) in
  let* username := get discord_user (u "username") (VStr (u "Unknown")) in
  let* listening := get data (u "listening_to_spotify") (VBool false) in
  let* spotify := get data (u "spotify") VNone in
  if negb (truthy listening) || negb (truthy spotify) then
    Ok (u "🎵 " ++ str username ++ u " is not currently listening to Spotify")
  else
    let output := u "✅ Spotify Status for " ++ str username ++ u "\n\n" in
    let* block := format_spotify_data spotify in
    let output := output ++ block in
    let* album_art := get spotify (u "album_art_url") (VStr (u "")) in
    let output :=
      if truthy album_art
      then output ++ u "  Album Art: " ++ str album_art ++ u "\n"
      else output in
    let* track_id := get spotify (u "track_id") (VStr (u "")) in
    let output :=
      if truthy track_id
      then output ++ u "  Track URL: https://open.spotify.com/track/"
                  ++ str track_id ++ u "\n"
      else output in
    Ok (strip output).

(** The KV-only renderer: [get_user_kv] from [discord_user = data.get(...)]
    to its last [return]. *)
Definition render_kv (data : pyval) : result pystr :=
  let* discord_user := get data (u "discord_user") (VDict []) in
  let* username := get discord_user (u "username") (VStr (u "Unknown")) in
  let* kv := get data (u "kv") (VDict []) in
  if negb (truthy kv) then
    Ok (u "📝 " ++ str username ++ u " has no custom KV data set")
  else
    let output := u "✅ KV Data for " ++ str username ++ u "\n\n" in
    let* block := format_kv_data kv in
    let output := output ++ block in
    Ok (strip output).

(** *** The network and the log *)

(** What [httpx] hands back for a request: a response, with its status
    code, the text of the [HTTPStatusError] that [raise_for_status] raises
    for it, and what [response.json()] gives; or the exception that
    [client.get] raises (a [TimeoutException] or another failure). *)
Record response : Type := mk_response
  { status_code_of : Z; status_error_text : pystr; json : result pyval }.

Inductive http_outcome : Type :=
| Responds (r : response)
| Fails (e : exn).

Definition network : Type := pystr -> http_outcome.

Inductive event : Type :=
| LogInfo (msg : pystr)
| LogError (msg : pystr)
| HttpGet (url : pystr) (timeout : Z).

(** A tool is a computation that reads the network and records what it
    does. *)
Definition M (A : Type) : Type := network -> list event * A.

Definition ret {A : Type} (a : A) : M A := fun _ => ([], a).

Definition bindM {A B : Type} (m : M A) (k : A -> M B) : M B :=
  fun net =>
    let '(t1, a) := m net in
    let '(t2, b) := k a net in
    (t1 ++ t2, b).

Declare Scope tool_scope.
Delimit Scope tool_scope with tool.
Notation "x <- m ;; k" := (bindM m (fun x => k))
  (at level 61, m at next level, right associativity) : tool_scope.
Notation "m ;; k" := (bindM m (fun _ => k))
  (at level 61, right associativity) : tool_scope.

Definition log_info (msg : pystr) : M unit := fun _ => ([LogInfo msg], tt).
Definition log_error (msg : pystr) : M unit := fun _ => ([LogError msg], tt).

(** [await client.get(url, timeout=timeout)] *)
Definition client_get (url : pystr) (timeout : Z) : M (result response) :=
  fun net =>
    ([HttpGet url timeout],
     match net url with
     | Responds r => Ok r
     | Fails e => Raise e
     end).

(** [response.raise_for_status()]: any status outside 200..299 raises. *)
Definition raise_for_status (r : response) : result response :=
  if (200 <=? status_code_of r)%Z && (status_code_of r <=? 299)%Z then Ok r
  else Raise (mk_exn (HTTPStatusError (status_code_of r)) (status_error_text r)).

(** The statements of a tool's [try] block after the response arrived, with
    the renderer [render] of the tool. *)
Definition decode_and_render (render : pyval -> result pystr)
  (clean_id : pystr) (got : result response) : result pystr :=
  let* response := got in
  let* _ := raise_for_status response in
  let* result := json response in
  let* success := get result (u "success") VNone in
  if negb (truthy success) then
    Ok (u "❌ API returned unsuccessful response for user " ++ clean_id)
  else
    let* data := get result (u "data") (VDict []) in
    render data.

Local Open Scope tool_scope.

Definition get_user_presence (user_id : pystr) : M (result pystr) :=
  log_info (u "Fetching presence for user ID: " ++ user_id) ;;
  match sanitize_user_id user_id with
  | Raise e =>
    match exn_class_of e with
    | ValueError => ret (Ok (u "❌ Invalid user ID: " ++ exn_str e))
    | _ => ret (Raise e)
    end
  | Ok clean_id =>
    let url := LANYARD_API_BASE ++ u "/users/" ++ clean_id in
    got <- client_get url REQUEST_TIMEOUT ;;
    match decode_and_render (fun data => render_presence data clean_id)
            clean_id got with
    | Ok output => ret (Ok output)
    | Raise e =>
      match exn_class_of e with
      | HTTPStatusError status =>
        if (status =? 404)%Z then
          ret (Ok (u "❌ User not found: " ++ clean_id
                   ++ u " (Discord user may not be using Lanyard)"))
        else if (status =? 429)%Z then
          ret (Ok (u "❌ Rate limit exceeded. Please try again later."))
        else ret (Ok (u "❌ API Error: HTTP " ++ str_of_Z status))
      | TimeoutException =>
        ret (Ok (u "⏱️ Request timed out while fetching user " ++ clean_id))
      | _ =>
        log_error (u "Error fetching presence: " ++ exn_str e) ;;
        ret (Ok (u "❌ Error: " ++ exn_str e))
      end
    end
  end.

Definition get_user_spotify (user_id : pystr) : M (result pystr) :=
  log_info (u "Fetching Spotify data for user ID: " ++ user_id) ;;
  match sanitize_user_id user_id with
  | Raise e =>
    match exn_class_of e with
    | ValueError => ret (Ok (u "❌ Invalid user ID: " ++ exn_str e))
    | _ => ret (Raise e)
    end
  | Ok clean_id =>
    let url := LANYARD_API_BASE ++ u "/users/" ++ clean_id in
    got <- client_get url REQUEST_TIMEOUT ;;
    match decode_and_render render_spotify clean_id got with
    | Ok output => ret (Ok output)
    | Raise e =>
      match exn_class_of e with
      | HTTPStatusError status =>
        if (status =? 404)%Z then
          ret (Ok (u "❌ User not found: " ++ clean_id))
        else if (status =? 429)%Z then
          ret (Ok (u "❌ Rate limit exceeded. Please try again later."))
        else ret (Ok (u "❌ API Error: HTTP " ++ str_of_Z status))
      | TimeoutException =>
        ret (Ok (u "⏱️ Request timed out while fetching user " ++ clean_id))
      | _ =>
        log_error (u "Error fetching Spotify data: " ++ exn_str e) ;;
        ret (Ok (u "❌ Error: " ++ exn_str e))
      end
    end
  end.

Definition get_user_kv (user_id : pystr) : M (result pystr) :=
  log_info (u "Fetching KV data for user ID: " ++ user_id) ;;
  match sanitize_user_id user_id with
  | Raise e =>
    match exn_class_of e with
    | ValueError => ret (Ok (u "❌ Invalid user ID: " ++ exn_str e))
    | _ => ret (Raise e)
    end
  | Ok clean_id =>
    let url := LANYARD_API_BASE ++ u "/users/" ++ clean_id in
    got <- client_get url REQUEST_TIMEOUT ;;
    match decode_and_render render_kv clean_id got with
    | Ok output => ret (Ok output)
    | Raise e =>
      match exn_class_of e with
      | HTTPStatusError status =>
        if (status =? 404)%Z then
          ret (Ok (u "❌ User not found: " ++ clean_id))
        else if (status =? 429)%Z then
          ret (Ok (u "❌ Rate limit exceeded. Please try again later."))
        else ret (Ok (u "❌ API Error: HTTP " ++ str_of_Z status))
      | TimeoutException =>
        ret (Ok (u "⏱️ Request timed out while fetching user " ++ clean_id))
      | _ =>
        log_error (u "Error fetching KV data: " ++ exn_str e) ;;
        ret (Ok (u "❌ Error: " ++ exn_str e))
      end
    end
  end.

End Lanyard.
Import Py Datetime Lanyard.

(** * Vocabulary of the statements *)

(** The URL a tool requests for an identifier. *)
Definition users_url (clean_id : pystr) : pystr :=
  LANYARD_API_BASE ++ u "/users/" ++ clean_id.


Definition is_request (e : event) : bool :=
  match e with
  | HttpGet _ _ => true
  | _ => false
  end.

(** Seventeen times SUPERSCRIPT TWO (U+00B2). *)
Definition superscript_id : pystr := u "²²²²²²²²²²²²²²²²²".

(** A network on which every request is answered with the status [code]. *)
Definition answers_with_status (code : Z) : network :=
  fun _ => Responds (mk_response code (u "") (Raise (mk_exn ValueError (u "")))).


(** ** The payload of the upstream service

    Every field is optional; a field that is present holds a value of its
    type.  Fields the program does not know are allowed. *)

Definition is_str (v : pyval) : bool :=
  match v with VStr _ => true | _ => false end.

Definition is_bool (v : pyval) : bool :=
  match v with VBool _ => true | _ => false end.

Definition is_int (v : pyval) : bool :=
  match v with VInt _ => true | _ => false end.

(** The field [key] of [d], when present, satisfies [p]. *)
Definition field (d : list (pystr * pyval)) (key : pystr) (p : pyval -> bool)
  : bool :=
  match dict_lookup d key with
  | Some v => p v
  | None => true
  end.

Definition record (fields : list (pystr * (pyval -> bool))) (v : pyval) : bool :=
  match v with
  | VDict d => forallb (fun f => field d (fst f) (snd f)) fields
  | _ => false
  end.

Definition wf_discord_user : pyval -> bool :=
  record [ (u "username", is_str); (u "id", is_str);
           (u "discriminator", is_str) ].

Definition wf_timestamps : pyval -> bool :=
  record [ (u "start", is_int); (u "end", is_int) ].

(** The [spotify] field is a record, or [null] while nothing is played. *)
Definition wf_spotify (v : pyval) : bool :=
  match v with
  | VNone => true
  | _ =>
    record [ (u "song", is_str); (u "artist", is_str); (u "album", is_str);
             (u "album_art_url", is_str); (u "track_id", is_str);
             (u "timestamps", wf_timestamps) ] v
  end.

Definition wf_activity : pyval -> bool :=
  record [ (u "name", is_str); (u "type", is_int); (u "details", is_str);
           (u "state", is_str) ].

Definition wf_activities (v : pyval) : bool :=
  match v with
  | VList l => forallb wf_activity l
  | _ => false
  end.

Definition wf_kv (v : pyval) : bool :=
  match v with
  | VDict d => forallb (fun entry => is_str (snd entry)) d
  | _ => false
  end.

Definition wf_payload : pyval -> bool :=
  record [ (u "discord_user", wf_discord_user);
           (u "discord_status", is_str);
           (u "active_on_discord_desktop", is_bool);
           (u "active_on_discord_mobile", is_bool);
           (u "listening_to_spotify", is_bool);
           (u "spotify", wf_spotify);
           (u "activities", wf_activities);
           (u "kv", wf_kv) ].

(** ** The blocks, as the specification words them *)

(** A line [label value] that is there when [v] is true as a condition. *)
Definition line_if_truthy (label : pystr) (v : pyval) (text : pyval -> pystr)
  : pystr :=
  if truthy v then label ++ text v ++ u "\n" else [].

(** The Spotify block of the record [d] whose timestamps are [t]. *)
Definition spotify_block (d t : list (pystr * pyval)) : pystr :=
  u "🎵 Spotify Activity:\n"
  ++ u "  Song: " ++ str (dict_get d (u "song") (VStr (u "Unknown"))) ++ u "\n"
  ++ u "  Artist: " ++ str (dict_get d (u "artist") (VStr (u "Unknown"))) ++ u "\n"
  ++ u "  Album: " ++ str (dict_get d (u "album") (VStr (u "Unknown"))) ++ u "\n"
  ++ line_if_truthy (u "  Started: ") (dict_get t (u "start") VNone) format_timestamp
  ++ line_if_truthy (u "  Ends: ") (dict_get t (u "end") VNone) format_timestamp.

(** The label of an activity type. *)
Definition type_label (z : Z) : pystr :=
  match z with
  | 0 => u "Playing"
  | 1 => u "Streaming"
  | 2 => u "Listening to"
  | 3 => u "Watching"
  | 4 => u "Custom Status"
  | 5 => u "Competing in"
  | _ => u "Activity"
  end%Z.

(** An activity record whose [type], when present, is an integer. *)
Definition typed_activity (a : pyval) : bool :=
  match a with
  | VDict d => is_int (dict_get d (u "type") (VInt 0))
  | _ => false
  end.

(** The entry of the activity [a] under the ordinal [i]. *)
Definition activity_entry (i : Z) (a : pyval) : pystr :=
  match a with
  | VDict d =>
    u "\n" ++ str_of_Z i ++ u ". "
    ++ match dict_get d (u "type") (VInt 0) with
       | VInt z => type_label z
       | _ => []
       end
    ++ u " " ++ str (dict_get d (u "name") (VStr (u "Unknown"))) ++ u "\n"
    ++ line_if_truthy (u "   Details: ") (dict_get d (u "details") VNone) str
    ++ line_if_truthy (u "   State: ") (dict_get d (u "state") VNone) str
  | _ => []
  end.

(** The entries of a sequence of activities, numbered from [i]. *)
Fixpoint activity_entries (i : Z) (activities : list pyval) : pystr :=
  match activities with
  | [] => []
  | a :: rest => activity_entry i a ++ activity_entries (i + 1) rest
  end.

(** The payload does not say that the user is listening: the flag is
    false, or there is no Spotify record. *)
Definition not_listening (d : list (pystr * pyval)) : Prop :=
  truthy (dict_get d (u "listening_to_spotify") (VBool false)) = false
  \/ truthy (dict_get d (u "spotify") VNone) = false.

(** ** Timestamps, as the specification words them *)

Definition digit_char (n : Z) : codepoint := Z.to_N (48 + n).

Definition two_digits (n : Z) : pystr :=
  [digit_char (n / 10); digit_char (n mod 10)].

Definition four_digits (n : Z) : pystr :=
  [digit_char (n / 1000); digit_char (n / 100 mod 10);
   digit_char (n / 10 mod 10); digit_char (n mod 10)].

(** The text [YYYY-MM-DD HH:MM:SS UTC]. *)
Definition timestamp_text (y mo d h mi s : Z) : pystr :=
  four_digits y ++ u "-" ++ two_digits mo ++ u "-" ++ two_digits d ++ u " "
  ++ two_digits h ++ u ":" ++ two_digits mi ++ u ":" ++ two_digits s
  ++ u " UTC".

(** A date of the calendar with a time of day. *)
Definition valid_civil (y mo d h mi s : Z) : Prop :=
  (1 <= mo <= 12 /\ 1 <= d <= days_in_month y mo
   /\ 0 <= h < 24 /\ 0 <= mi < 60 /\ 0 <= s < 60)%Z.

(** Seconds from the epoch to a UTC date and time. *)
Definition utc_seconds (y mo d h mi s : Z) : Z :=
  ((ymd2ord y mo d - EPOCH_ORDINAL) * 86400 + h * 3600 + mi * 60 + s)%Z.

(** First and last millisecond of the years 1000 to 9999, and of the years
    1 to 9999. *)
Definition MS_YEAR_1000 : Z := (-30610224000000)%Z.
Definition MS_MIN : Z := (-62135596800000)%Z.
Definition MS_MAX : Z := 253402300799999%Z.

(** [P] holds of the [fuel] integers from [lo] on. *)
Fixpoint all_below (fuel : nat) (lo : Z) (P : Z -> bool) : bool :=
  match fuel with
  | O => true
  | S fuel' => P lo && all_below fuel' (lo + 1)%Z P
  end.

(** Length of month [m] in a leap or a common year. *)
Definition month_length (leap : bool) (m : Z) : Z :=
  (if m =? 2 then (if leap then 29 else 28)
   else if (m =? 4) || (m =? 6) || (m =? 9) || (m =? 11) then 30
   else 31)%Z.

(** Month and day of the day [n] of a year, counted from 0: the last steps
    of [ord2ymd]. *)
Definition month_day (leap : bool) (n : Z) : Z * Z :=
  let m := Z.shiftr (n + 50) 5 in
  let preceding := days_before_month leap m in
  (if n <? preceding
   then (m - 1, n - (preceding - month_length leap (m - 1)) + 1)
   else (m, n - preceding + 1))%Z.

(** The month and day found for day [n] of a year are a date of that year,
    and the one of day [n]. *)
Definition yday_ok (leap : bool) (n : Z) : bool :=
  let '(m, d) := month_day leap n in
  ((1 <=? m) && (m <=? 12) && (1 <=? d) && (d <=? month_length leap m)
   && (days_before_month leap m + d =? n + 1))%Z.

(** ** The renderers' texts, as the specification words them *)

(** The header of the full presence text. *)
Definition presence_header (du : list (pystr * pyval)) (clean_id : pystr)
  : pystr :=
  u "✅ Discord Presence for "
  ++ (if eq_str (dict_get du (u "discriminator") (VStr (u "0"))) (u "0")
      then u "@" ++ str (dict_get du (u "username") (VStr (u "Unknown")))
      else str (dict_get du (u "username") (VStr (u "Unknown"))) ++ u "#"
           ++ str (dict_get du (u "discriminator") (VStr (u "0"))))
  ++ u " (" ++ str (dict_get du (u "id") (VStr clean_id)) ++ u ")".

(** The status line: the emoji of the status, or the white circle, and the
    status in upper case. *)
Definition status_line (status : pystr) : pystr :=
  u "Status: "
  ++ match assoc_str status_emoji status with
     | Some emoji => emoji
     | None => u "⚪"
     end
  ++ u " " ++ upper status ++ u "\n\n".

(** One line per device flag that is set. *)
Definition device_lines (d : list (pystr * pyval)) : pystr :=
  (if truthy (dict_get d (u "active_on_discord_desktop") VNone)
   then u "💻 Active on Desktop\n" else [])
  ++ (if truthy (dict_get d (u "active_on_discord_mobile") VNone)
      then u "📱 Active on Mobile\n" else []).

(** The Spotify block, there when the flag and the record both are. *)
Definition spotify_section (d : list (pystr * pyval)) : pystr :=
  if truthy (dict_get d (u "listening_to_spotify") VNone)
     && truthy (dict_get d (u "spotify") VNone)
  then
    match dict_get d (u "spotify") VNone with
    | VDict sd =>
      match dict_get sd (u "timestamps") (VDict []) with
      | VDict st => spotify_block sd st ++ u "\n"
      | _ => []
      end
    | _ => []
    end
  else [].

(** The Activities block, there when the sequence is not empty. *)
Definition activities_section (d : list (pystr * pyval)) : pystr :=
  match dict_get d (u "activities") (VList []) with
  | VList (a :: rest) =>
    u "🎮 Activities:" ++ activity_entries 1 (a :: rest) ++ u "\n"
  | _ => []
  end.

(** The KV block, there when the mapping is not empty. *)
Definition kv_section (d : list (pystr * pyval)) : pystr :=
  match dict_get d (u "kv") (VDict []) with
  | VDict (entry :: rest) =>
    u "📝 Custom KV Data:\n" ++ concat (map kv_line (entry :: rest))
  | _ => []
  end.

(** The full presence text before it is trimmed. *)
Definition presence_text (d du : list (pystr * pyval)) (status clean_id : pystr)
  : pystr :=
  presence_header du clean_id ++ u "\n\n" ++ status_line status
  ++ device_lines d ++ u "\n" ++ spotify_section d ++ activities_section d
  ++ kv_section d.

(** The user record of the examples of the specification. *)
Definition alice (discriminator : pystr) : list (pystr * pyval) :=
  [ (u "username", VStr (u "alice"));
    (u "discriminator", VStr discriminator);
    (u "id", VStr (u "94490510688792576")) ].

(** A payload in which most fields are absent. *)
Definition sparse_payload : pyval :=
  VDict [ (u "discord_user", VDict [ (u "username", VStr (u "alice")) ]);
          (u "listening_to_spotify", VBool true);
          (u "spotify", VDict [ (u "song", VStr (u "Song B")) ]);
          (u "activities", VList [ VDict [ (u "name", VStr (u "Game A")) ] ]);
          (u "kv", VDict [ (u "a", VStr (u "1")) ]) ].

(** ** Vocabulary of the further properties *)

(** No range of [a] meets a range of [b]. *)
Definition ranges_disjoint (a b : list (N * N)) : bool :=
  forallb (fun r => forallb (fun w => (snd r <? fst w)%N || (snd w <? fst r)%N) b) a.

(** The exception classes that reach the last [except] clause of a tool. *)
Definition reaches_generic_handler (c : exn_class) : bool :=
  match c with
  | HTTPStatusError _ | TimeoutException => false
  | _ => true
  end.

(** The status is one of 200..299. *)
Definition is_2xx (r : response) : bool :=
  (200 <=? status_code_of r)%Z && (status_code_of r <=? 299)%Z.

(** A network that answers 200 with the body [body]. *)
Definition answers_with_body (body : pyval) : network :=
  fun _ => Responds (mk_response 200 (u "") (Ok body)).

(** A network on which every request fails with [e]. *)
Definition fails_with (e : exn) : network := fun _ => Fails e.

(** The Spotify-only text before it is trimmed. *)
Definition spotify_text (username : pyval) (sd st : list (pystr * pyval))
  : pystr :=
  u "✅ Spotify Status for " ++ str username ++ u "\n\n"
  ++ spotify_block sd st
  ++ (if truthy (dict_get sd (u "album_art_url") (VStr (u "")))
      then u "  Album Art: " ++ str (dict_get sd (u "album_art_url") (VStr (u "")))
           ++ u "\n"
      else [])
  ++ (if truthy (dict_get sd (u "track_id") (VStr (u "")))
      then u "  Track URL: https://open.spotify.com/track/"
           ++ str (dict_get sd (u "track_id") (VStr (u ""))) ++ u "\n"
      else []).

(** A Spotify record with a song and a track. *)
Definition song_record : list (pystr * pyval) :=
  [ (u "song", VStr (u "Song B")); (u "track_id", VStr (u "4uLU6hMCjMI75M1A2tKUQC")) ].

(** A payload of a user who is listening. *)
Definition listening_payload : list (pystr * pyval) :=
  [ (u "discord_user", VDict (alice (u "0")));
    (u "listening_to_spotify", VBool true);
    (u "spotify", VDict song_record);
    (u "kv", VDict [ (u "a", VStr (u "1")) ]) ].

(** The value is a [dict]. *)
Definition is_dict (v : pyval) : bool :=
  match v with VDict _ => true | _ => false end.

(** * Properties *)

Arguments u : simpl never.
Arguments str_of_Z : simpl never.

(** ** The model on sample inputs *)

Example format_timestamp_ex :
  format_timestamp (VInt 1700000000000) = u "2023-11-14 22:13:20 UTC"
  /\ format_timestamp (VInt (-1)) = u "1969-12-31 23:59:59 UTC"
  /\ format_timestamp (VInt 253402300799999) = u "9999-12-31 23:59:59 UTC"
  /\ format_timestamp (VInt 253402300800000) = u "Unknown"
  /\ format_timestamp (VInt (-62135596800000)) = u "1-01-01 00:00:00 UTC"
  /\ format_timestamp (VInt (-62135596800001)) = u "Unknown"
  /\ format_timestamp (VInt (-50000000000000)) = u "385-07-25 07:06:40 UTC"
  /\ format_timestamp (VStr (u "12")) = u "Unknown".
Proof. vm_compute. repeat split; reflexivity. Qed.

Example format_activities_ex :
  format_activities
    (VList [ VDict [ (u "name", VStr (u "Game A")); (u "type", VInt 0) ];
             VDict [ (u "name", VStr (u "Song B")); (u "type", VInt 2);
                     (u "state", VStr (u "Chill")) ] ])
  = Ok (u "\n1. Playing Game A\n\n2. Listening to Song B\n   State: Chill\n").
Proof. vm_compute. reflexivity. Qed.

Example format_kv_ex :
  format_kv_data (VDict [ (u "a", VStr (u "1")); (u "b", VStr (u "2")) ])
  = Ok (u "📝 Custom KV Data:\n  a: 1\n  b: 2\n").
Proof. vm_compute. reflexivity. Qed.

Example upper_ex : upper (u "online ß é") = u "ONLINE SS É".
Proof. vm_compute. reflexivity. Qed.

Example repr_ex : repr_str (u "a'b\n") = 0x22%N :: u "a'b" ++ [0x5C; 0x6E; 0x22]%N.
Proof. vm_compute. reflexivity. Qed.

Example str_of_Z_ex : str_of_Z (-404) = u "-404" /\ str_of_Z 0 = u "0".
Proof. vm_compute. split; reflexivity. Qed.

Example sanitize_ex1 :
  sanitize_user_id (u "  94490510688792576 ") = Ok (u "94490510688792576").
Proof. vm_compute. reflexivity. Qed.

Example sanitize_ex2 :
  sanitize_user_id (u "٩٤٤٩٠٥١٠٦٨٨٧٩٢٥٧٦") = Ok (u "٩٤٤٩٠٥١٠٦٨٨٧٩٢٥٧٦").
Proof. vm_compute. reflexivity. Qed.

(** ** The identifier validator *)

Lemma is_ascii_digit_isdigit_cp (c : codepoint) :
  is_ascii_digit c = true -> isdigit_cp c = true.
Proof.
  intros H. unfold isdigit_cp, in_ranges, digit_table.
  cbn [existsb fst snd]. unfold is_ascii_digit in H. rewrite H. reflexivity.
Qed.

Lemma is_ascii_digit_not_space (c : codepoint) :
  is_ascii_digit c = true -> isspace c = false.
Proof.
  unfold is_ascii_digit, isspace, in_ranges, whitespace_table.
  cbn [existsb fst snd]. intros H.
  apply andb_true_iff in H. destruct H as [H1 H2].
  apply N.leb_le in H1, H2.
  repeat match goal with
  | |- (?a || ?b)%bool = false => apply orb_false_iff; split
  | |- (?a && ?b)%bool = false => apply andb_false_iff
  end; try reflexivity;
  try (left; apply N.leb_gt; lia); try (right; apply N.leb_gt; lia).
Qed.

Lemma ascii_digits_isdigit (s : pystr) :
  s <> [] -> forallb is_ascii_digit s = true -> isdigit s = true.
Proof.
  intros Hne Hall. destruct s as [|c s]; [congruence|].
  unfold isdigit. rewrite forallb_forall in *.
  intros x Hx. apply is_ascii_digit_isdigit_cp. auto.
Qed.

(** C1. An input whose trimmed form is a non-empty string of 17 to 20 ASCII
    digits is accepted, and the result is that trimmed string itself: the
    digits are never read as a number, so nothing bounds their value. *)
Theorem sanitize_user_id_accepts_ascii_digits (user_id : pystr) :
  strip user_id <> [] ->
  forallb is_ascii_digit (strip user_id) = true ->
  (17 <= length (strip user_id) <= 20)%nat ->
  sanitize_user_id user_id = Ok (strip user_id).
Proof.
  intros Hne Hall Hlen. unfold sanitize_user_id.
  pose proof (ascii_digits_isdigit Hne Hall) as Hd.
  destruct (strip user_id) as [|c s] eqn:E; [congruence|].
  rewrite Hd. cbn [negb].
  assert (H17 : (length (c :: s) <? 17)%nat = false)
    by (apply Nat.ltb_ge; lia).
  assert (H20 : (20 <? length (c :: s))%nat = false)
    by (apply Nat.ltb_ge; lia).
  rewrite H17, H20. reflexivity.
Qed.

(** A 20-digit identifier above 2^64 - 1, surrounded by whitespace, comes
    back as its digits. *)
Lemma sanitize_user_id_accepts_ascii_digits_witness :
  sanitize_user_id (u " 99999999999999999999\n") = Ok (u "99999999999999999999").
Proof.
  apply (sanitize_user_id_accepts_ascii_digits (u " 99999999999999999999\n")).
  - vm_compute. discriminate.
  - vm_compute. reflexivity.
  - vm_compute. lia.
Defined.

Lemma sanitize_user_id_rejects_non_digit (user_id : pystr) (c : codepoint) :
  In c (strip user_id) -> isdigit_cp c = false ->
  sanitize_user_id user_id
  = Raise (mk_exn ValueError (u "User ID must contain only digits")).
Proof.
  intros Hin Hc. unfold sanitize_user_id.
  destruct (strip user_id) as [|c0 s] eqn:E; [contradiction|].
  assert (Hd : isdigit (c0 :: s) = false).
  { unfold isdigit. apply not_true_is_false. intros Hall.
    rewrite forallb_forall in Hall. rewrite (Hall c Hin) in Hc. discriminate. }
  rewrite Hd. reflexivity.
Qed.

(** C2. The validator at an identifier made of seventeen superscript twos:
    no character of it is an ASCII digit, and it is returned as valid. *)
Theorem sanitize_user_id_accepts_superscript_digits :
  forallb (fun c => negb (is_ascii c)) (strip superscript_id) = true
  /\ strip superscript_id <> []
  /\ sanitize_user_id superscript_id = Ok superscript_id.
Proof.
  vm_compute. repeat split; try reflexivity. discriminate.
Qed.

(** ** The KV block *)

Lemma fold_left_append (A : Type) (f : A -> pystr) (l : list A) (acc : pystr) :
  fold_left (fun output x => output ++ f x) l acc = acc ++ concat (map f l).
Proof.
  revert acc. induction l as [|x l IH]; intros acc; cbn [fold_left map concat].
  - now rewrite app_nil_r.
  - rewrite IH. now rewrite <- app_assoc.
Qed.

Lemma format_kv_data_dict (d : list (pystr * pyval)) :
  d <> [] ->
  format_kv_data (VDict d)
  = Ok (u "📝 Custom KV Data:\n" ++ concat (map kv_line d)).
Proof.
  intros Hd. unfold format_kv_data. destruct d as [|e d]; [congruence|].
  cbn [truthy negb items bind]. now rewrite fold_left_append.
Qed.

(** C5. The KV block of the empty mapping is "No KV data"; the block of a
    non-empty mapping is its caption followed by one line [key: value] per
    entry, in the order of the mapping; for {"a":"1","b":"2"} these are the
    two lines of [a] and of [b], in this order. *)
Theorem format_kv_data_one_line_per_entry :
  format_kv_data (VDict []) = Ok (u "No KV data")
  /\ (forall entry entries,
        format_kv_data (VDict (entry :: entries))
        = Ok (u "📝 Custom KV Data:\n"
              ++ concat (map (fun e => u "  " ++ fst e ++ u ": " ++ str (snd e)
                                       ++ u "\n")
                             (entry :: entries))))
  /\ format_kv_data (VDict [ (u "a", VStr (u "1")); (u "b", VStr (u "2")) ])
     = Ok (u "📝 Custom KV Data:\n" ++ u "  a: 1\n" ++ u "  b: 2\n").
Proof.
  split; [reflexivity|]. split.
  - intros entry entries. now rewrite format_kv_data_dict.
  - vm_compute. reflexivity.
Qed.

(** ** The tools: validation, the request and the mapped failures *)

Lemma sanitize_user_id_raises_ValueError (user_id : pystr) (e : exn) :
  sanitize_user_id user_id = Raise e -> exn_class_of e = ValueError.
Proof.
  unfold sanitize_user_id. destruct (strip user_id) as [|c s].
  - intros [= <-]. reflexivity.
  - destruct (negb (isdigit (c :: s))); [intros [= <-]; reflexivity|].
    destruct ((length (c :: s) <? 17)%nat || (20 <? length (c :: s))%nat);
      [intros [= <-]; reflexivity | discriminate].
Qed.

Ltac run_tool :=
  cbv beta iota zeta delta
    [get_user_presence get_user_spotify get_user_kv bindM log_info log_error
     client_get ret users_url fst snd].

(** An input the validator rejects is answered at once: the only thing
    done is the log line, and no request is made. *)
Lemma invalid_id_makes_no_request (user_id : pystr) (e : exn) (net : network) :
  sanitize_user_id user_id = Raise e ->
  get_user_presence user_id net
  = ([LogInfo (u "Fetching presence for user ID: " ++ user_id)],
     Ok (u "❌ Invalid user ID: " ++ exn_str e))
  /\ get_user_spotify user_id net
     = ([LogInfo (u "Fetching Spotify data for user ID: " ++ user_id)],
        Ok (u "❌ Invalid user ID: " ++ exn_str e))
  /\ get_user_kv user_id net
     = ([LogInfo (u "Fetching KV data for user ID: " ++ user_id)],
        Ok (u "❌ Invalid user ID: " ++ exn_str e)).
Proof.
  intros H. pose proof (sanitize_user_id_raises_ValueError _ H) as Hc.
  run_tool. rewrite H, Hc. repeat split.
Qed.

Lemma decode_and_render_status_error (render : pyval -> result pystr)
  (clean_id : pystr) (r : response) :
  ((200 <=? status_code_of r)%Z && (status_code_of r <=? 299)%Z) = false ->
  decode_and_render render clean_id (Ok r)
  = Raise (mk_exn (HTTPStatusError (status_code_of r)) (status_error_text r)).
Proof.
  intros H. unfold decode_and_render, raise_for_status. cbn [bind].
  rewrite H. reflexivity.
Qed.

(** C3. With a valid identifier, for each of the three tools: a response
    with status 404 gives the returned text "User not found" with the
    identifier, 429 the rate-limit sentence, any other status outside
    200..299 the text "API Error: HTTP" with the status code, and a
    timeout the timeout sentence; each is a returned value, not a raised
    exception. *)
Theorem upstream_failures_are_returned_as_text
  (user_id clean_id : pystr) (net : network) :
  sanitize_user_id user_id = Ok clean_id ->
  (forall r, net (users_url clean_id) = Responds r ->
     status_code_of r = 404%Z ->
     snd (get_user_presence user_id net)
     = Ok (u "❌ User not found: " ++ clean_id
           ++ u " (Discord user may not be using Lanyard)")
     /\ snd (get_user_spotify user_id net)
        = Ok (u "❌ User not found: " ++ clean_id)
     /\ snd (get_user_kv user_id net)
        = Ok (u "❌ User not found: " ++ clean_id))
  /\ (forall r, net (users_url clean_id) = Responds r ->
        status_code_of r = 429%Z ->
        snd (get_user_presence user_id net)
        = Ok (u "❌ Rate limit exceeded. Please try again later.")
        /\ snd (get_user_spotify user_id net)
           = Ok (u "❌ Rate limit exceeded. Please try again later.")
        /\ snd (get_user_kv user_id net)
           = Ok (u "❌ Rate limit exceeded. Please try again later."))
  /\ (forall r, net (users_url clean_id) = Responds r ->
        ~ (200 <= status_code_of r <= 299)%Z ->
        status_code_of r <> 404%Z -> status_code_of r <> 429%Z ->
        snd (get_user_presence user_id net)
        = Ok (u "❌ API Error: HTTP " ++ str_of_Z (status_code_of r))
        /\ snd (get_user_spotify user_id net)
           = Ok (u "❌ API Error: HTTP " ++ str_of_Z (status_code_of r))
        /\ snd (get_user_kv user_id net)
           = Ok (u "❌ API Error: HTTP " ++ str_of_Z (status_code_of r)))
  /\ (forall e, net (users_url clean_id) = Fails e ->
        exn_class_of e = TimeoutException ->
        snd (get_user_presence user_id net)
        = Ok (u "⏱️ Request timed out while fetching user " ++ clean_id)
        /\ snd (get_user_spotify user_id net)
           = Ok (u "⏱️ Request timed out while fetching user " ++ clean_id)
        /\ snd (get_user_kv user_id net)
           = Ok (u "⏱️ Request timed out while fetching user " ++ clean_id)).
Proof.
  intros Hid. unfold users_url.
  split; [|split; [|split]].
  - intros r Hnet Hs. repeat split; run_tool; rewrite Hid; cbv beta iota zeta;
      rewrite Hnet; cbv beta iota zeta;
      rewrite decode_and_render_status_error by (rewrite Hs; reflexivity);
      cbn [exn_class_of]; rewrite Hs; reflexivity.
  - intros r Hnet Hs. repeat split; run_tool; rewrite Hid; cbv beta iota zeta;
      rewrite Hnet; cbv beta iota zeta;
      rewrite decode_and_render_status_error by (rewrite Hs; reflexivity);
      cbn [exn_class_of]; rewrite Hs; reflexivity.
  - intros r Hnet Hrange H404 H429.
    assert (Hb : ((200 <=? status_code_of r)%Z
                  && (status_code_of r <=? 299)%Z) = false).
    { apply not_true_is_false. intros Hb. apply Hrange.
      apply andb_true_iff in Hb. destruct Hb as [Hb1 Hb2].
      apply Z.leb_le in Hb1, Hb2. lia. }
    apply Z.eqb_neq in H404, H429.
    repeat split; run_tool; rewrite Hid; cbv beta iota zeta;
      rewrite Hnet; cbv beta iota zeta;
      rewrite (decode_and_render_status_error _ _ _ Hb);
      cbn [exn_class_of]; rewrite H404, H429; reflexivity.
  - intros e Hnet Hc. repeat split; run_tool; rewrite Hid; cbv beta iota zeta;
      rewrite Hnet; cbv beta iota zeta;
      unfold decode_and_render; cbn [bind]; rewrite Hc; reflexivity.
Qed.

Lemma upstream_failures_are_returned_as_text_witness :
  snd (get_user_presence (u " 94490510688792576 ") (answers_with_status 404))
  = Ok (u "❌ User not found: 94490510688792576 (Discord user may not be using Lanyard)")
  /\ snd (get_user_kv (u " 94490510688792576 ") (answers_with_status 503))
     = Ok (u "❌ API Error: HTTP 503").
Proof.
  split.
  - destruct (@upstream_failures_are_returned_as_text
                (u " 94490510688792576 ") (u "94490510688792576")
                (answers_with_status 404)) as [H404 _].
    + vm_compute. reflexivity.
    + destruct (H404 (mk_response 404 (u "") (Raise (mk_exn ValueError (u "")))))
        as [H _]; [reflexivity | reflexivity |].
      rewrite H. vm_compute. reflexivity.
  - destruct (@upstream_failures_are_returned_as_text
                (u " 94490510688792576 ") (u "94490510688792576")
                (answers_with_status 503)) as (_ & _ & Hother & _).
    + vm_compute. reflexivity.
    + destruct (Hother (mk_response 503 (u "") (Raise (mk_exn ValueError (u "")))))
        as (_ & _ & H); [reflexivity | cbn; lia | cbn; lia | cbn; lia |].
      rewrite H. vm_compute. reflexivity.
Defined.

Ltac run_valid_tool Hid :=
  run_tool; rewrite Hid; cbv beta iota zeta;
  match goal with
  | |- context [decode_and_render ?f ?c ?g] =>
    destruct (decode_and_render f c g) as [output|e];
    [| destruct (exn_class_of e) as [| | | |status| |];
       [| | | | destruct (status =? 404)%Z; [|destruct (status =? 429)%Z] | |]]
  end.

(** An accepted identifier is fetched with exactly one request, to its own
    URL and with the fixed timeout. *)
Lemma valid_id_makes_one_request (user_id clean_id : pystr) (net : network) :
  sanitize_user_id user_id = Ok clean_id ->
  filter is_request (fst (get_user_presence user_id net))
  = [HttpGet (users_url clean_id) REQUEST_TIMEOUT]
  /\ filter is_request (fst (get_user_spotify user_id net))
     = [HttpGet (users_url clean_id) REQUEST_TIMEOUT]
  /\ filter is_request (fst (get_user_kv user_id net))
     = [HttpGet (users_url clean_id) REQUEST_TIMEOUT].
Proof.
  intros Hid. repeat split; run_valid_tool Hid; reflexivity.
Qed.

(** C10. Each tool at the identifier of seventeen superscript twos, which
    is not of the shape "17 to 20 ASCII digits": the validator lets it
    through and the request for it is issued. *)
Theorem superscript_id_reaches_the_request (net : network) :
  forallb is_ascii_digit superscript_id = false
  /\ filter is_request (fst (get_user_presence superscript_id net))
     = [HttpGet (users_url superscript_id) REQUEST_TIMEOUT]
  /\ filter is_request (fst (get_user_spotify superscript_id net))
     = [HttpGet (users_url superscript_id) REQUEST_TIMEOUT]
  /\ filter is_request (fst (get_user_kv superscript_id net))
     = [HttpGet (users_url superscript_id) REQUEST_TIMEOUT].
Proof.
  split; [vm_compute; reflexivity|].
  apply valid_id_makes_one_request. vm_compute. reflexivity.
Qed.

(** ** Dictionaries *)

Lemma get_dict (d : list (pystr * pyval)) (key : pystr) (default : pyval) :
  get (VDict d) key default = Ok (dict_get d key default).
Proof. reflexivity. Qed.

Lemma getitem_truthy (d : list (pystr * pyval)) (key : pystr) :
  truthy (dict_get d key VNone) = true ->
  getitem (VDict d) key = Ok (dict_get d key VNone).
Proof.
  unfold dict_get, getitem. destruct (dict_lookup d key); [reflexivity|].
  discriminate.
Qed.

Lemma dict_get_agree (d1 d2 : list (pystr * pyval)) (key : pystr)
  (default : pyval) :
  dict_lookup d1 key = dict_lookup d2 key ->
  dict_get d1 key default = dict_get d2 key default.
Proof. unfold dict_get. now intros ->. Qed.

(** ** The Spotify-only renderer when nothing is played *)

Lemma render_spotify_not_listening (d : list (pystr * pyval)) :
  not_listening d ->
  render_spotify (VDict d)
  = let* username :=
      get (dict_get d (u "discord_user") (VDict [])) (u "username")
          (VStr (u "Unknown")) in
    Ok (u "🎵 " ++ str username ++ u " is not currently listening to Spotify").
Proof.
  intros H. unfold render_spotify. rewrite !get_dict. cbn [bind].
  destruct (get (dict_get d (u "discord_user") (VDict [])) (u "username")
                (VStr (u "Unknown"))) as [username|e]; [|reflexivity].
  cbn [bind].
  assert (Hc : negb (truthy (dict_get d (u "listening_to_spotify") (VBool false)))
               || negb (truthy (dict_get d (u "spotify") VNone)) = true).
  { destruct H as [-> | ->]; cbn; [reflexivity | apply orb_true_r]. }
  rewrite Hc. reflexivity.
Qed.

(** C9. When the payload does not say that the user is listening (the flag
    is false, or the Spotify record is absent), the Spotify-only renderer
    returns the sentence "... is not currently listening to Spotify" with
    the username; and two such payloads that differ at most in what is
    under [spotify] give the same result. *)
Theorem not_listening_ignores_spotify_record :
  (forall d du,
     dict_get d (u "discord_user") (VDict []) = VDict du ->
     not_listening d ->
     render_spotify (VDict d)
     = Ok (u "🎵 " ++ str (dict_get du (u "username") (VStr (u "Unknown")))
           ++ u " is not currently listening to Spotify"))
  /\ (forall d1 d2,
        (forall key, key <> u "spotify" -> dict_lookup d1 key = dict_lookup d2 key) ->
        not_listening d1 -> not_listening d2 ->
        render_spotify (VDict d1) = render_spotify (VDict d2)).
Proof.
  split.
  - intros d du Hdu H. rewrite (render_spotify_not_listening H), Hdu.
    reflexivity.
  - intros d1 d2 Hagree H1 H2.
    rewrite (render_spotify_not_listening H1), (render_spotify_not_listening H2).
    assert (Hne : u "discord_user" <> u "spotify") by (vm_compute; discriminate).
    rewrite (@dict_get_agree d1 d2 _ (VDict []) (Hagree _ Hne)).
    reflexivity.
Qed.

Lemma not_listening_ignores_spotify_record_witness :
  render_spotify
    (VDict [ (u "discord_user", VDict [ (u "username", VStr (u "alice")) ]);
             (u "listening_to_spotify", VBool false);
             (u "spotify", VDict [ (u "song", VStr (u "Song B")) ]) ])
  = Ok (u "🎵 alice is not currently listening to Spotify")
  /\ render_spotify
       (VDict [ (u "discord_user", VDict [ (u "username", VStr (u "alice")) ]);
                (u "listening_to_spotify", VBool false);
                (u "spotify", VDict [ (u "song", VStr (u "Song B")) ]) ])
     = render_spotify
         (VDict [ (u "discord_user", VDict [ (u "username", VStr (u "alice")) ]);
                  (u "listening_to_spotify", VBool false);
                  (u "spotify", VDict [ (u "song", VStr (u "Song C"));
                                   (u "artist", VInt 7) ]) ]).
Proof.
  destruct not_listening_ignores_spotify_record as [Hsentence Hsame]. split.
  - rewrite (Hsentence _ [ (u "username", VStr (u "alice")) ]).
    + vm_compute. reflexivity.
    + vm_compute. reflexivity.
    + left. vm_compute. reflexivity.
  - apply Hsame.
    + intros key Hkey. cbn [dict_lookup].
      destruct (pystr_eqb (u "discord_user") key); [reflexivity|].
      destruct (pystr_eqb (u "listening_to_spotify") key); [reflexivity|].
      unfold pystr_eqb. destruct (pystr_eq_dec (u "spotify") key) as [E|E];
        [congruence | reflexivity].
    + left. vm_compute. reflexivity.
    + left. vm_compute. reflexivity.
Defined.

(** ** The Spotify block *)

Lemma format_spotify_data_dict (d t : list (pystr * pyval)) :
  d <> [] ->
  dict_get d (u "timestamps") (VDict []) = VDict t ->
  format_spotify_data (VDict d) = Ok (spotify_block d t).
Proof.
  intros Hd Ht. unfold format_spotify_data, spotify_block, line_if_truthy.
  destruct d as [|e d]; [congruence|]. cbn [truthy negb].
  rewrite !get_dict. cbn [bind]. rewrite Ht, !get_dict. cbn [bind].
  destruct (truthy (dict_get t (u "start") VNone)) eqn:Es;
    [rewrite (getitem_truthy _ _ Es)|];
    cbn [bind];
    (destruct (truthy (dict_get t (u "end") VNone)) eqn:Ee;
     [rewrite (getitem_truthy _ _ Ee)|]);
    cbn [bind]; rewrite <- ?app_assoc, ?app_nil_r; reflexivity.
Qed.

(** ** The Activities block *)

Lemma type_names_get (z : Z) :
  int_table_get type_names (VInt z) (u "Activity") = Ok (type_label z).
Proof.
  unfold int_table_get, type_names, assoc_int, type_label.
  destruct z as [|[[[p|p|]|[p|p|]|]|[[p|p|]|[p|p|]|]|]|p]; reflexivity.
Qed.

Lemma format_activities_loop_typed (activities : list pyval) :
  forallb typed_activity activities = true ->
  forall i output,
    format_activities_loop i activities output
    = Ok (output ++ activity_entries i activities).
Proof.
  induction activities as [|a rest IH]; intros Hall i output.
  - cbn. now rewrite app_nil_r.
  - cbn [forallb] in Hall. apply andb_true_iff in Hall.
    destruct Hall as [Ha Hrest].
    destruct a as [| | | | |d]; try discriminate Ha.
    cbn [typed_activity] in Ha.
    cbn [format_activities_loop activity_entries activity_entry].
    rewrite !get_dict. cbn [bind].
    destruct (dict_get d (u "type") (VInt 0)) as [| |z| | |] eqn:Et;
      try discriminate Ha.
    rewrite type_names_get. cbn [bind]. unfold line_if_truthy.
    destruct (truthy (dict_get d (u "details") VNone)) eqn:Ed;
      [rewrite (getitem_truthy _ _ Ed)|];
      cbn [bind];
      (destruct (truthy (dict_get d (u "state") VNone)) eqn:Es;
       [rewrite (getitem_truthy _ _ Es)|]);
      cbn [bind]; rewrite (IH Hrest);
      rewrite <- ?app_assoc, ?app_nil_r; reflexivity.
Qed.

Lemma format_activities_typed (activities : list pyval) :
  activities <> [] ->
  forallb typed_activity activities = true ->
  format_activities (VList activities) = Ok (activity_entries 1 activities).
Proof.
  intros Hne Hall. unfold format_activities.
  destruct activities as [|a rest]; [congruence|].
  cbn [truthy negb iter bind].
  now rewrite (format_activities_loop_typed _ Hall).
Qed.

(** ** The calendar *)

Lemma all_below_spec (P : Z -> bool) (fuel : nat) (lo : Z) :
  all_below fuel lo P = true ->
  forall z, (lo <= z < lo + Z.of_nat fuel)%Z -> P z = true.
Proof.
  revert lo. induction fuel as [|fuel IH]; intros lo H z Hz.
  - lia.
  - cbn [all_below] in H. apply andb_true_iff in H. destruct H as [H0 H1].
    destruct (Z.eq_dec z lo) as [->|Hne]; [exact H0|].
    apply (IH _ H1). lia.
Qed.

Local Open Scope Z_scope.

Lemma days_in_month_month_length y m : days_in_month y m = month_length (is_leap y) m.
Proof. reflexivity. Qed.

Lemma ydays_ok leap n : 0 <= n < 365 -> yday_ok leap n = true.
Proof.
  intros Hn. destruct leap.
  - apply (@all_below_spec (yday_ok true) 365%nat 0); [vm_compute; reflexivity | lia].
  - apply (@all_below_spec (yday_ok false) 365%nat 0); [vm_compute; reflexivity | lia].
Qed.

Lemma is_leap_cycles (n400 n100 n4 n1 : Z) :
  0 <= n100 <= 3 -> 0 <= n4 <= 24 -> 0 <= n1 <= 3 ->
  is_leap (n400 * 400 + 1 + n100 * 100 + n4 * 4 + n1)
  = (n1 =? 3) && (negb (n4 =? 24) || (n100 =? 3)).
Proof.
  intros H100 H4 H1. unfold is_leap.
  set (y := n400 * 400 + 1 + n100 * 100 + n4 * 4 + n1).
  assert (E4 : y mod 4 = (n1 + 1) mod 4).
  { unfold y. replace (n400 * 400 + 1 + n100 * 100 + n4 * 4 + n1)
      with (n1 + 1 + (n400 * 100 + n100 * 25 + n4) * 4) by ring.
    now rewrite Z.mod_add by lia. }
  assert (E100 : y mod 100 = (n4 * 4 + n1 + 1) mod 100).
  { unfold y. replace (n400 * 400 + 1 + n100 * 100 + n4 * 4 + n1)
      with (n4 * 4 + n1 + 1 + (n400 * 4 + n100) * 100) by ring.
    now rewrite Z.mod_add by lia. }
  assert (E400 : y mod 400 = (n100 * 100 + n4 * 4 + n1 + 1) mod 400).
  { unfold y. replace (n400 * 400 + 1 + n100 * 100 + n4 * 4 + n1)
      with (n100 * 100 + n4 * 4 + n1 + 1 + n400 * 400) by ring.
    now rewrite Z.mod_add by lia. }
  rewrite E4, E100, E400.
  destruct (Z.eqb_spec n1 3), (Z.eqb_spec n4 24), (Z.eqb_spec n100 3);
    cbn [andb orb negb];
    repeat match goal with
    | |- context [(?a mod ?b =? 0)] =>
      destruct (Z.eqb_spec (a mod b) 0)
    end; cbn [andb orb negb]; try reflexivity;
    exfalso; Z.div_mod_to_equations; lia.
Qed.

Lemma is_leap_400 (k : Z) : is_leap (k * 400) = true.
Proof.
  unfold is_leap.
  replace (k * 400) with (0 + (k * 100) * 4) at 1 by ring.
  replace (k * 400) with (0 + k * 400) at 2 by ring.
  rewrite !Z.mod_add by lia. cbn. apply orb_true_r.
Qed.

Lemma days_before_year_cycles (n400 n100 n4 n1 : Z) :
  0 <= n100 <= 3 -> 0 <= n4 <= 24 -> 0 <= n1 <= 3 ->
  days_before_year (n400 * 400 + 1 + n100 * 100 + n4 * 4 + n1)
  = n400 * DI400Y + n100 * DI100Y + n4 * DI4Y + n1 * 365.
Proof.
  intros H100 H4 H1. unfold days_before_year, DI400Y, DI100Y, DI4Y. cbv zeta.
  Z.div_mod_to_equations. lia.
Qed.

Lemma ord2ymd_sound (n : Z) :
  let '(y, m, d) := ord2ymd n in
  1 <= m <= 12 /\ 1 <= d <= days_in_month y m /\ ymd2ord y m d = n.
Proof.
  unfold ord2ymd. cbv zeta.
  assert (Hn : n = (n - 1) + 1) by ring. revert Hn.
  generalize (n - 1) as n0. intros n0 Hn.
  set (n400 := n0 / DI400Y). set (r := n0 mod DI400Y).
  set (n100 := r / DI100Y). set (r1 := r mod DI100Y).
  set (n4 := r1 / DI4Y). set (r2 := r1 mod DI4Y).
  set (n1 := r2 / 365). set (r3 := r2 mod 365).
  assert (Hn0 : n0 = n400 * DI400Y + r /\ 0 <= r < DI400Y)
    by (unfold n400, r, DI400Y; Z.div_mod_to_equations; lia).
  assert (Hr : r = n100 * DI100Y + r1 /\ 0 <= r1 < DI100Y)
    by (unfold n100, r1, DI100Y; Z.div_mod_to_equations; lia).
  assert (Hr1 : r1 = n4 * DI4Y + r2 /\ 0 <= r2 < DI4Y)
    by (unfold n4, r2, DI4Y; Z.div_mod_to_equations; lia).
  assert (Hr2 : r2 = n1 * 365 + r3 /\ 0 <= r3 < 365)
    by (unfold n1, r3; Z.div_mod_to_equations; lia).
  clearbody n400 r n100 r1 n4 r2 n1 r3. unfold DI400Y, DI100Y, DI4Y in *.
  destruct (Z.eqb_spec n1 4) as [E1|E1]; cbn [orb].
  - (* the last day of a leap year *)
    replace (n400 * 400 + 1 + n100 * 100 + n4 * 4 + n1 - 1)
      with (n400 * 400 + 1 + n100 * 100 + n4 * 4 + 3) by lia.
    unfold ymd2ord, days_in_month.
    rewrite is_leap_cycles, days_before_year_cycles by lia.
    replace (n4 =? 24) with false by (symmetry; apply Z.eqb_neq; lia).
    cbn [Z.eqb Pos.eqb andb orb negb]. change (days_before_month true 12) with 335.
    unfold DI400Y, DI100Y, DI4Y. lia.
  - destruct (Z.eqb_spec n100 4) as [E100|E100].
    + (* the last day of the 400-year cycle *)
      assert (n4 = 0 /\ n1 = 0 /\ r3 = 0) as (-> & -> & ->) by lia.
      replace (n400 * 400 + 1 + n100 * 100 + 0 * 4 + 0 - 1)
        with ((n400 + 1) * 400) by lia.
      unfold ymd2ord, days_in_month. rewrite is_leap_400.
      cbn [Z.eqb Pos.eqb orb]. change (days_before_month true 12) with 335.
      unfold days_before_year. cbv zeta.
      Z.div_mod_to_equations. lia.
    + (* an ordinary day: month and day from the day of the year *)
      assert (H100 : 0 <= n100 <= 3) by lia.
      assert (H4 : 0 <= n4 <= 24) by lia.
      assert (H1 : 0 <= n1 <= 3) by lia.
      set (y := n400 * 400 + 1 + n100 * 100 + n4 * 4 + n1).
      set (leap := (n1 =? 3) && (negb (n4 =? 24) || (n100 =? 3))).
      assert (Hleap : is_leap y = leap) by (apply is_leap_cycles; lia).
      assert (Hdby : days_before_year y
                     = n400 * 146097 + n100 * 36524 + n4 * 1461 + n1 * 365)
        by (apply days_before_year_cycles; lia).
      pose proof (@ydays_ok leap r3 ltac:(lia)) as Hok.
      unfold yday_ok, month_day in Hok. cbv zeta in Hok.
      rewrite (days_in_month_month_length y), Hleap.
      destruct (r3 <? days_before_month leap (Z.shiftr (r3 + 50) 5));
        rewrite !andb_true_iff in Hok;
        destruct Hok as ((((Hm1 & Hm2) & Hd1) & Hd2) & Hsum);
        apply Z.leb_le in Hm1, Hm2, Hd1, Hd2; apply Z.eqb_eq in Hsum;
        unfold ymd2ord; rewrite days_in_month_month_length, Hleap, Hdby;
        repeat split; lia.
Qed.

Lemma days_before_year_succ (y : Z) :
  days_before_year (y + 1)
  = days_before_year y + 365 + (if is_leap y then 1 else 0).
Proof.
  unfold days_before_year, is_leap. cbv zeta.
  replace (y + 1 - 1) with y by ring.
  destruct (Z.eqb_spec (y mod 4) 0), (Z.eqb_spec (y mod 100) 0),
    (Z.eqb_spec (y mod 400) 0); cbn [andb orb negb];
    Z.div_mod_to_equations; lia.
Qed.

Lemma days_before_year_mono (y y' : Z) :
  y <= y' -> days_before_year y <= days_before_year y'.
Proof.
  intros H. unfold days_before_year. cbv zeta.
  Z.div_mod_to_equations. lia.
Qed.

Lemma day_of_year_bounds (leap : bool) (m d : Z) :
  1 <= m <= 12 -> 1 <= d <= month_length leap m ->
  1 <= days_before_month leap m + d <= 365 + (if leap then 1 else 0).
Proof.
  intros Hm Hd.
  assert (Hcases : m = 1 \/ m = 2 \/ m = 3 \/ m = 4 \/ m = 5 \/ m = 6 \/ m = 7
                   \/ m = 8 \/ m = 9 \/ m = 10 \/ m = 11 \/ m = 12) by lia.
  repeat (destruct Hcases as [-> | Hcases]); [ .. | subst m];
    destruct leap;
    match type of Hd with
    | context [month_length ?b ?k] =>
      let v := eval vm_compute in (month_length b k) in
      change (month_length b k) with v in Hd
    end;
    match goal with
    | |- context [days_before_month ?b ?k] =>
      let v := eval vm_compute in (days_before_month b k) in
      change (days_before_month b k) with v
    end; lia.
Qed.

(** The year of an ordinal is the one whose days contain it. *)
Lemma ord2ymd_year (n : Z) :
  days_before_year (fst (fst (ord2ymd n))) < n
  <= days_before_year (fst (fst (ord2ymd n)) + 1).
Proof.
  pose proof (ord2ymd_sound n) as H.
  destruct (ord2ymd n) as [[y m] d]. cbn [fst].
  destruct H as (Hm & Hd & Hord).
  rewrite days_in_month_month_length in Hd.
  pose proof (day_of_year_bounds (is_leap y) Hm Hd) as Hb.
  rewrite days_before_year_succ. unfold ymd2ord in Hord.
  destruct (is_leap y); lia.
Qed.

Lemma ord2ymd_year_ge (n Y : Z) :
  days_before_year Y < n -> Y <= fst (fst (ord2ymd n)).
Proof.
  intros H. pose proof (ord2ymd_year n) as [_ Hle].
  destruct (Z_le_gt_dec Y (fst (fst (ord2ymd n)))) as [|Hgt]; [assumption|].
  pose proof (@days_before_year_mono (fst (fst (ord2ymd n)) + 1) Y ltac:(lia)).
  lia.
Qed.

Lemma ord2ymd_year_le (n Y : Z) :
  n <= days_before_year (Y + 1) -> fst (fst (ord2ymd n)) <= Y.
Proof.
  intros H. pose proof (ord2ymd_year n) as [Hlt _].
  destruct (Z_le_gt_dec (fst (fst (ord2ymd n))) Y) as [|Hgt]; [assumption|].
  pose proof (@days_before_year_mono (Y + 1) (fst (fst (ord2ymd n))) ltac:(lia)).
  lia.
Qed.

Lemma pystr_eqb_eq (a b : pystr) : pystr_eqb a b = true -> a = b.
Proof. unfold pystr_eqb. destruct (pystr_eq_dec a b); [auto | discriminate]. Qed.

Lemma str_of_Z_four_digits (y : Z) :
  1000 <= y <= 9999 -> str_of_Z y = four_digits y.
Proof.
  intros Hy. apply pystr_eqb_eq.
  apply (@all_below_spec (fun y => pystr_eqb (str_of_Z y) (four_digits y))
           (Z.to_nat 9000) 1000);
    [vm_compute; reflexivity | rewrite Z2Nat.id; lia].
Qed.

Lemma pad2_two_digits (n : Z) : 0 <= n <= 99 -> pad2 n = two_digits n.
Proof.
  intros Hn. apply pystr_eqb_eq.
  apply (@all_below_spec (fun n => pystr_eqb (pad2 n) (two_digits n))
           100%nat 0); [vm_compute; reflexivity | lia].
Qed.

Lemma utc_of_seconds_sound (sec : Z) :
  valid_civil (year (utc_of_seconds sec)) (month (utc_of_seconds sec))
    (day (utc_of_seconds sec)) (hour (utc_of_seconds sec))
    (minute (utc_of_seconds sec)) (second (utc_of_seconds sec))
  /\ utc_seconds (year (utc_of_seconds sec)) (month (utc_of_seconds sec))
       (day (utc_of_seconds sec)) (hour (utc_of_seconds sec))
       (minute (utc_of_seconds sec)) (second (utc_of_seconds sec)) = sec.
Proof.
  unfold utc_of_seconds, valid_civil, utc_seconds.
  pose proof (ord2ymd_sound (sec / 86400 + EPOCH_ORDINAL)) as H.
  destruct (ord2ymd (sec / 86400 + EPOCH_ORDINAL)) as [[y m] d].
  destruct H as (Hm & Hd & Hord). cbn [year month day hour minute second].
  rewrite Hord. unfold EPOCH_ORDINAL.
  repeat split; try lia; Z.div_mod_to_equations; lia.
Qed.

Lemma utc_of_seconds_year (sec : Z) :
  year (utc_of_seconds sec) = fst (fst (ord2ymd (sec / 86400 + EPOCH_ORDINAL))).
Proof.
  unfold utc_of_seconds.
  destruct (ord2ymd (sec / 86400 + EPOCH_ORDINAL)) as [[y m] d]. reflexivity.
Qed.

Lemma year_of_seconds_bounds (sec Y : Z) :
  ((days_before_year Y + 1 - EPOCH_ORDINAL) * 86400 <= sec ->
   Y <= year (utc_of_seconds sec))
  /\ (sec < (days_before_year (Y + 1) + 1 - EPOCH_ORDINAL) * 86400 ->
      year (utc_of_seconds sec) <= Y).
Proof.
  rewrite utc_of_seconds_year. unfold EPOCH_ORDINAL. split; intros H.
  - apply ord2ymd_year_ge. Z.div_mod_to_equations. lia.
  - apply ord2ymd_year_le. Z.div_mod_to_equations. lia.
Qed.

Lemma fromtimestamp_utc_in_range (sec : Z) :
  -62135596800 <= sec <= 253402300799 ->
  fromtimestamp_utc sec = Some (utc_of_seconds sec).
Proof.
  intros H. unfold fromtimestamp_utc, MINYEAR, MAXYEAR.
  destruct (year_of_seconds_bounds sec 1) as [Hlo _].
  destruct (year_of_seconds_bounds sec 9999) as [_ Hhi].
  change (days_before_year 1) with 0 in Hlo.
  change (days_before_year (9999 + 1)) with 3652059 in Hhi.
  unfold EPOCH_ORDINAL in *.
  specialize (Hlo ltac:(lia)). specialize (Hhi ltac:(lia)).
  apply Z.leb_le in Hlo, Hhi. now rewrite Hlo, Hhi.
Qed.

Lemma fromtimestamp_utc_out_of_range (sec : Z) :
  sec < -62135596800 \/ 253402300799 < sec ->
  fromtimestamp_utc sec = None.
Proof.
  intros H. unfold fromtimestamp_utc, MINYEAR, MAXYEAR.
  destruct (year_of_seconds_bounds sec 0) as [_ Hlo].
  destruct (year_of_seconds_bounds sec 10000) as [Hhi _].
  change (days_before_year (0 + 1)) with 0 in Hlo.
  change (days_before_year 10000) with 3652059 in Hhi.
  unfold EPOCH_ORDINAL in *.
  destruct H as [H|H].
  - specialize (Hlo ltac:(lia)).
    replace (1 <=? year (utc_of_seconds sec)) with false
      by (symmetry; apply Z.leb_gt; lia). reflexivity.
  - specialize (Hhi ltac:(lia)).
    replace (year (utc_of_seconds sec) <=? 9999) with false
      by (symmetry; apply Z.leb_gt; lia). now rewrite andb_false_r.
Qed.

Local Close Scope Z_scope.

(** ** Timestamps of the Spotify block *)

Lemma format_timestamp_in_range (ms : Z) :
  (MS_MIN <= ms <= MS_MAX)%Z ->
  format_timestamp (VInt ms) = strftime (utc_of_seconds (ms / 1000)).
Proof.
  intros H. unfold format_timestamp, fromtimestamp_ms.
  rewrite fromtimestamp_utc_in_range; [reflexivity|].
  unfold MS_MIN, MS_MAX in H. Z.div_mod_to_equations. lia.
Qed.

Lemma format_timestamp_out_of_range (ms : Z) :
  (ms < MS_MIN \/ MS_MAX < ms)%Z -> format_timestamp (VInt ms) = u "Unknown".
Proof.
  intros H. unfold format_timestamp, fromtimestamp_ms.
  rewrite fromtimestamp_utc_out_of_range; [reflexivity|].
  unfold MS_MIN, MS_MAX in H. Z.div_mod_to_equations. lia.
Qed.

Lemma strftime_text (sec : Z) :
  (1000 <= year (utc_of_seconds sec) <= 9999)%Z ->
  strftime (utc_of_seconds sec)
  = timestamp_text (year (utc_of_seconds sec)) (month (utc_of_seconds sec))
      (day (utc_of_seconds sec)) (hour (utc_of_seconds sec))
      (minute (utc_of_seconds sec)) (second (utc_of_seconds sec)).
Proof.
  intros Hy. destruct (utc_of_seconds_sound sec) as [Hvalid _].
  unfold valid_civil in Hvalid.
  destruct Hvalid as (Hm & Hd & Hh & Hmi & Hs).
  assert (Hd31 : (days_in_month (year (utc_of_seconds sec))
                    (month (utc_of_seconds sec)) <= 31)%Z).
  { unfold days_in_month.
    repeat match goal with
    | |- context [if ?c then _ else _] => destruct c
    end; lia. }
  unfold strftime, timestamp_text.
  rewrite str_of_Z_four_digits by assumption.
  rewrite !pad2_two_digits by lia. reflexivity.
Qed.

(** The claim C6 as the specification states it fails: a record whose
    [timestamps.start] is present, with the value 0, has no "Started"
    line. *)
Lemma format_spotify_data_start_zero_has_no_line :
  dict_lookup [ (u "start", VInt 0) ] (u "start") = Some (VInt 0)
  /\ format_spotify_data
       (VDict [ (u "song", VStr (u "Song B"));
                (u "timestamps", VDict [ (u "start", VInt 0) ]) ])
     = Ok (u "🎵 Spotify Activity:\n  Song: Song B\n  Artist: Unknown\n  Album: Unknown\n").
Proof. vm_compute. split; reflexivity. Qed.

(** C6, amended.  In the Spotify block of a record, a "Started" line is
    there exactly when [timestamps.start] is present and true as a
    condition (not 0, not null), and an "Ends" line exactly when
    [timestamps.end] is; an integer of milliseconds that falls in the years
    1000 to 9999 is rendered as its UTC date and time in the form
    [YYYY-MM-DD HH:MM:SS UTC]; a value on which the conversion fails (an
    integer outside the years 1 to 9999, or not a number) is rendered as
    "Unknown", and [format_timestamp] returns a string in every case. *)
Theorem spotify_block_timestamps :
  (forall d t,
     d <> [] ->
     dict_get d (u "timestamps") (VDict []) = VDict t ->
     format_spotify_data (VDict d)
     = Ok (u "🎵 Spotify Activity:\n"
           ++ u "  Song: " ++ str (dict_get d (u "song") (VStr (u "Unknown"))) ++ u "\n"
           ++ u "  Artist: " ++ str (dict_get d (u "artist") (VStr (u "Unknown"))) ++ u "\n"
           ++ u "  Album: " ++ str (dict_get d (u "album") (VStr (u "Unknown"))) ++ u "\n"
           ++ (if truthy (dict_get t (u "start") VNone)
               then u "  Started: " ++ format_timestamp (dict_get t (u "start") VNone)
                    ++ u "\n"
               else [])
           ++ (if truthy (dict_get t (u "end") VNone)
               then u "  Ends: " ++ format_timestamp (dict_get t (u "end") VNone)
                    ++ u "\n"
               else [])))
  /\ (forall ms,
        (MS_YEAR_1000 <= ms <= MS_MAX)%Z ->
        exists y mo d h mi s,
          (1000 <= y <= 9999)%Z /\ valid_civil y mo d h mi s
          /\ utc_seconds y mo d h mi s = (ms / 1000)%Z
          /\ format_timestamp (VInt ms) = timestamp_text y mo d h mi s)
  /\ (forall v, fromtimestamp_ms v = None -> format_timestamp v = u "Unknown")
  /\ (forall ms, (ms < MS_MIN \/ MS_MAX < ms)%Z ->
        format_timestamp (VInt ms) = u "Unknown")
  /\ (forall v, is_int v = false -> is_bool v = false ->
        format_timestamp v = u "Unknown").
Proof.
  split; [|split; [|split; [|split]]].
  - intros d t Hd Ht. rewrite (format_spotify_data_dict Hd Ht). reflexivity.
  - intros ms Hms. unfold MS_YEAR_1000, MS_MAX in Hms.
    set (sec := (ms / 1000)%Z).
    assert (Hy : (1000 <= year (utc_of_seconds sec) <= 9999)%Z).
    { destruct (year_of_seconds_bounds sec 1000) as [Hlo _].
      destruct (year_of_seconds_bounds sec 9999) as [_ Hhi].
      change (days_before_year 1000) with 364877%Z in Hlo.
      change (days_before_year (9999 + 1)) with 3652059%Z in Hhi.
      unfold EPOCH_ORDINAL in *. subst sec.
      split; [apply Hlo | apply Hhi]; Z.div_mod_to_equations; lia. }
    destruct (utc_of_seconds_sound sec) as [Hvalid Hsec].
    exists (year (utc_of_seconds sec)), (month (utc_of_seconds sec)),
      (day (utc_of_seconds sec)), (hour (utc_of_seconds sec)),
      (minute (utc_of_seconds sec)), (second (utc_of_seconds sec)).
    repeat split; try apply Hvalid; try apply Hy; try exact Hsec.
    rewrite format_timestamp_in_range by (unfold MS_MIN, MS_MAX; lia).
    now apply strftime_text.
  - intros v Hv. unfold format_timestamp. now rewrite Hv.
  - apply format_timestamp_out_of_range.
  - intros v Hi Hb. destruct v; try discriminate; reflexivity.
Qed.

Lemma spotify_block_timestamps_witness :
  format_spotify_data
    (VDict [ (u "song", VStr (u "Song B"));
             (u "timestamps", VDict [ (u "start", VInt 1700000000000) ]) ])
  = Ok (u "🎵 Spotify Activity:\n  Song: Song B\n  Artist: Unknown\n  Album: Unknown\n  Started: 2023-11-14 22:13:20 UTC\n")
  /\ (exists y mo d h mi s,
        (1000 <= y <= 9999)%Z /\ valid_civil y mo d h mi s
        /\ utc_seconds y mo d h mi s = (1700000000000 / 1000)%Z
        /\ format_timestamp (VInt 1700000000000) = timestamp_text y mo d h mi s)
  /\ format_timestamp (VInt 253402300800000) = u "Unknown".
Proof.
  destruct spotify_block_timestamps as (Hblock & Htext & _ & Hout & _).
  split; [|split].
  - rewrite (Hblock _ [ (u "start", VInt 1700000000000) ]).
    + vm_compute. reflexivity.
    + discriminate.
    + vm_compute. reflexivity.
  - apply Htext. unfold MS_YEAR_1000, MS_MAX. lia.
  - apply Hout. right. unfold MS_MAX. lia.
Defined.

(** ** The Activities block *)

(** The claim C8 as the specification states it fails: an activity whose
    [details] is present, with the empty string, has no "Details" line. *)
Lemma format_activities_empty_details_has_no_line :
  dict_lookup [ (u "name", VStr (u "Game A")); (u "details", VStr (u "")) ]
    (u "details") = Some (VStr (u ""))
  /\ format_activities
       (VList [ VDict [ (u "name", VStr (u "Game A"));
                        (u "details", VStr (u "")) ] ])
     = Ok (u "\n1. Playing Game A\n").
Proof. vm_compute. split; reflexivity. Qed.

(** C8, amended.  The Activities block of the empty sequence is
    "No activities"; the block of a sequence of activity records is, for
    each activity in the order of the sequence, the line
    [{ordinal}. {label} {name}] with ordinals from 1 and the label of the
    type (0 Playing, 1 Streaming, 2 Listening to, 3 Watching, 4 Custom
    Status, 5 Competing in, any other integer Activity), followed by an
    indented "Details" line if [details] is present and not empty, and an
    indented "State" line if [state] is present and not empty. *)
Theorem format_activities_entries :
  format_activities (VList []) = Ok (u "No activities")
  /\ (forall a rest,
        forallb typed_activity (a :: rest) = true ->
        format_activities (VList (a :: rest))
        = Ok (activity_entries 1 (a :: rest)))
  /\ (forall i d z,
        dict_get d (u "type") (VInt 0) = VInt z ->
        activity_entry i (VDict d)
        = u "\n" ++ str_of_Z i ++ u ". " ++ type_label z ++ u " "
          ++ str (dict_get d (u "name") (VStr (u "Unknown"))) ++ u "\n"
          ++ (if truthy (dict_get d (u "details") VNone)
              then u "   Details: " ++ str (dict_get d (u "details") VNone) ++ u "\n"
              else [])
          ++ (if truthy (dict_get d (u "state") VNone)
              then u "   State: " ++ str (dict_get d (u "state") VNone) ++ u "\n"
              else []))
  /\ (forall z, (z < 0 \/ 5 < z)%Z -> type_label z = u "Activity").
Proof.
  split; [reflexivity|]. split; [|split].
  - intros a rest H. apply format_activities_typed; [discriminate | exact H].
  - intros i d z Hz. unfold activity_entry. rewrite Hz. reflexivity.
  - intros z Hz. unfold type_label.
    destruct z as [|[[[p|p|]|[p|p|]|]|[[p|p|]|[p|p|]|]|]|p];
      try reflexivity; lia.
Qed.

Lemma format_activities_entries_witness :
  format_activities
    (VList [ VDict [ (u "name", VStr (u "Game A")); (u "type", VInt 0) ];
             VDict [ (u "name", VStr (u "Song B")); (u "type", VInt 2);
                     (u "state", VStr (u "Chill")) ] ])
  = Ok (u "\n1. Playing Game A\n\n2. Listening to Song B\n   State: Chill\n").
Proof.
  destruct format_activities_entries as (_ & Hentries & _).
  rewrite Hentries.
  - vm_compute. reflexivity.
  - vm_compute. reflexivity.
Defined.

(** ** Trimming *)

Lemma rstrip_snoc (s : pystr) (x : codepoint) :
  rstrip (s ++ [x]) = if isspace x then rstrip s else s ++ [x].
Proof.
  unfold rstrip. rewrite rev_app_distr. cbn [rev app dropwhile].
  destruct (isspace x); [reflexivity|].
  cbn [rev]. now rewrite rev_involutive.
Qed.

Lemma rstrip_keeps_prefix (h : pystr) (c : codepoint) (r : pystr) :
  isspace c = false ->
  exists r', rstrip ((h ++ [c]) ++ r) = (h ++ [c]) ++ r'.
Proof.
  intros Hc. induction r as [|x r IH] using rev_ind.
  - exists []. rewrite !app_nil_r, rstrip_snoc, Hc. reflexivity.
  - rewrite app_assoc, rstrip_snoc. destruct (isspace x).
    + exact IH.
    + exists (r ++ [x]). now rewrite app_assoc.
Qed.

Lemma strip_keeps_prefix (c0 : codepoint) (h1 h2 : pystr) (c : codepoint)
  (r : pystr) :
  c0 :: h1 = h2 ++ [c] -> isspace c0 = false -> isspace c = false ->
  exists r', strip ((c0 :: h1) ++ r) = (c0 :: h1) ++ r'.
Proof.
  intros Hh Hc0 Hc. unfold strip, lstrip.
  replace (dropwhile isspace ((c0 :: h1) ++ r)) with ((c0 :: h1) ++ r)
    by (cbn [app dropwhile]; now rewrite Hc0).
  rewrite Hh. now apply rstrip_keeps_prefix.
Qed.

(** ** Payloads of the schema *)

Lemma field_dict_get (d : list (pystr * pyval)) (key : pystr)
  (p : pyval -> bool) (default : pyval) :
  field d key p = true -> p default = true -> p (dict_get d key default) = true.
Proof.
  unfold field, dict_get. destruct (dict_lookup d key); auto.
Qed.

Lemma record_is_dict (fields : list (pystr * (pyval -> bool))) (v : pyval) :
  record fields v = true -> exists d, v = VDict d.
Proof. destruct v; try discriminate. eauto. Qed.

Lemma is_str_inv (v : pyval) : is_str v = true -> exists s, v = VStr s.
Proof. destruct v; try discriminate. eauto. Qed.

Lemma wf_payload_fields (d : list (pystr * pyval)) :
  wf_payload (VDict d) = true ->
  wf_discord_user (dict_get d (u "discord_user") (VDict [])) = true
  /\ is_str (dict_get d (u "discord_status") (VStr (u "unknown"))) = true
  /\ wf_spotify (dict_get d (u "spotify") VNone) = true
  /\ wf_activities (dict_get d (u "activities") (VList [])) = true
  /\ wf_kv (dict_get d (u "kv") (VDict [])) = true.
Proof.
  unfold wf_payload. cbn [record forallb fst snd]. intros H.
  repeat (apply andb_true_iff in H; destruct H as [?H H]).
  repeat split; apply field_dict_get; auto.
Qed.

Lemma format_spotify_data_wf (spotify : pyval) :
  wf_spotify spotify = true -> truthy spotify = true ->
  exists d t, spotify = VDict d
              /\ dict_get d (u "timestamps") (VDict []) = VDict t
              /\ format_spotify_data spotify = Ok (spotify_block d t).
Proof.
  intros Hwf Ht. destruct spotify as [| | | | |d]; try discriminate.
  cbn [wf_spotify record forallb fst snd] in Hwf.
  repeat (apply andb_true_iff in Hwf; destruct Hwf as [?H Hwf]).
  assert (Hts : wf_timestamps (dict_get d (u "timestamps") (VDict [])) = true)
    by (apply field_dict_get; auto).
  destruct (record_is_dict _ _ Hts) as [t Et].
  exists d, t. split; [reflexivity|]. split; [exact Et|].
  apply format_spotify_data_dict; [|exact Et].
  destruct d; [discriminate | discriminate].
Qed.

Lemma wf_activity_typed (a : pyval) :
  wf_activity a = true -> typed_activity a = true.
Proof.
  destruct a as [| | | | |d]; try discriminate.
  cbn [wf_activity record forallb fst snd typed_activity]. intros H.
  repeat (apply andb_true_iff in H; destruct H as [?H H]).
  apply field_dict_get; auto.
Qed.

Lemma format_activities_wf (activities : pyval) :
  wf_activities activities = true -> truthy activities = true ->
  exists l, activities = VList l
            /\ format_activities activities = Ok (activity_entries 1 l).
Proof.
  intros Hwf Ht. destruct activities as [| | | |l|]; try discriminate.
  exists l. split; [reflexivity|]. cbn [wf_activities] in Hwf.
  apply format_activities_typed.
  - destruct l; [discriminate | discriminate].
  - rewrite forallb_forall in *. intros a Ha. apply wf_activity_typed. auto.
Qed.

Lemma format_kv_data_wf (kv : pyval) :
  wf_kv kv = true -> truthy kv = true ->
  exists d, kv = VDict d
            /\ format_kv_data kv
               = Ok (u "📝 Custom KV Data:\n" ++ concat (map kv_line d)).
Proof.
  intros Hwf Ht. destruct kv as [| | | | |d]; try discriminate.
  exists d. split; [reflexivity|]. apply format_kv_data_dict.
  destruct d; [discriminate | discriminate].
Qed.

Lemma render_presence_text (d du : list (pystr * pyval))
  (status clean_id : pystr) :
  wf_payload (VDict d) = true ->
  dict_get d (u "discord_user") (VDict []) = VDict du ->
  dict_get d (u "discord_status") (VStr (u "unknown")) = VStr status ->
  render_presence (VDict d) clean_id
  = Ok (strip (presence_text d du status clean_id)).
Proof.
  intros Hwf Edu Est.
  destruct (wf_payload_fields _ Hwf) as (_ & _ & Hsp & Hact & Hkv).
  unfold render_presence, presence_text, presence_header, status_line,
    device_lines, spotify_section, activities_section, kv_section.
  rewrite !get_dict. cbn [bind]. rewrite Edu, !get_dict. cbn [bind].
  rewrite Est. cbn [str_table_get upper_method bind].
  replace (u ")\n\n") with (u ")" ++ u "\n\n") by (vm_compute; reflexivity).
  destruct (truthy (dict_get d (u "active_on_discord_desktop") VNone));
  destruct (truthy (dict_get d (u "active_on_discord_mobile") VNone)).
  all: destruct (truthy (dict_get d (u "listening_to_spotify") VNone)
                 && truthy (dict_get d (u "spotify") VNone)) eqn:Els;
    [ apply andb_true_iff in Els; destruct Els as [_ Els];
      destruct (format_spotify_data_wf _ Hsp Els) as (sd & st & Esd & Est' & Efs);
      rewrite Efs, Esd, Est'
    | ]; cbn [bind].
  all: destruct (truthy (dict_get d (u "activities") (VList []))) eqn:Ea;
    [ destruct (format_activities_wf _ Hact Ea) as (l & El & Efa);
      rewrite Efa, El; rewrite El in Ea;
      destruct l as [|a l]; [discriminate Ea|]
    | destruct (dict_get d (u "activities") (VList [])) as [| | | |[|a l]|];
      try discriminate Hact; try discriminate Ea ];
    cbn [bind].
  all: destruct (truthy (dict_get d (u "kv") (VDict []))) eqn:Ek;
    [ destruct (format_kv_data_wf _ Hkv Ek) as (kd & Ekd & Efk);
      rewrite Efk, Ekd; rewrite Ekd in Ek;
      destruct kd as [|e kd]; [discriminate Ek|]
    | destruct (dict_get d (u "kv") (VDict [])) as [| | | | |[|e kd]];
      try discriminate Hkv; try discriminate Ek ];
    cbn [bind].
  all: rewrite <- ?app_assoc, ?app_nil_r, ?app_nil_l; reflexivity.
Qed.

Lemma render_presence_wf (d : list (pystr * pyval)) (clean_id : pystr) :
  wf_payload (VDict d) = true ->
  exists du rest,
    dict_get d (u "discord_user") (VDict []) = VDict du
    /\ render_presence (VDict d) clean_id
       = Ok (strip (presence_header du clean_id ++ u "\n\n" ++ rest)).
Proof.
  intros Hwf.
  destruct (wf_payload_fields _ Hwf) as (Hdu & Hst & _).
  destruct (record_is_dict _ _ Hdu) as [du Edu].
  destruct (is_str_inv _ Hst) as [status Est].
  exists du. eexists. split; [exact Edu|].
  rewrite (@render_presence_text d du status clean_id Hwf Edu Est). reflexivity.
Qed.

Lemma pystr_eqb_refl (s : pystr) : pystr_eqb s s = true.
Proof. unfold pystr_eqb. destruct (pystr_eq_dec s s); congruence. Qed.

Lemma eq_str_same (s : pystr) : eq_str (VStr s) s = true.
Proof. apply pystr_eqb_refl. Qed.

Lemma eq_str_other (v : pyval) (s : pystr) :
  v <> VStr s -> eq_str v s = false.
Proof.
  intros Hne. destruct v; try reflexivity. cbn [eq_str].
  destruct (pystr_eqb s0 s) eqn:E; [|reflexivity].
  apply pystr_eqb_eq in E. congruence.
Qed.

Lemma strip_trailing (c0 : codepoint) (h1 h2 : pystr) (c : codepoint)
  (w : pystr) :
  c0 :: h1 = h2 ++ [c] -> isspace c0 = false -> isspace c = false ->
  forallb isspace w = true ->
  strip ((c0 :: h1) ++ w) = c0 :: h1.
Proof.
  intros Hh Hc0 Hc Hw. unfold strip, lstrip.
  replace (dropwhile isspace ((c0 :: h1) ++ w)) with ((c0 :: h1) ++ w)
    by (cbn [app dropwhile]; now rewrite Hc0).
  rewrite Hh. clear Hh Hc0. induction w as [|x w IH] using rev_ind.
  - rewrite app_nil_r, rstrip_snoc, Hc. reflexivity.
  - rewrite forallb_app in Hw. apply andb_true_iff in Hw.
    destruct Hw as [Hw Hx]. cbn [forallb] in Hx. rewrite andb_true_r in Hx.
    rewrite app_assoc, rstrip_snoc, Hx. auto.
Qed.

Lemma presence_header_ends (du : list (pystr * pyval)) (clean_id : pystr) :
  exists c0 h1 h2 c,
    presence_header du clean_id = c0 :: h1 /\ c0 :: h1 = h2 ++ [c]
    /\ isspace c0 = false /\ isspace c = false.
Proof.
  unfold presence_header.
  generalize (if eq_str (dict_get du (u "discriminator") (VStr (u "0"))) (u "0")
      then u "@" ++ str (dict_get du (u "username") (VStr (u "Unknown")))
      else str (dict_get du (u "username") (VStr (u "Unknown"))) ++ u "#"
           ++ str (dict_get du (u "discriminator") (VStr (u "0")))) as name.
  generalize (str (dict_get du (u "id") (VStr clean_id))) as id.
  replace (u "✅ Discord Presence for ")
    with (0x2705%N :: tl (u "✅ Discord Presence for "))
    by (vm_compute; reflexivity).
  replace (u ")") with [0x29%N] by (vm_compute; reflexivity).
  generalize (tl (u "✅ Discord Presence for ")) as t0.
  generalize (u " (") as paren.
  intros paren t0 id name.
  exists 0x2705%N, (t0 ++ name ++ paren ++ id ++ [0x29%N]),
    ((0x2705%N :: t0) ++ name ++ paren ++ id), 0x29%N.
  split; [reflexivity|]. split; [|split; vm_compute; reflexivity].
  cbn [app]. now rewrite <- !app_assoc.
Qed.

Lemma render_presence_header (d : list (pystr * pyval)) (clean_id : pystr) :
  wf_payload (VDict d) = true ->
  exists du rest,
    dict_get d (u "discord_user") (VDict []) = VDict du
    /\ render_presence (VDict d) clean_id
       = Ok (presence_header du clean_id ++ rest).
Proof.
  intros Hwf. destruct (render_presence_wf d clean_id Hwf) as (du & rest & Edu & E).
  destruct (presence_header_ends du clean_id) as (c0 & h1 & h2 & c & Eh & Eh' & Hc0 & Hc).
  destruct (@strip_keeps_prefix c0 h1 h2 c (u "\n\n" ++ rest) Eh' Hc0 Hc) as [r' Er].
  exists du, r'. split; [exact Edu|]. rewrite E, Eh, Er. reflexivity.
Qed.

(** ** The header of the full presence text *)

(** C7. On every payload of the schema, the full presence text starts with
    the header: the display name, which is [@username] when the
    discriminator is the string "0" (or absent) and [username#discriminator]
    otherwise, followed by the user id in parentheses. *)
Theorem presence_header_display_name
  (d du : list (pystr * pyval)) (clean_id : pystr) :
  wf_payload (VDict d) = true ->
  dict_get d (u "discord_user") (VDict []) = VDict du ->
  (dict_get du (u "discriminator") (VStr (u "0")) = VStr (u "0") ->
   exists rest,
     render_presence (VDict d) clean_id
     = Ok (u "✅ Discord Presence for " ++ u "@"
           ++ str (dict_get du (u "username") (VStr (u "Unknown")))
           ++ u " (" ++ str (dict_get du (u "id") (VStr clean_id)) ++ u ")"
           ++ rest))
  /\ (dict_get du (u "discriminator") (VStr (u "0")) <> VStr (u "0") ->
      exists rest,
        render_presence (VDict d) clean_id
        = Ok (u "✅ Discord Presence for "
              ++ str (dict_get du (u "username") (VStr (u "Unknown")))
              ++ u "#" ++ str (dict_get du (u "discriminator") (VStr (u "0")))
              ++ u " (" ++ str (dict_get du (u "id") (VStr clean_id)) ++ u ")"
              ++ rest)).
Proof.
  intros Hwf Hdu.
  destruct (render_presence_header d clean_id Hwf) as (du' & rest & Hdu' & E).
  assert (du' = du) as -> by congruence.
  split; intros Hdisc; exists rest; rewrite E; clear E; unfold presence_header.
  - rewrite Hdisc, eq_str_same. cbv iota.
    rewrite <- !app_assoc. reflexivity.
  - rewrite (eq_str_other Hdisc). cbv iota.
    rewrite <- !app_assoc. reflexivity.
Qed.

Lemma presence_header_display_name_witness :
  (exists rest,
     render_presence (VDict [ (u "discord_user", VDict (alice (u "0"))) ])
       (u "94490510688792576")
     = Ok (u "✅ Discord Presence for " ++ u "@" ++ u "alice"
           ++ u " (" ++ u "94490510688792576" ++ u ")" ++ rest))
  /\ (exists rest,
        render_presence (VDict [ (u "discord_user", VDict (alice (u "1234"))) ])
          (u "94490510688792576")
        = Ok (u "✅ Discord Presence for " ++ u "alice" ++ u "#" ++ u "1234"
              ++ u " (" ++ u "94490510688792576" ++ u ")" ++ rest)).
Proof.
  assert (Hname : forall disc,
             str (dict_get (alice disc) (u "username") (VStr (u "Unknown")))
             = u "alice") by (intros disc; vm_compute; reflexivity).
  assert (Hid : forall disc,
             str (dict_get (alice disc) (u "id") (VStr (u "94490510688792576")))
             = u "94490510688792576") by (intros disc; vm_compute; reflexivity).
  split.
  - assert (Hwf : wf_payload (VDict [ (u "discord_user", VDict (alice (u "0"))) ])
                  = true) by (vm_compute; reflexivity).
    assert (Hdu : dict_get [ (u "discord_user", VDict (alice (u "0"))) ]
                    (u "discord_user") (VDict []) = VDict (alice (u "0")))
      by (vm_compute; reflexivity).
    destruct (@presence_header_display_name _ _ (u "94490510688792576") Hwf Hdu)
      as [H _].
    destruct H as [rest E]; [vm_compute; reflexivity|].
    exists rest. rewrite E, Hname, Hid. reflexivity.
  - assert (Hwf : wf_payload (VDict [ (u "discord_user", VDict (alice (u "1234"))) ])
                  = true) by (vm_compute; reflexivity).
    assert (Hdu : dict_get [ (u "discord_user", VDict (alice (u "1234"))) ]
                    (u "discord_user") (VDict []) = VDict (alice (u "1234")))
      by (vm_compute; reflexivity).
    destruct (@presence_header_display_name _ _ (u "94490510688792576") Hwf Hdu)
      as [_ H].
    destruct H as [rest E]; [vm_compute; discriminate|].
    exists rest. rewrite E, Hname, Hid.
    replace (str (dict_get (alice (u "1234")) (u "discriminator") (VStr (u "0"))))
      with (u "1234") by (vm_compute; reflexivity).
    reflexivity.
Defined.

Lemma wf_discord_user_get (d : list (pystr * pyval)) :
  wf_payload (VDict d) = true ->
  exists du, dict_get d (u "discord_user") (VDict []) = VDict du.
Proof.
  intros Hwf. destruct (wf_payload_fields _ Hwf) as (Hdu & _).
  exact (record_is_dict _ _ Hdu).
Qed.

Lemma render_spotify_wf (d : list (pystr * pyval)) :
  wf_payload (VDict d) = true -> exists s, render_spotify (VDict d) = Ok s.
Proof.
  intros Hwf.
  destruct (wf_payload_fields _ Hwf) as (_ & _ & Hsp & _ & _).
  destruct (wf_discord_user_get _ Hwf) as [du Edu].
  unfold render_spotify. rewrite !get_dict. cbn [bind].
  rewrite Edu, get_dict. cbn [bind].
  destruct (truthy (dict_get d (u "listening_to_spotify") (VBool false)));
    cbn [negb orb]; [|eexists; reflexivity].
  destruct (truthy (dict_get d (u "spotify") VNone)) eqn:Es;
    cbn [negb]; [|eexists; reflexivity].
  destruct (format_spotify_data_wf _ Hsp Es) as (sd & st & -> & _ & ->).
  cbn [bind]. rewrite !get_dict. cbn [bind]. eexists. reflexivity.
Qed.

Lemma render_kv_wf (d : list (pystr * pyval)) :
  wf_payload (VDict d) = true -> exists s, render_kv (VDict d) = Ok s.
Proof.
  intros Hwf.
  destruct (wf_payload_fields _ Hwf) as (_ & _ & _ & _ & Hkv).
  destruct (wf_discord_user_get _ Hwf) as [du Edu].
  unfold render_kv. rewrite !get_dict. cbn [bind].
  rewrite Edu, get_dict. cbn [bind].
  destruct (truthy (dict_get d (u "kv") (VDict []))) eqn:Ek;
    cbn [negb]; [|eexists; reflexivity].
  destruct (format_kv_data_wf _ Hkv Ek) as (kd & _ & ->).
  cbn [bind]. eexists. reflexivity.
Qed.

Lemma strip_core (c0 c : codepoint) (m w : pystr) :
  isspace c0 = false -> isspace c = false -> forallb isspace w = true ->
  strip (c0 :: m ++ c :: w) = c0 :: m ++ [c].
Proof.
  intros Hc0 Hc Hw.
  replace (c0 :: m ++ c :: w) with ((c0 :: m ++ [c]) ++ w)
    by (cbn [app]; now rewrite <- app_assoc).
  now apply (@strip_trailing c0 (m ++ [c]) (c0 :: m) c w).
Qed.

Lemma reassociate_ends (c0 c : codepoint) (t0 x t1 w : pystr) :
  ((c0 :: t0) ++ x ++ t1 ++ [c]) ++ w = c0 :: (t0 ++ x ++ t1) ++ c :: w.
Proof. cbn [app]. now rewrite <- !app_assoc. Qed.

Lemma presence_text_empty (clean_id : pystr) :
  presence_text [] [] (u "unknown") clean_id
  = (u "✅ Discord Presence for @Unknown (" ++ clean_id
     ++ u ")\n\nStatus: ⚪ UNKNOWN") ++ u "\n\n\n".
Proof.
  unfold presence_text, presence_header, status_line, device_lines,
    spotify_section, activities_section, kv_section.
  replace (dict_get [] (u "discriminator") (VStr (u "0"))) with (VStr (u "0"))
    by reflexivity.
  rewrite eq_str_same.
  replace (str (dict_get [] (u "username") (VStr (u "Unknown"))))
    with (u "Unknown") by reflexivity.
  replace (str (dict_get [] (u "id") (VStr clean_id))) with clean_id
    by reflexivity.
  replace (truthy (dict_get [] (u "active_on_discord_desktop") VNone))
    with false by reflexivity.
  replace (truthy (dict_get [] (u "active_on_discord_mobile") VNone))
    with false by reflexivity.
  replace (truthy (dict_get [] (u "listening_to_spotify") VNone))
    with false by reflexivity.
  replace (dict_get [] (u "activities") (VList [])) with (VList [])
    by reflexivity.
  replace (dict_get [] (u "kv") (VDict [])) with (VDict []) by reflexivity.
  cbv iota.
  replace (match assoc_str status_emoji (u "unknown") with
           | Some emoji => emoji
           | None => u "⚪"
           end) with (u "⚪") by (vm_compute; reflexivity).
  replace (upper (u "unknown")) with (u "UNKNOWN") by (vm_compute; reflexivity).
  replace (u "✅ Discord Presence for @Unknown (")
    with (u "✅ Discord Presence for " ++ u "@" ++ u "Unknown" ++ u " (")
    by (vm_compute; reflexivity).
  replace (u ")\n\nStatus: ⚪ UNKNOWN")
    with (u ")" ++ u "\n\n" ++ u "Status: " ++ u "⚪" ++ u " " ++ u "UNKNOWN")
    by (vm_compute; reflexivity).
  replace (u "\n\n\n") with (u "\n\n" ++ u "\n") by (vm_compute; reflexivity).
  rewrite <- ?app_assoc, ?app_nil_r, ?app_nil_l. reflexivity.
Qed.

Lemma render_presence_empty (clean_id : pystr) :
  render_presence (VDict []) clean_id
  = Ok (u "✅ Discord Presence for @Unknown (" ++ clean_id
        ++ u ")\n\nStatus: ⚪ UNKNOWN").
Proof.
  rewrite (@render_presence_text [] [] (u "unknown") clean_id)
    by (vm_compute; reflexivity).
  rewrite presence_text_empty. f_equal.
  replace (u "✅ Discord Presence for @Unknown (")
    with (0x2705%N :: tl (u "✅ Discord Presence for @Unknown ("))
    by (vm_compute; reflexivity).
  replace (u ")\n\nStatus: ⚪ UNKNOWN")
    with (removelast (u ")\n\nStatus: ⚪ UNKNOWN") ++ [0x4E%N])
    by (vm_compute; reflexivity).
  generalize (tl (u "✅ Discord Presence for @Unknown (")) as t0.
  generalize (removelast (u ")\n\nStatus: ⚪ UNKNOWN")) as t1.
  intros t1 t0.
  rewrite reassociate_ends, strip_core by (vm_compute; reflexivity).
  cbn [app]. now rewrite <- !app_assoc.
Qed.

(** ** Payloads with absent fields *)

(** C4. On every payload of the schema, whichever of its fields are absent,
    each of the three renderers returns a string and does not raise; on the
    payload with no field at all, the texts are the defaults: the name
    "Unknown", the requested identifier, the status "UNKNOWN", and no
    section. *)
Theorem renderers_total_on_partial_payloads :
  (forall data clean_id,
     wf_payload data = true ->
     (exists s, render_presence data clean_id = Ok s)
     /\ (exists s, render_spotify data = Ok s)
     /\ (exists s, render_kv data = Ok s))
  /\ (forall clean_id,
        render_presence (VDict []) clean_id
        = Ok (u "✅ Discord Presence for @Unknown (" ++ clean_id
              ++ u ")\n\nStatus: ⚪ UNKNOWN"))
  /\ render_spotify (VDict [])
     = Ok (u "🎵 Unknown is not currently listening to Spotify")
  /\ render_kv (VDict []) = Ok (u "📝 Unknown has no custom KV data set").
Proof.
  split; [|split; [|split]].
  - intros data clean_id Hwf.
    destruct (record_is_dict _ _ Hwf) as [d ->].
    split; [|split].
    + destruct (render_presence_wf d clean_id Hwf) as (du & rest & _ & E).
      rewrite E. eexists. reflexivity.
    + now apply render_spotify_wf.
    + now apply render_kv_wf.
  - apply render_presence_empty.
  - vm_compute. reflexivity.
  - vm_compute. reflexivity.
Qed.

Lemma renderers_total_on_partial_payloads_witness :
  (exists s, render_presence sparse_payload (u "94490510688792576") = Ok s)
  /\ (exists s, render_spotify sparse_payload = Ok s)
  /\ (exists s, render_kv sparse_payload = Ok s).
Proof.
  destruct renderers_total_on_partial_payloads as [Htotal _].
  apply Htotal. vm_compute. reflexivity.
Defined.

(** A field that is present with the value [null] is not an absent field:
    the renderers raise on it. *)
Example render_kv_null_discord_user :
  render_kv (VDict [ (u "discord_user", VNone) ])
  = Raise (mk_exn AttributeError
             (u "'NoneType' object has no attribute 'get'")).
Proof. vm_compute. reflexivity. Qed.

(** * Further properties *)

(** ** More on the identifier validator *)

Lemma ranges_disjoint_spec (a b : list (N * N)) (c : codepoint) :
  ranges_disjoint a b = true -> in_ranges c a = true -> in_ranges c b = false.
Proof.
  unfold ranges_disjoint, in_ranges. intros Hd Ha.
  apply existsb_exists in Ha. destruct Ha as (r & Hr & Hc).
  rewrite forallb_forall in Hd. specialize (Hd r Hr).
  rewrite forallb_forall in Hd.
  apply not_true_is_false. intros Hb.
  apply existsb_exists in Hb. destruct Hb as (w & Hw & Hcw).
  specialize (Hd w Hw).
  apply andb_true_iff in Hc, Hcw. destruct Hc as [H1 H2], Hcw as [H3 H4].
  apply N.leb_le in H1, H2, H3, H4.
  apply orb_true_iff in Hd. destruct Hd as [Hd|Hd]; apply N.ltb_lt in Hd; lia.
Qed.

Lemma isdigit_cp_not_space (c : codepoint) :
  isdigit_cp c = true -> isspace c = false.
Proof.
  apply ranges_disjoint_spec. vm_compute. reflexivity.
Qed.

Lemma dropwhile_all (p : codepoint -> bool) (s : pystr) :
  forallb p s = true -> dropwhile p s = [].
Proof.
  induction s as [|c s IH]; [reflexivity|]. cbn [forallb dropwhile].
  intros H. apply andb_true_iff in H. destruct H as [-> H]. auto.
Qed.

Lemma dropwhile_app_all (p : codepoint -> bool) (a b : pystr) :
  forallb p a = true -> dropwhile p (a ++ b) = dropwhile p b.
Proof.
  induction a as [|c a IH]; [reflexivity|]. cbn [forallb dropwhile app].
  intros H. apply andb_true_iff in H. destruct H as [-> H]. auto.
Qed.

Lemma strip_all_space (s : pystr) : forallb isspace s = true -> strip s = [].
Proof.
  intros H. unfold strip, lstrip, rstrip. now rewrite (@dropwhile_all _ _ H).
Qed.

Lemma strip_nil_all_space (s : pystr) : strip s = [] -> forallb isspace s = true.
Proof.
  unfold strip, lstrip, rstrip. intros H.
  assert (Hd : forall t, dropwhile isspace t = [] -> forallb isspace t = true).
  { induction t as [|c t IH]; [reflexivity|]. cbn [dropwhile forallb].
    destruct (isspace c); [auto | discriminate]. }
  assert (Hs : forall t, forallb isspace (dropwhile isspace t) = true ->
                         forallb isspace t = true).
  { induction t as [|c t IH]; [reflexivity|]. cbn [dropwhile forallb].
    destruct (isspace c) eqn:E; [auto|]. cbn [forallb]. now rewrite E. }
  apply Hs.
  apply (f_equal (@rev codepoint)) in H. rewrite rev_involutive in H.
  cbn [rev] in H. apply Hd in H.
  rewrite forallb_forall in *. intros x Hx. apply H. now apply in_rev in Hx.
Qed.

Lemma no_space_strip (s : pystr) :
  forallb (fun c => negb (isspace c)) s = true -> strip s = s.
Proof.
  intros H. unfold strip, lstrip, rstrip.
  assert (Hd : forall t, forallb (fun c => negb (isspace c)) t = true ->
                         dropwhile isspace t = t).
  { intros [|c t]; [reflexivity|]. cbn [forallb dropwhile]. intros Ht.
    apply andb_true_iff in Ht. destruct Ht as [Hc _].
    apply negb_true_iff in Hc. now rewrite Hc. }
  rewrite (Hd s H). rewrite Hd; [apply rev_involutive|].
  rewrite forallb_forall in *. intros x Hx. apply H. now apply in_rev.
Qed.

Lemma strip_sandwich (ws t ws' : pystr) :
  forallb isspace ws = true -> forallb isspace ws' = true ->
  forallb (fun c => negb (isspace c)) t = true ->
  strip (ws ++ t ++ ws') = t.
Proof.
  intros Hws Hws' Ht. unfold strip, lstrip.
  rewrite dropwhile_app_all by assumption.
  destruct t as [|c0 t]; [cbn [app]; now rewrite dropwhile_all|].
  assert (Hc0 : isspace c0 = false).
  { cbn [forallb] in Ht. apply andb_true_iff in Ht. destruct Ht as [Hc _].
    now apply negb_true_iff in Hc. }
  replace (dropwhile isspace ((c0 :: t) ++ ws')) with ((c0 :: t) ++ ws')
    by (cbn [app dropwhile]; now rewrite Hc0).
  unfold rstrip. rewrite rev_app_distr.
  rewrite dropwhile_app_all
    by (rewrite forallb_forall in *; intros x Hx; apply Hws'; now apply in_rev).
  fold (rstrip (c0 :: t)).
  pose proof (@no_space_strip _ Ht) as Hs. unfold strip, lstrip in Hs.
  replace (dropwhile isspace (c0 :: t)) with (c0 :: t) in Hs
    by (cbn [dropwhile]; now rewrite Hc0).
  exact Hs.
Qed.

Lemma isdigit_no_space (s : pystr) :
  isdigit s = true -> forallb (fun c => negb (isspace c)) s = true.
Proof.
  unfold isdigit. destruct s as [|c s]; [discriminate|].
  intros H. rewrite forallb_forall in *. intros x Hx.
  apply negb_true_iff, isdigit_cp_not_space. auto.
Qed.

Lemma sanitize_user_id_ok (user_id clean_id : pystr) :
  sanitize_user_id user_id = Ok clean_id
  <-> clean_id = strip user_id /\ isdigit clean_id = true
      /\ (17 <= length clean_id <= 20)%nat.
Proof.
  unfold sanitize_user_id. split.
  - destruct (strip user_id) as [|c s] eqn:E; [discriminate|].
    destruct (isdigit (c :: s)) eqn:Ed; cbn [negb]; [|discriminate].
    destruct (length (c :: s) <? 17)%nat eqn:E17; [discriminate|].
    destruct (20 <? length (c :: s))%nat eqn:E20; [discriminate|].
    cbn [orb]. intros [= <-].
    apply Nat.ltb_ge in E17, E20. repeat split; auto.
  - intros (-> & Hd & Hlen).
    destruct (strip user_id) as [|c s] eqn:E; [discriminate Hd|].
    rewrite Hd. cbn [negb].
    replace (length (c :: s) <? 17)%nat with false
      by (symmetry; apply Nat.ltb_ge; lia).
    replace (20 <? length (c :: s))%nat with false
      by (symmetry; apply Nat.ltb_ge; lia).
    reflexivity.
Qed.

(** The validator accepts an input exactly when its trimmed form passes
    [str.isdigit] and has 17 to 20 characters, and then returns that
    trimmed form. *)
Theorem sanitize_user_id_accepts_exactly (user_id clean_id : pystr) :
  sanitize_user_id user_id = Ok clean_id
  <-> clean_id = strip user_id /\ isdigit clean_id = true
      /\ (17 <= length clean_id <= 20)%nat.
Proof. apply sanitize_user_id_ok. Qed.

Lemma sanitize_user_id_accepts_exactly_witness :
  sanitize_user_id (u " 94490510688792576\n") = Ok (u "94490510688792576").
Proof.
  apply sanitize_user_id_accepts_exactly.
  split; [vm_compute; reflexivity|]. split; [vm_compute; reflexivity|].
  vm_compute. lia.
Defined.

(** An identifier that was accepted is accepted again and unchanged, and
    has no whitespace in it. *)
Theorem sanitize_user_id_idempotent (user_id clean_id : pystr) :
  sanitize_user_id user_id = Ok clean_id ->
  sanitize_user_id clean_id = Ok clean_id
  /\ forallb (fun c => negb (isspace c)) clean_id = true.
Proof.
  intros H. apply sanitize_user_id_ok in H.
  destruct H as (_ & Hd & Hlen).
  pose proof (@isdigit_no_space _ Hd) as Hns.
  split; [|exact Hns].
  apply sanitize_user_id_ok.
  rewrite (@no_space_strip _ Hns). auto.
Qed.

(** Every rejection is a [ValueError] with one of three messages. *)
Theorem sanitize_user_id_rejections (user_id : pystr) (e : exn) :
  sanitize_user_id user_id = Raise e ->
  exn_class_of e = ValueError
  /\ (exn_str e = u "User ID cannot be empty"
      \/ exn_str e = u "User ID must contain only digits"
      \/ exn_str e = u "User ID must be between 17-20 digits").
Proof.
  unfold sanitize_user_id. destruct (strip user_id) as [|c s].
  - intros [= <-]. split; [reflexivity | left; reflexivity].
  - destruct (negb (isdigit (c :: s))).
    + intros [= <-]. split; [reflexivity | right; left; reflexivity].
    + destruct ((length (c :: s) <? 17)%nat || (20 <? length (c :: s))%nat);
        [|discriminate].
      intros [= <-]. split; [reflexivity | right; right; reflexivity].
Qed.

Lemma sanitize_user_id_rejections_witness :
  exn_class_of (mk_exn ValueError (u "User ID must contain only digits"))
  = ValueError
  /\ (exn_str (mk_exn ValueError (u "User ID must contain only digits"))
      = u "User ID cannot be empty"
      \/ exn_str (mk_exn ValueError (u "User ID must contain only digits"))
         = u "User ID must contain only digits"
      \/ exn_str (mk_exn ValueError (u "User ID must contain only digits"))
         = u "User ID must be between 17-20 digits").
Proof.
  apply (@sanitize_user_id_rejections (u "12345678901234567x")).
  vm_compute. reflexivity.
Defined.

Lemma raise_message (A : Type) (c c' : exn_class) (m m' : pystr) :
  @Raise A (mk_exn c m) = Raise (mk_exn c' m') -> m = m'.
Proof. now intros [= _ ->]. Qed.

(** The validator answers "User ID cannot be empty" exactly on the inputs
    made of whitespace only, the empty input among them. *)
Theorem sanitize_user_id_blank (user_id : pystr) :
  sanitize_user_id user_id = Raise (mk_exn ValueError (u "User ID cannot be empty"))
  <-> forallb isspace user_id = true.
Proof.
  unfold sanitize_user_id. split.
  - destruct (strip user_id) as [|c s] eqn:E.
    + intros _. now apply strip_nil_all_space.
    + destruct (negb (isdigit (c :: s))).
      * intros H. apply raise_message in H. vm_compute in H. discriminate H.
      * destruct ((length (c :: s) <? 17)%nat || (20 <? length (c :: s))%nat);
          [|discriminate].
        intros H. apply raise_message in H. vm_compute in H. discriminate H.
  - intros H. now rewrite (@strip_all_space _ H).
Qed.

Lemma sanitize_user_id_blank_witness :
  sanitize_user_id (u " \n ")
  = Raise (mk_exn ValueError (u "User ID cannot be empty")).
Proof. apply sanitize_user_id_blank. vm_compute. reflexivity. Defined.

Lemma ascii_digits_no_space (s : pystr) :
  forallb is_ascii_digit s = true ->
  forallb (fun c => negb (isspace c)) s = true.
Proof.
  intros H. rewrite forallb_forall in *. intros x Hx.
  apply negb_true_iff, is_ascii_digit_not_space. auto.
Qed.

(** ASCII digits between whitespace: the whitespace is dropped, and the
    digits are accepted when there are 17 to 20 of them and rejected with
    the length message otherwise. *)
Theorem sanitize_user_id_length_bounds (ws digits ws' : pystr) :
  forallb isspace ws = true -> forallb isspace ws' = true ->
  digits <> [] -> forallb is_ascii_digit digits = true ->
  sanitize_user_id (ws ++ digits ++ ws')
  = if (length digits <? 17)%nat || (20 <? length digits)%nat
    then Raise (mk_exn ValueError (u "User ID must be between 17-20 digits"))
    else Ok digits.
Proof.
  intros Hws Hws' Hne Hd. unfold sanitize_user_id.
  rewrite (@strip_sandwich ws digits ws' Hws Hws' (@ascii_digits_no_space _ Hd)).
  rewrite (@ascii_digits_isdigit _ Hne Hd). cbn [negb].
  destruct digits; [congruence | reflexivity].
Qed.

Lemma sanitize_user_id_length_bounds_witness :
  sanitize_user_id (u " 1234567890123456 ")
  = Raise (mk_exn ValueError (u "User ID must be between 17-20 digits"))
  /\ sanitize_user_id (u " 12345678901234567 ") = Ok (u "12345678901234567")
  /\ sanitize_user_id (u " 12345678901234567890 ") = Ok (u "12345678901234567890")
  /\ sanitize_user_id (u " 123456789012345678901 ")
     = Raise (mk_exn ValueError (u "User ID must be between 17-20 digits")).
Proof.
  split; [|split; [|split]].
  - replace (u " 1234567890123456 ") with (u " " ++ u "1234567890123456" ++ u " ")
      by (vm_compute; reflexivity).
    rewrite sanitize_user_id_length_bounds; try (vm_compute; reflexivity).
    vm_compute. discriminate.
  - replace (u " 12345678901234567 ") with (u " " ++ u "12345678901234567" ++ u " ")
      by (vm_compute; reflexivity).
    rewrite sanitize_user_id_length_bounds; try (vm_compute; reflexivity).
    vm_compute. discriminate.
  - replace (u " 12345678901234567890 ")
      with (u " " ++ u "12345678901234567890" ++ u " ")
      by (vm_compute; reflexivity).
    rewrite sanitize_user_id_length_bounds; try (vm_compute; reflexivity).
    vm_compute. discriminate.
  - replace (u " 123456789012345678901 ")
      with (u " " ++ u "123456789012345678901" ++ u " ")
      by (vm_compute; reflexivity).
    rewrite sanitize_user_id_length_bounds; try (vm_compute; reflexivity).
    vm_compute. discriminate.
Defined.

Lemma sanitize_user_id_idempotent_witness :
  sanitize_user_id (u "94490510688792576") = Ok (u "94490510688792576")
  /\ forallb (fun c => negb (isspace c)) (u "94490510688792576") = true.
Proof.
  apply (@sanitize_user_id_idempotent (u " 94490510688792576\n")).
  vm_compute. reflexivity.
Defined.

(** ** More on the tools *)


(** A rejected identifier is answered with the text of its rejection, and
    no request is made for it. *)
Theorem rejected_id_is_never_requested
  (user_id : pystr) (e : exn) (net : network) :
  sanitize_user_id user_id = Raise e ->
  (filter is_request (fst (get_user_presence user_id net)) = []
   /\ snd (get_user_presence user_id net)
      = Ok (u "❌ Invalid user ID: " ++ exn_str e))
  /\ (filter is_request (fst (get_user_spotify user_id net)) = []
      /\ snd (get_user_spotify user_id net)
         = Ok (u "❌ Invalid user ID: " ++ exn_str e))
  /\ (filter is_request (fst (get_user_kv user_id net)) = []
      /\ snd (get_user_kv user_id net)
         = Ok (u "❌ Invalid user ID: " ++ exn_str e)).
Proof.
  intros H.
  destruct (@invalid_id_makes_no_request user_id e net H) as (H1 & H2 & H3).
  rewrite H1, H2, H3. repeat split.
Qed.

Lemma rejected_id_is_never_requested_witness :
  filter is_request (fst (get_user_kv (u "abc") (answers_with_status 200))) = []
  /\ snd (get_user_kv (u "abc") (answers_with_status 200))
     = Ok (u "❌ Invalid user ID: "
           ++ exn_str (mk_exn ValueError (u "User ID must contain only digits"))).
Proof.
  assert (H : sanitize_user_id (u "abc")
              = Raise (mk_exn ValueError (u "User ID must contain only digits")))
    by (vm_compute; reflexivity).
  destruct (@rejected_id_is_never_requested (u "abc") _ (answers_with_status 200) H)
    as (_ & _ & H3).
  exact H3.
Defined.

(** What a tool records for an accepted identifier: the log line of the
    call, the one request, and at most one error line after it. *)
Theorem valid_id_trace (user_id clean_id : pystr) (net : network) :
  sanitize_user_id user_id = Ok clean_id ->
  (exists tail,
     fst (get_user_presence user_id net)
     = LogInfo (u "Fetching presence for user ID: " ++ user_id)
       :: HttpGet (LANYARD_API_BASE ++ u "/users/" ++ clean_id) REQUEST_TIMEOUT
       :: tail
     /\ (tail = [] \/ exists msg, tail = [LogError msg]))
  /\ (exists tail,
        fst (get_user_spotify user_id net)
        = LogInfo (u "Fetching Spotify data for user ID: " ++ user_id)
          :: HttpGet (LANYARD_API_BASE ++ u "/users/" ++ clean_id) REQUEST_TIMEOUT
          :: tail
        /\ (tail = [] \/ exists msg, tail = [LogError msg]))
  /\ (exists tail,
        fst (get_user_kv user_id net)
        = LogInfo (u "Fetching KV data for user ID: " ++ user_id)
          :: HttpGet (LANYARD_API_BASE ++ u "/users/" ++ clean_id) REQUEST_TIMEOUT
          :: tail
        /\ (tail = [] \/ exists msg, tail = [LogError msg])).
Proof.
  intros Hid.
  split; [|split]; run_valid_tool Hid; eexists;
    (split; [reflexivity|]); cbn [app]; eauto.
Qed.

Lemma valid_id_trace_witness :
  exists tail,
    fst (get_user_presence (u " 94490510688792576 ") (answers_with_status 404))
    = LogInfo (u "Fetching presence for user ID: " ++ u " 94490510688792576 ")
      :: HttpGet (LANYARD_API_BASE ++ u "/users/" ++ u "94490510688792576")
           REQUEST_TIMEOUT
      :: tail
    /\ (tail = [] \/ exists msg, tail = [LogError msg]).
Proof.
  destruct (@valid_id_trace (u " 94490510688792576 ") (u "94490510688792576")
              (answers_with_status 404)) as (H & _).
  - vm_compute. reflexivity.
  - exact H.
Defined.

Lemma decode_and_render_2xx (render : pyval -> result pystr)
  (clean_id : pystr) (r : response) :
  is_2xx r = true ->
  decode_and_render render clean_id (Ok r)
  = let* result := json r in
    let* success := get result (u "success") VNone in
    if negb (truthy success) then
      Ok (u "❌ API returned unsuccessful response for user " ++ clean_id)
    else
      let* data := get result (u "data") (VDict []) in
      render data.
Proof.
  unfold is_2xx. intros H. unfold decode_and_render, raise_for_status.
  cbn [bind]. rewrite H. reflexivity.
Qed.

Ltac run_with Hid Hnet :=
  run_tool; rewrite Hid; cbv beta iota zeta; rewrite Hnet; cbv beta iota zeta.

(** A 2xx response whose body has no true [success] is answered with the
    "unsuccessful" text, whatever else the body holds. *)
Theorem unsuccessful_response_text
  (user_id clean_id : pystr) (net : network) (r : response)
  (body : list (pystr * pyval)) :
  sanitize_user_id user_id = Ok clean_id ->
  net (LANYARD_API_BASE ++ u "/users/" ++ clean_id) = Responds r ->
  is_2xx r = true ->
  json r = Ok (VDict body) ->
  truthy (dict_get body (u "success") VNone) = false ->
  snd (get_user_presence user_id net)
  = Ok (u "❌ API returned unsuccessful response for user " ++ clean_id)
  /\ snd (get_user_spotify user_id net)
     = Ok (u "❌ API returned unsuccessful response for user " ++ clean_id)
  /\ snd (get_user_kv user_id net)
     = Ok (u "❌ API returned unsuccessful response for user " ++ clean_id).
Proof.
  intros Hid Hnet H2xx Hjson Hsuccess.
  split; [|split]; run_with Hid Hnet;
    rewrite (decode_and_render_2xx _ _ _ H2xx), Hjson; cbn [bind];
    rewrite get_dict; cbn [bind]; rewrite Hsuccess; reflexivity.
Qed.

Lemma unsuccessful_response_text_witness :
  snd (get_user_presence (u "94490510688792576")
         (answers_with_body (VDict [ (u "success", VBool false);
                                     (u "data", VInt 7) ])))
  = Ok (u "❌ API returned unsuccessful response for user "
        ++ u "94490510688792576").
Proof.
  assert (Hid : sanitize_user_id (u "94490510688792576")
                = Ok (u "94490510688792576")) by (vm_compute; reflexivity).
  assert (Hs : truthy (dict_get [ (u "success", VBool false); (u "data", VInt 7) ]
                         (u "success") VNone) = false)
    by (vm_compute; reflexivity).
  destruct (@unsuccessful_response_text (u "94490510688792576")
              (u "94490510688792576")
              (answers_with_body (VDict [ (u "success", VBool false);
                                          (u "data", VInt 7) ]))
              (mk_response 200 (u "")
                 (Ok (VDict [ (u "success", VBool false); (u "data", VInt 7) ])))
              [ (u "success", VBool false); (u "data", VInt 7) ]
              Hid eq_refl eq_refl eq_refl Hs) as (H & _).
  exact H.
Defined.

(** A failure that is neither an HTTP status nor a timeout (the transport
    failed, the body did not decode) is answered with "Error:" and the text
    of the exception, and that text is logged as an error. *)
Theorem other_failures_are_reported
  (user_id clean_id : pystr) (net : network) (e : exn) :
  sanitize_user_id user_id = Ok clean_id ->
  reaches_generic_handler (exn_class_of e) = true ->
  (net (LANYARD_API_BASE ++ u "/users/" ++ clean_id) = Fails e
   \/ exists r, net (LANYARD_API_BASE ++ u "/users/" ++ clean_id) = Responds r
                /\ is_2xx r = true /\ json r = Raise e) ->
  get_user_presence user_id net
  = ([ LogInfo (u "Fetching presence for user ID: " ++ user_id);
       HttpGet (LANYARD_API_BASE ++ u "/users/" ++ clean_id) REQUEST_TIMEOUT;
       LogError (u "Error fetching presence: " ++ exn_str e) ],
     Ok (u "❌ Error: " ++ exn_str e))
  /\ get_user_spotify user_id net
     = ([ LogInfo (u "Fetching Spotify data for user ID: " ++ user_id);
          HttpGet (LANYARD_API_BASE ++ u "/users/" ++ clean_id) REQUEST_TIMEOUT;
          LogError (u "Error fetching Spotify data: " ++ exn_str e) ],
        Ok (u "❌ Error: " ++ exn_str e))
  /\ get_user_kv user_id net
     = ([ LogInfo (u "Fetching KV data for user ID: " ++ user_id);
          HttpGet (LANYARD_API_BASE ++ u "/users/" ++ clean_id) REQUEST_TIMEOUT;
          LogError (u "Error fetching KV data: " ++ exn_str e) ],
        Ok (u "❌ Error: " ++ exn_str e)).
Proof.
  intros Hid Hclass [Hnet | (r & Hnet & H2xx & Hjson)].
  - split; [|split]; run_tool; rewrite Hid; cbv beta iota zeta; rewrite Hnet;
      unfold decode_and_render; cbn [bind];
      destruct (exn_class_of e); try discriminate Hclass; reflexivity.
  - split; [|split]; run_tool; rewrite Hid; cbv beta iota zeta; rewrite Hnet;
      rewrite (decode_and_render_2xx _ _ _ H2xx), Hjson; cbn [bind];
      destruct (exn_class_of e); try discriminate Hclass; reflexivity.
Qed.

Lemma other_failures_are_reported_witness :
  snd (get_user_kv (u "94490510688792576")
         (fails_with (mk_exn OtherException (u "All connection attempts failed"))))
  = Ok (u "❌ Error: "
        ++ exn_str (mk_exn OtherException (u "All connection attempts failed"))).
Proof.
  assert (Hid : sanitize_user_id (u "94490510688792576")
                = Ok (u "94490510688792576")) by (vm_compute; reflexivity).
  destruct (@other_failures_are_reported (u "94490510688792576")
              (u "94490510688792576")
              (fails_with (mk_exn OtherException (u "All connection attempts failed")))
              (mk_exn OtherException (u "All connection attempts failed"))
              Hid eq_refl (or_introl eq_refl)) as (_ & _ & H).
  rewrite H. reflexivity.
Defined.

(** A successful body without [data] is rendered as the empty payload; a
    body whose [data] is [null], or which is not an object, is answered
    with the text of an [AttributeError]. *)
Theorem data_absent_or_null
  (user_id clean_id : pystr) (net : network) (r : response) :
  sanitize_user_id user_id = Ok clean_id ->
  net (LANYARD_API_BASE ++ u "/users/" ++ clean_id) = Responds r ->
  is_2xx r = true ->
  (forall body,
     json r = Ok (VDict body) ->
     truthy (dict_get body (u "success") VNone) = true ->
     dict_lookup body (u "data") = None ->
     snd (get_user_presence user_id net)
     = Ok (u "✅ Discord Presence for @Unknown (" ++ clean_id
           ++ u ")\n\nStatus: ⚪ UNKNOWN")
     /\ snd (get_user_spotify user_id net)
        = Ok (u "🎵 Unknown is not currently listening to Spotify")
     /\ snd (get_user_kv user_id net)
        = Ok (u "📝 Unknown has no custom KV data set"))
  /\ (forall body,
        json r = Ok (VDict body) ->
        truthy (dict_get body (u "success") VNone) = true ->
        dict_lookup body (u "data") = Some VNone ->
        snd (get_user_presence user_id net)
        = Ok (u "❌ Error: " ++ u "'NoneType' object has no attribute 'get'")
        /\ snd (get_user_spotify user_id net)
           = Ok (u "❌ Error: " ++ u "'NoneType' object has no attribute 'get'")
        /\ snd (get_user_kv user_id net)
           = Ok (u "❌ Error: " ++ u "'NoneType' object has no attribute 'get'"))
  /\ (forall v,
        json r = Ok v -> (forall body, v <> VDict body) ->
        snd (get_user_presence user_id net)
        = Ok (u "❌ Error: " ++ exn_str (attribute_error v (u "get")))
        /\ snd (get_user_spotify user_id net)
           = Ok (u "❌ Error: " ++ exn_str (attribute_error v (u "get")))
        /\ snd (get_user_kv user_id net)
           = Ok (u "❌ Error: " ++ exn_str (attribute_error v (u "get")))).
Proof.
  intros Hid Hnet H2xx. split; [|split].
  - intros body Hjson Hsuccess Hdata.
    assert (Hget : dict_get body (u "data") (VDict []) = VDict [])
      by (unfold dict_get; now rewrite Hdata).
    split; [|split]; run_with Hid Hnet;
      rewrite (decode_and_render_2xx _ _ _ H2xx), Hjson; cbn [bind];
      rewrite !get_dict; cbn [bind]; rewrite Hsuccess; cbn [negb];
      rewrite Hget.
    + rewrite render_presence_empty. reflexivity.
    + replace (render_spotify (VDict []))
        with (@Ok pystr (u "🎵 Unknown is not currently listening to Spotify"))
        by (vm_compute; reflexivity).
      reflexivity.
    + replace (render_kv (VDict []))
        with (@Ok pystr (u "📝 Unknown has no custom KV data set"))
        by (vm_compute; reflexivity).
      reflexivity.
  - intros body Hjson Hsuccess Hdata.
    assert (Hget : dict_get body (u "data") (VDict []) = VNone)
      by (unfold dict_get; now rewrite Hdata).
    assert (Hmsg : exn_str (attribute_error VNone (u "get"))
                   = u "'NoneType' object has no attribute 'get'")
      by (vm_compute; reflexivity).
    rewrite <- Hmsg.
    split; [|split]; run_with Hid Hnet;
      rewrite (decode_and_render_2xx _ _ _ H2xx), Hjson; cbn [bind];
      rewrite !get_dict; cbn [bind]; rewrite Hsuccess; cbn [negb];
      rewrite Hget; reflexivity.
  - intros v Hjson Hv.
    assert (Hget : forall key default,
               get v key default = Raise (attribute_error v (u "get")))
      by (intros key default; destruct v; try reflexivity;
          exfalso; eapply Hv; reflexivity).
    split; [|split]; run_with Hid Hnet;
      rewrite (decode_and_render_2xx _ _ _ H2xx), Hjson; cbn [bind];
      rewrite Hget; reflexivity.
Qed.

Lemma data_absent_or_null_witness :
  snd (get_user_presence (u "94490510688792576")
         (answers_with_body (VDict [ (u "success", VBool true) ])))
  = Ok (u "✅ Discord Presence for @Unknown (" ++ u "94490510688792576"
        ++ u ")\n\nStatus: ⚪ UNKNOWN")
  /\ snd (get_user_presence (u "94490510688792576")
            (answers_with_body (VDict [ (u "success", VBool true);
                                        (u "data", VNone) ])))
     = Ok (u "❌ Error: " ++ u "'NoneType' object has no attribute 'get'")
  /\ snd (get_user_presence (u "94490510688792576")
            (answers_with_body (VList [])))
     = Ok (u "❌ Error: " ++ exn_str (attribute_error (VList []) (u "get"))).
Proof.
  assert (Hid : sanitize_user_id (u "94490510688792576")
                = Ok (u "94490510688792576")) by (vm_compute; reflexivity).
  split; [|split].
  - destruct (@data_absent_or_null (u "94490510688792576")
                (u "94490510688792576")
                (answers_with_body (VDict [ (u "success", VBool true) ]))
                (mk_response 200 (u "") (Ok (VDict [ (u "success", VBool true) ])))
                Hid eq_refl eq_refl) as (H & _ & _).
    destruct (H [ (u "success", VBool true) ] eq_refl) as (H1 & _);
      [vm_compute; reflexivity | vm_compute; reflexivity | exact H1].
  - destruct (@data_absent_or_null (u "94490510688792576")
                (u "94490510688792576")
                (answers_with_body (VDict [ (u "success", VBool true);
                                            (u "data", VNone) ]))
                (mk_response 200 (u "")
                   (Ok (VDict [ (u "success", VBool true); (u "data", VNone) ])))
                Hid eq_refl eq_refl) as (_ & H & _).
    destruct (H [ (u "success", VBool true); (u "data", VNone) ] eq_refl)
      as (H1 & _);
      [vm_compute; reflexivity | vm_compute; reflexivity | exact H1].
  - destruct (@data_absent_or_null (u "94490510688792576")
                (u "94490510688792576")
                (answers_with_body (VList []))
                (mk_response 200 (u "") (Ok (VList [])))
                Hid eq_refl eq_refl) as (_ & _ & H).
    destruct (H (VList []) eq_refl) as (H1 & _); [discriminate | exact H1].
Defined.

(** ** More on the renderers *)

(** On a payload of the schema the full presence text is, trimmed: the
    header, a blank line, the status line, the device lines, a blank line,
    then the Spotify, Activities and KV blocks that apply, in this order. *)
Theorem presence_text_composition (data : pyval) (clean_id : pystr) :
  wf_payload data = true ->
  exists d du status,
    data = VDict d
    /\ dict_get d (u "discord_user") (VDict []) = VDict du
    /\ dict_get d (u "discord_status") (VStr (u "unknown")) = VStr status
    /\ render_presence data clean_id
       = Ok (strip (presence_header du clean_id ++ u "\n\n"
                    ++ status_line status ++ device_lines d ++ u "\n"
                    ++ spotify_section d ++ activities_section d
                    ++ kv_section d)).
Proof.
  intros Hwf. destruct (record_is_dict _ _ Hwf) as [d ->].
  destruct (wf_payload_fields _ Hwf) as (Hdu & Hst & _).
  destruct (record_is_dict _ _ Hdu) as [du Edu].
  destruct (is_str_inv _ Hst) as [status Est].
  exists d, du, status. repeat (split; [assumption || reflexivity|]).
  rewrite (@render_presence_text d du status clean_id Hwf Edu Est).
  unfold presence_text. reflexivity.
Qed.

(** When the user is listening, the Spotify-only text is, trimmed: the
    heading with the username, the Spotify block, the album art line when
    there is a URL, and the track line, whose URL is the track id after
    [https://open.spotify.com/track/], when there is a track id. *)
Theorem render_spotify_listening (d du sd st : list (pystr * pyval)) :
  dict_get d (u "discord_user") (VDict []) = VDict du ->
  truthy (dict_get d (u "listening_to_spotify") (VBool false)) = true ->
  dict_get d (u "spotify") VNone = VDict sd -> sd <> [] ->
  dict_get sd (u "timestamps") (VDict []) = VDict st ->
  render_spotify (VDict d)
  = Ok (strip (spotify_text (dict_get du (u "username") (VStr (u "Unknown")))
                 sd st)).
Proof.
  intros Edu Hl Esd Hsd Est. unfold render_spotify, spotify_text.
  rewrite !get_dict. cbn [bind]. rewrite Edu, get_dict. cbn [bind].
  rewrite Hl, Esd. destruct sd as [|e sd]; [congruence|].
  cbn [truthy negb orb].
  rewrite (@format_spotify_data_dict (e :: sd) st Hsd Est). cbn [bind].
  rewrite !get_dict. cbn [bind].
  destruct (truthy (dict_get (e :: sd) (u "album_art_url") (VStr (u ""))));
    destruct (truthy (dict_get (e :: sd) (u "track_id") (VStr (u ""))));
    rewrite <- ?app_assoc, ?app_nil_r, ?app_nil_l; reflexivity.
Qed.

(** The KV-only text: the sentence "... has no custom KV data set" with
    the username when the mapping is empty or absent, else the heading with
    the username followed by the KV block, trimmed. *)
Theorem render_kv_text (d du : list (pystr * pyval)) :
  dict_get d (u "discord_user") (VDict []) = VDict du ->
  (truthy (dict_get d (u "kv") (VDict [])) = false ->
   render_kv (VDict d)
   = Ok (u "📝 " ++ str (dict_get du (u "username") (VStr (u "Unknown")))
         ++ u " has no custom KV data set"))
  /\ (forall entry entries,
        dict_get d (u "kv") (VDict []) = VDict (entry :: entries) ->
        render_kv (VDict d)
        = Ok (strip (u "✅ KV Data for "
                     ++ str (dict_get du (u "username") (VStr (u "Unknown")))
                     ++ u "\n\n" ++ u "📝 Custom KV Data:\n"
                     ++ concat (map kv_line (entry :: entries))))).
Proof.
  intros Edu. split.
  - intros Hkv. unfold render_kv. rewrite !get_dict. cbn [bind].
    rewrite Edu, get_dict. cbn [bind]. rewrite Hkv. reflexivity.
  - intros entry entries Ekv. unfold render_kv. rewrite !get_dict. cbn [bind].
    rewrite Edu, get_dict. cbn [bind]. rewrite Ekv. cbn [truthy negb].
    rewrite format_kv_data_dict by discriminate. cbn [bind].
    rewrite <- ?app_assoc. reflexivity.
Qed.

Lemma presence_text_composition_witness :
  exists d du status,
    sparse_payload = VDict d
    /\ dict_get d (u "discord_user") (VDict []) = VDict du
    /\ dict_get d (u "discord_status") (VStr (u "unknown")) = VStr status
    /\ render_presence sparse_payload (u "94490510688792576")
       = Ok (strip (presence_header du (u "94490510688792576") ++ u "\n\n"
                    ++ status_line status ++ device_lines d ++ u "\n"
                    ++ spotify_section d ++ activities_section d
                    ++ kv_section d)).
Proof.
  apply presence_text_composition. vm_compute. reflexivity.
Defined.

Lemma render_spotify_listening_witness :
  render_spotify (VDict listening_payload)
  = Ok (strip (spotify_text
                 (dict_get (alice (u "0")) (u "username") (VStr (u "Unknown")))
                 song_record [])).
Proof.
  apply render_spotify_listening.
  - vm_compute. reflexivity.
  - vm_compute. reflexivity.
  - vm_compute. reflexivity.
  - discriminate.
  - vm_compute. reflexivity.
Defined.

Lemma render_kv_text_witness :
  render_kv (VDict listening_payload)
  = Ok (strip (u "✅ KV Data for "
               ++ str (dict_get (alice (u "0")) (u "username") (VStr (u "Unknown")))
               ++ u "\n\n" ++ u "📝 Custom KV Data:\n"
               ++ concat (map kv_line [ (u "a", VStr (u "1")) ]))).
Proof.
  destruct (@render_kv_text listening_payload (alice (u "0"))) as [_ H].
  - vm_compute. reflexivity.
  - apply H. vm_compute. reflexivity.
Defined.

(** ** More on the formatters *)

(** The Spotify formatter on what is not a record with a timestamps
    record: a value that is false as a condition gives the fixed sentence;
    a true value that is not a [dict] raises; and so does a record whose
    [timestamps] is present and not a [dict] ([null], say). *)
Theorem format_spotify_data_edges :
  (forall v, truthy v = false ->
     format_spotify_data v = Ok (u "Not listening to Spotify"))
  /\ (forall v, truthy v = true -> is_dict v = false ->
        format_spotify_data v = Raise (attribute_error v (u "get")))
  /\ (forall d t,
        d <> [] -> dict_lookup d (u "timestamps") = Some t ->
        is_dict t = false ->
        format_spotify_data (VDict d) = Raise (attribute_error t (u "get"))).
Proof.
  split; [|split].
  - intros v Hv. unfold format_spotify_data. now rewrite Hv.
  - intros v Hv Hd. unfold format_spotify_data. rewrite Hv. cbn [negb].
    destruct v; try discriminate Hd; reflexivity.
  - intros d t Hd Ht Hnd. unfold format_spotify_data.
    destruct d as [|e d]; [congruence|]. cbn [truthy negb].
    rewrite !get_dict. cbn [bind].
    replace (dict_get (e :: d) (u "timestamps") (VDict [])) with t
      by (unfold dict_get; now rewrite Ht).
    destruct t; try discriminate Hnd; reflexivity.
Qed.

Lemma format_spotify_data_edges_witness :
  format_spotify_data (VDict []) = Ok (u "Not listening to Spotify")
  /\ format_spotify_data (VStr (u "x"))
     = Raise (attribute_error (VStr (u "x")) (u "get"))
  /\ format_spotify_data
       (VDict [ (u "song", VStr (u "Song B")); (u "timestamps", VNone) ])
     = Raise (attribute_error VNone (u "get")).
Proof.
  destruct format_spotify_data_edges as (H1 & H2 & H3).
  split; [|split].
  - apply H1. reflexivity.
  - apply H2; vm_compute; reflexivity.
  - apply H3; [discriminate | vm_compute; reflexivity | reflexivity].
Defined.

(** An element of the activity sequence that is not a record makes the
    formatter raise, whatever comes before or after it. *)
Theorem format_activities_bad_element (before after : list pyval) (x : pyval) :
  forallb typed_activity before = true -> is_dict x = false ->
  format_activities (VList (before ++ x :: after))
  = Raise (attribute_error x (u "get")).
Proof.
  intros Hb Hx. unfold format_activities.
  replace (truthy (VList (before ++ x :: after))) with true
    by (destruct before; reflexivity).
  cbn [negb iter bind].
  assert (Hloop : forall l i output,
             forallb typed_activity l = true ->
             format_activities_loop i (l ++ x :: after) output
             = Raise (attribute_error x (u "get"))).
  { induction l as [|a l IH]; intros i output Hl.
    - cbn [app format_activities_loop].
      destruct x; try discriminate Hx; reflexivity.
    - cbn [forallb] in Hl. apply andb_true_iff in Hl. destruct Hl as [Ha Hl].
      change ((a :: l) ++ x :: after) with (a :: (l ++ x :: after)).
      destruct a as [| | | | |d]; try discriminate Ha.
      cbn [typed_activity] in Ha.
      cbn [format_activities_loop]. rewrite !get_dict. cbn [bind].
      destruct (dict_get d (u "type") (VInt 0)) as [| |z| | |];
        try discriminate Ha.
      rewrite type_names_get. cbn [bind].
      destruct (truthy (dict_get d (u "details") VNone)) eqn:Ed;
        [rewrite (@getitem_truthy _ _ Ed)|]; cbn [bind];
        (destruct (truthy (dict_get d (u "state") VNone)) eqn:Es;
         [rewrite (@getitem_truthy _ _ Es)|]); cbn [bind];
        apply IH; exact Hl. }
  now apply Hloop.
Qed.

Lemma format_activities_bad_element_witness :
  format_activities
    (VList ([ VDict [ (u "name", VStr (u "Game A")) ] ] ++ VNone :: []))
  = Raise (attribute_error VNone (u "get")).
Proof.
  apply format_activities_bad_element; vm_compute; reflexivity.
Defined.

(** An activity whose [type] is not an integer: a string or [null] is
    labelled "Activity"; a list or an object cannot be looked up in the
    table of labels and the formatter raises. *)
Theorem activity_type_not_an_integer (d : list (pystr * pyval)) (t : pyval) :
  dict_lookup d (u "type") = Some t ->
  ((is_str t = true \/ t = VNone) ->
   format_activities (VList [ VDict d ])
   = Ok (u "\n" ++ str_of_Z 1 ++ u ". " ++ u "Activity" ++ u " "
         ++ str (dict_get d (u "name") (VStr (u "Unknown"))) ++ u "\n"
         ++ line_if_truthy (u "   Details: ") (dict_get d (u "details") VNone) str
         ++ line_if_truthy (u "   State: ") (dict_get d (u "state") VNone) str))
  /\ ((is_dict t = true \/ exists l, t = VList l) ->
      format_activities (VList [ VDict d ]) = Raise (unhashable t)).
Proof.
  intros Ht.
  assert (Hget : dict_get d (u "type") (VInt 0) = t)
    by (unfold dict_get; now rewrite Ht).
  split; intros Hkind; unfold format_activities;
    cbn [truthy negb iter bind format_activities_loop];
    rewrite !get_dict; cbn [bind]; rewrite Hget.
  - assert (Hlabel : int_table_get type_names t (u "Activity") = Ok (u "Activity"))
      by (destruct Hkind as [Hs | ->]; [destruct t; try discriminate Hs|];
          reflexivity).
    rewrite Hlabel. cbn [bind]. unfold line_if_truthy.
    destruct (truthy (dict_get d (u "details") VNone)) eqn:Ed;
      [rewrite (@getitem_truthy _ _ Ed)|]; cbn [bind];
      (destruct (truthy (dict_get d (u "state") VNone)) eqn:Es;
       [rewrite (@getitem_truthy _ _ Es)|]); cbn [bind];
      rewrite <- ?app_assoc, ?app_nil_r, ?app_nil_l; reflexivity.
  - assert (Hlabel : int_table_get type_names t (u "Activity")
                     = Raise (unhashable t))
      by (destruct Hkind as [Hd | [l ->]]; [destruct t; try discriminate Hd|];
          reflexivity).
    rewrite Hlabel. reflexivity.
Qed.

Lemma activity_type_not_an_integer_witness :
  format_activities
    (VList [ VDict [ (u "name", VStr (u "Game A")); (u "type", VStr (u "2")) ] ])
  = Ok (u "\n" ++ str_of_Z 1 ++ u ". " ++ u "Activity" ++ u " "
        ++ str (dict_get [ (u "name", VStr (u "Game A")); (u "type", VStr (u "2")) ]
                  (u "name") (VStr (u "Unknown"))) ++ u "\n"
        ++ line_if_truthy (u "   Details: ")
             (dict_get [ (u "name", VStr (u "Game A")); (u "type", VStr (u "2")) ]
                (u "details") VNone) str
        ++ line_if_truthy (u "   State: ")
             (dict_get [ (u "name", VStr (u "Game A")); (u "type", VStr (u "2")) ]
                (u "state") VNone) str)
  /\ format_activities
       (VList [ VDict [ (u "name", VStr (u "Game A")); (u "type", VList []) ] ])
     = Raise (unhashable (VList [])).
Proof.
  split.
  - destruct (@activity_type_not_an_integer
                [ (u "name", VStr (u "Game A")); (u "type", VStr (u "2")) ]
                (VStr (u "2"))) as [H _].
    + vm_compute. reflexivity.
    + apply H. left. reflexivity.
  - destruct (@activity_type_not_an_integer
                [ (u "name", VStr (u "Game A")); (u "type", VList []) ]
                (VList [])) as [_ H].
    + vm_compute. reflexivity.
    + apply H. right. exists []. reflexivity.
Defined.

(** ** More on timestamps *)

Local Open Scope Z_scope.

Lemma str_of_Z_year_head (y : Z) :
  1 <= y <= 9999 ->
  exists c rest, str_of_Z y = c :: rest /\ c <> 0x55%N.
Proof.
  intros Hy.
  pose (P := fun y : Z => match str_of_Z y with
                          | c :: _ => negb (c =? 0x55)%N
                          | [] => false
                          end).
  assert (H : P y = true)
    by (apply (@all_below_spec P (Z.to_nat 9999) 1);
        [vm_compute; reflexivity | rewrite Z2Nat.id; lia]).
  unfold P in H. clear P.
  destruct (str_of_Z y) as [|c rest]; [discriminate|].
  exists c, rest. split; [reflexivity|].
  apply negb_true_iff, N.eqb_neq in H. exact H.
Qed.

(** An integer of milliseconds is rendered as "Unknown" exactly when it is
    outside the years 1 to 9999. *)
Theorem format_timestamp_unknown_iff (ms : Z) :
  format_timestamp (VInt ms) = u "Unknown" <-> (ms < MS_MIN \/ MS_MAX < ms).
Proof.
  split; [|apply format_timestamp_out_of_range].
  intros H.
  destruct (Z_lt_dec ms MS_MIN) as [|Hlo]; [now left|].
  destruct (Z_lt_dec MS_MAX ms) as [|Hhi]; [now right|].
  exfalso. rewrite format_timestamp_in_range in H by lia.
  assert (Hy : 1 <= year (utc_of_seconds (ms / 1000)) <= 9999).
  { destruct (year_of_seconds_bounds (ms / 1000) 1) as [Hl _].
    destruct (year_of_seconds_bounds (ms / 1000) 9999) as [_ Hh].
    change (days_before_year 1) with 0 in Hl.
    change (days_before_year (9999 + 1)) with 3652059 in Hh.
    unfold EPOCH_ORDINAL, MS_MIN, MS_MAX in *.
    split; [apply Hl | apply Hh]; Z.div_mod_to_equations; lia. }
  destruct (str_of_Z_year_head Hy) as (c & rest & Ec & Hc).
  unfold strftime in H. rewrite Ec in H.
  replace (u "Unknown") with (0x55%N :: tl (u "Unknown")) in H
    by (vm_compute; reflexivity).
  cbn [app] in H. injection H as H _. contradiction.
Qed.

Lemma format_timestamp_unknown_iff_witness :
  format_timestamp (VInt 253402300800000) = u "Unknown".
Proof.
  apply format_timestamp_unknown_iff. right. unfold MS_MAX. lia.
Defined.

Lemma digit_char_inj (a b : Z) :
  0 <= a <= 9 -> 0 <= b <= 9 -> digit_char a = digit_char b -> a = b.
Proof.
  unfold digit_char. intros Ha Hb H. apply Z2N.inj in H; lia.
Qed.

Lemma timestamp_text_inj (y mo d h mi s y' mo' d' h' mi' s' : Z) :
  1000 <= y <= 9999 -> 1000 <= y' <= 9999 ->
  0 <= mo <= 99 -> 0 <= mo' <= 99 -> 0 <= d <= 99 -> 0 <= d' <= 99 ->
  0 <= h <= 99 -> 0 <= h' <= 99 -> 0 <= mi <= 99 -> 0 <= mi' <= 99 ->
  0 <= s <= 99 -> 0 <= s' <= 99 ->
  timestamp_text y mo d h mi s = timestamp_text y' mo' d' h' mi' s' ->
  y = y' /\ mo = mo' /\ d = d' /\ h = h' /\ mi = mi' /\ s = s'.
Proof.
  intros Hy Hy' Hmo Hmo' Hd Hd' Hh Hh' Hmi Hmi' Hs Hs'.
  unfold timestamp_text, four_digits, two_digits.
  replace (u "-") with [0x2D%N] by (vm_compute; reflexivity).
  replace (u " ") with [0x20%N] by (vm_compute; reflexivity).
  replace (u ":") with [0x3A%N] by (vm_compute; reflexivity).
  generalize (u " UTC") as suffix. intros suffix.
  cbn [app]. intros H.
  injection H as E1 E2 E3 E4 E5 E6 E7 E8 E9 E10 E11 E12 E13 E14.
  apply digit_char_inj in E1, E2, E3, E4, E5, E6, E7, E8, E9, E10, E11, E12,
    E13, E14; Z.div_mod_to_equations; lia.
Qed.

Lemma year_from_1000 (ms : Z) :
  MS_YEAR_1000 <= ms <= MS_MAX ->
  1000 <= year (utc_of_seconds (ms / 1000)) <= 9999.
Proof.
  intros Hms. unfold MS_YEAR_1000, MS_MAX in Hms.
  destruct (year_of_seconds_bounds (ms / 1000) 1000) as [Hlo _].
  destruct (year_of_seconds_bounds (ms / 1000) 9999) as [_ Hhi].
  change (days_before_year 1000) with 364877 in Hlo.
  change (days_before_year (9999 + 1)) with 3652059 in Hhi.
  unfold EPOCH_ORDINAL in *.
  split; [apply Hlo | apply Hhi]; Z.div_mod_to_equations; lia.
Qed.

(** From the year 1000 on, two integers of milliseconds are rendered alike
    exactly when they fall in the same second: the text drops the
    milliseconds and nothing else. *)
Theorem format_timestamp_same_second (ms1 ms2 : Z) :
  MS_YEAR_1000 <= ms1 <= MS_MAX -> MS_YEAR_1000 <= ms2 <= MS_MAX ->
  (format_timestamp (VInt ms1) = format_timestamp (VInt ms2)
   <-> ms1 / 1000 = ms2 / 1000).
Proof.
  intros H1 H2.
  assert (Hr1 : MS_MIN <= ms1 <= MS_MAX)
    by (unfold MS_MIN, MS_YEAR_1000, MS_MAX in *; lia).
  assert (Hr2 : MS_MIN <= ms2 <= MS_MAX)
    by (unfold MS_MIN, MS_YEAR_1000, MS_MAX in *; lia).
  rewrite !format_timestamp_in_range by assumption.
  split; [|now intros ->].
  pose proof (year_from_1000 H1) as Hy1. pose proof (year_from_1000 H2) as Hy2.
  rewrite !strftime_text by assumption.
  destruct (utc_of_seconds_sound (ms1 / 1000)) as [V1 S1].
  destruct (utc_of_seconds_sound (ms2 / 1000)) as [V2 S2].
  unfold valid_civil in V1, V2.
  destruct V1 as (Vm1 & Vd1 & Vh1 & Vmi1 & Vs1).
  destruct V2 as (Vm2 & Vd2 & Vh2 & Vmi2 & Vs2).
  assert (D1 : days_in_month (year (utc_of_seconds (ms1 / 1000)))
                 (month (utc_of_seconds (ms1 / 1000))) <= 31)
    by (unfold days_in_month;
        repeat match goal with
        | |- context [if ?c then _ else _] => destruct c
        end; lia).
  assert (D2 : days_in_month (year (utc_of_seconds (ms2 / 1000)))
                 (month (utc_of_seconds (ms2 / 1000))) <= 31)
    by (unfold days_in_month;
        repeat match goal with
        | |- context [if ?c then _ else _] => destruct c
        end; lia).
  intros H. apply timestamp_text_inj in H; try lia.
  destruct H as (Ey & Emo & Ed & Eh & Emi & Es).
  rewrite <- S1, <- S2, Ey, Emo, Ed, Eh, Emi, Es. reflexivity.
Qed.

Lemma format_timestamp_same_second_witness :
  format_timestamp (VInt 1700000000000) = format_timestamp (VInt 1700000000999).
Proof.
  apply format_timestamp_same_second;
    unfold MS_YEAR_1000, MS_MAX; try lia. reflexivity.
Defined.

Local Close Scope Z_scope.

(** ** The texts are trimmed *)

Lemma dropwhile_head (p : codepoint -> bool) (s r : pystr) (c : codepoint) :
  dropwhile p s = c :: r -> p c = false.
Proof.
  induction s as [|x s IH]; [discriminate|]. cbn [dropwhile].
  destruct (p x) eqn:E; [exact IH|]. now intros [= <- _].
Qed.

Lemma dropwhile_suffix (p : codepoint -> bool) (s : pystr) :
  exists w, s = w ++ dropwhile p s.
Proof.
  induction s as [|x s [w IH]]; [now exists []|]. cbn [dropwhile].
  destruct (p x); [|now exists []].
  exists (x :: w). cbn [app]. now rewrite <- IH.
Qed.

Lemma strip_ends (s : pystr) :
  strip s = []
  \/ exists c0 h1 h2 c,
       strip s = c0 :: h1 /\ c0 :: h1 = h2 ++ [c]
       /\ isspace c0 = false /\ isspace c = false.
Proof.
  unfold strip, lstrip, rstrip.
  set (t := dropwhile isspace s).
  destruct (rev (dropwhile isspace (rev t))) as [|c0 h1] eqn:E; [now left|].
  right.
  destruct (dropwhile isspace (rev t)) as [|c r] eqn:Er; [discriminate E|].
  pose proof (@dropwhile_head _ _ _ _ Er) as Hc.
  cbn [rev] in E.
  destruct (dropwhile_suffix isspace (rev t)) as [w Hw]. rewrite Er in Hw.
  apply (f_equal (@rev codepoint)) in Hw. rewrite rev_involutive in Hw.
  rewrite rev_app_distr in Hw. cbn [rev] in Hw. rewrite E in Hw.
  exists c0, h1, (rev r), c. repeat split; auto.
  destruct t as [|x t'] eqn:Et.
  - discriminate Hw.
  - cbn [app] in Hw. injection Hw as -> _.
    apply (@dropwhile_head isspace s t' c0). exact Et.
Qed.

Lemma strip_idempotent (s : pystr) : strip (strip s) = strip s.
Proof.
  destruct (strip_ends s) as [-> | (c0 & h1 & h2 & c & -> & Eh & Hc0 & Hc)].
  - reflexivity.
  - rewrite <- (app_nil_r (c0 :: h1)) at 1.
    now apply (@strip_trailing c0 h1 h2 c []).
Qed.

Lemma ok_inj (A : Type) (a b : A) : Ok a = Ok b -> a = b.
Proof. now intros [= ->]. Qed.

(** The full presence text of a payload of the schema has no whitespace at
    either end: trimming it again changes nothing; and it is not empty. *)
Theorem render_presence_is_trimmed (data : pyval) (clean_id text : pystr) :
  wf_payload data = true ->
  render_presence data clean_id = Ok text ->
  strip text = text /\ text <> [].
Proof.
  intros Hwf H.
  destruct (record_is_dict _ _ Hwf) as [d ->].
  destruct (render_presence_header d clean_id Hwf) as (du & rest & _ & E).
  destruct (render_presence_wf d clean_id Hwf) as (du' & rest' & _ & E').
  split.
  - rewrite E' in H. apply ok_inj in H. subst text. apply strip_idempotent.
  - rewrite E in H. apply ok_inj in H. subst text.
    destruct (presence_header_ends du clean_id) as (c0 & h1 & h2 & c & Eh & _).
    rewrite Eh. discriminate.
Qed.

Lemma render_presence_is_trimmed_witness :
  strip (u "✅ Discord Presence for @Unknown (" ++ u "94490510688792576"
         ++ u ")\n\nStatus: ⚪ UNKNOWN")
  = u "✅ Discord Presence for @Unknown (" ++ u "94490510688792576"
    ++ u ")\n\nStatus: ⚪ UNKNOWN"
  /\ u "✅ Discord Presence for @Unknown (" ++ u "94490510688792576"
     ++ u ")\n\nStatus: ⚪ UNKNOWN" <> [].
Proof.
  apply (@render_presence_is_trimmed (VDict []) (u "94490510688792576")).
  - vm_compute. reflexivity.
  - apply render_presence_empty.
Defined.
